(** * Base wallet tracker bot ([bot.py]): embedding and verified properties

    The development follows the layout of the source file:

    - [PyBase]: the Python run time the bot leans on (exceptions, [str]
      methods, [int()] / [float()] on strings, binary64 arithmetic, the
      ['f'] presentation type of [format], [sorted]);
    - [Gateway]: the upstream services as an oracle, and the monad that
      records every call and reply;
    - [Bot]: [shorten_address], [format_wallet_analysis],
      [get_trending_base] and [handle_message], line by line;
    - the properties of the aggregation fold, the ranking, the trending
      view and the message handler.

    Strings are byte strings holding the UTF-8 encoding of the Python
    [str].  [str.strip] and the address pattern are modelled in full;
    [str.lower], [int()] and [float()] are modelled on ASCII text, which is
    what the explorer and the pair search send (letters beyond ASCII keep
    their case, digits and white space beyond ASCII are not read as such,
    and the limit CPython 3.11 puts on the number of digits [int()] reads
    is left out).  An [int] is a [Z]; a [float] is an IEEE 754 binary64
    value, computed with the reference operations of [SpecFloat] at
    precision 53, rounding to nearest even. *)

From Stdlib Require Import ZArith List String Ascii Bool Lia.
From Stdlib Require Import Permutation Sorted DecimalString SpecFloat.
Import ListNotations.

Local Open Scope string_scope.
Local Open Scope Z_scope.
Local Open Scope list_scope.

(* ================================================================== *)
(** * The Python base layer *)

Module PyBase.

(** ** Exceptions and results *)

Inductive exn : Type :=
| ValueError
| OverflowError
| ZeroDivisionError
| UnboundLocalError
| KeyError
| ClientError
| AttributeError.

Inductive result (A : Type) : Type :=
| Ok (a : A)
| Raise (e : exn).

Arguments Ok {A} a.
Arguments Raise {A} e.

Definition rbind {A B : Type} (r : result A) (k : A -> result B) : result B :=
  match r with
  | Ok a => k a
  | Raise e => Raise e
  end.

Notation "x <- r ;; k" := (rbind r (fun x => k))
  (at level 61, r at next level, right associativity).

Fixpoint mapM {A B : Type} (f : A -> result B) (l : list A) : result (list B) :=
  match l with
  | [] => Ok []
  | a :: l' => b <- f a ;; bs <- mapM f l' ;; Ok (b :: bs)
  end.

(** [d.get(k, default)] on a field that may be absent. *)
Definition get_default {A : Type} (field : option A) (default : A) : A :=
  match field with
  | Some v => v
  | None => default
  end.

(** ** Characters and strings *)

Definition code (c : ascii) : N := N_of_ascii c.

Definition is_upper (c : ascii) : bool := (65 <=? code c)%N && (code c <=? 90)%N.
Definition is_digit (c : ascii) : bool := (48 <=? code c)%N && (code c <=? 57)%N.

Definition is_hex (c : ascii) : bool :=
  is_digit c
  || ((97 <=? code c)%N && (code c <=? 102)%N)
  || ((65 <=? code c)%N && (code c <=? 70)%N).

Definition lower_char (c : ascii) : ascii :=
  if is_upper c then ascii_of_N (code c + 32) else c.

(** [str.lower()], on ASCII letters. *)
Fixpoint lower (s : string) : string :=
  match s with
  | EmptyString => EmptyString
  | String c s' => String (lower_char c) (lower s')
  end.

(** White space of [int()] and [float()] within ASCII: tab, line feed,
    vertical tab, form feed, carriage return and space. *)
Definition is_c_space (c : ascii) : bool :=
  ((9 <=? code c)%N && (code c <=? 13)%N) || (code c =? 32)%N.

(** White space of [str.strip()]: [str.isspace] characters.  The result is
    the number of bytes the white-space character at the head of the byte
    list occupies in UTF-8, or 0 when the list does not start with one.
    One byte: U+0009-000D, U+001C-001F, U+0020.  Two bytes: U+0085,
    U+00A0.  Three bytes: U+1680, U+2000-200A, U+2028, U+2029, U+202F,
    U+205F, U+3000. *)
Definition space_prefix (l : list ascii) : nat :=
  match l with
  | [] => O
  | c1 :: l1 =>
      let b1 := code c1 in
      if ((9 <=? b1) && (b1 <=? 13) || (28 <=? b1) && (b1 <=? 32))%N then 1%nat
      else
        match l1 with
        | [] => O
        | c2 :: l2 =>
            let b2 := code c2 in
            if ((b1 =? 194) && ((b2 =? 133) || (b2 =? 160)))%N then 2%nat
            else
              match l2 with
              | [] => O
              | c3 :: _ =>
                  let b3 := code c3 in
                  if ((b1 =? 225) && (b2 =? 154) && (b3 =? 128)
                      || (b1 =? 226) && (b2 =? 128)
                         && ((128 <=? b3) && (b3 <=? 138)
                             || (b3 =? 168) || (b3 =? 169) || (b3 =? 175))
                      || (b1 =? 226) && (b2 =? 129) && (b3 =? 159)
                      || (b1 =? 227) && (b2 =? 128) && (b3 =? 128))%N
                  then 3%nat else O
              end
        end
  end.

(** The same test at the end of the text, on the reversed byte list. *)
Definition space_suffix (r : list ascii) : nat :=
  match r with
  | [] => O
  | c1 :: r1 =>
      if (space_prefix [c1] =? 1)%nat then 1%nat
      else
        match r1 with
        | [] => O
        | c2 :: r2 =>
            if (space_prefix [c2; c1] =? 2)%nat then 2%nat
            else
              match r2 with
              | [] => O
              | c3 :: _ => if (space_prefix [c3; c2; c1] =? 3)%nat then 3%nat else O
              end
        end
  end.

Fixpoint strip_with (test : list ascii -> nat) (fuel : nat) (l : list ascii)
  : list ascii :=
  match fuel with
  | O => l
  | S fuel' =>
      match test l with
      | O => l
      | k => strip_with test fuel' (skipn k l)
      end
  end.

Definition lstrip_bytes (l : list ascii) : list ascii :=
  strip_with space_prefix (List.length l) l.

Definition rstrip_bytes (l : list ascii) : list ascii :=
  rev (strip_with space_suffix (List.length l) (rev l)).

(** [str.strip()]. *)
Definition strip (s : string) : string :=
  string_of_list_ascii (rstrip_bytes (lstrip_bytes (list_ascii_of_string s))).

(** [s[:n]] and [s[-n:]]. *)
Definition str_take (n : nat) (s : string) : string := substring 0 n s.

Definition str_last (n : nat) (s : string) : string :=
  let len := String.length s in
  substring (len - n) (len - (len - n)) s.

(** Decimal rendering of an [int], as [str(n)] and [f"{n}"] give it. *)
Definition str_of_int (z : Z) : string := NilZero.string_of_int (Z.to_int z).

(** ** Numbers

    A Python number is an [int] of unbounded size or a binary64 [float]. *)

Definition float : Type := spec_float.

Definition prec : Z := 53.
Definition emax : Z := 1024.

Inductive pynum : Type :=
| PInt (z : Z)
| PFloat (f : float).

(** An integer as an exact, not yet rounded, binary value. *)
Definition exact_of_Z (z : Z) : float :=
  match z with
  | Z0 => S754_zero false
  | Zpos p => S754_finite false p 0
  | Zneg p => S754_finite true p 0
  end.

(** [float(n)] for an [int]: rounded to nearest even, [OverflowError]
    when the rounded value is not finite. *)
Definition float_of_int (z : Z) : result float :=
  match binary_normalize prec emax z 0 false with
  | S754_infinity _ => Raise OverflowError
  | f => Ok f
  end.

Definition to_float (x : pynum) : result float :=
  match x with
  | PInt z => float_of_int z
  | PFloat f => Ok f
  end.

Definition float_is_zero (f : float) : bool :=
  match f with
  | S754_zero _ => true
  | _ => false
  end.

(** [a / b] on two [int]s: the quotient of the exact integers, rounded
    once. *)
Definition int_truediv (a b : Z) : result float :=
  if b =? 0 then Raise ZeroDivisionError
  else if a =? 0 then Ok (S754_zero (b <? 0))
  else
    match SFdiv prec emax (exact_of_Z a) (exact_of_Z b) with
    | S754_infinity _ => Raise OverflowError
    | f => Ok f
    end.

(** [a / b] on two [float]s. *)
Definition float_truediv (a b : float) : result float :=
  if float_is_zero b then Raise ZeroDivisionError
  else Ok (SFdiv prec emax a b).

(** [a / b], [a + b], [a * b]: an [int] operand meeting a [float] is
    converted first. *)
Definition py_truediv (a b : pynum) : result pynum :=
  match a, b with
  | PInt x, PInt y => f <- int_truediv x y ;; Ok (PFloat f)
  | _, _ =>
      x <- to_float a ;; y <- to_float b ;;
      f <- float_truediv x y ;; Ok (PFloat f)
  end.

Definition py_add (a b : pynum) : result pynum :=
  match a, b with
  | PInt x, PInt y => Ok (PInt (x + y))
  | _, _ => x <- to_float a ;; y <- to_float b ;; Ok (PFloat (SFadd prec emax x y))
  end.

Definition py_mul (a b : pynum) : result pynum :=
  match a, b with
  | PInt x, PInt y => Ok (PInt (x * y))
  | _, _ => x <- to_float a ;; y <- to_float b ;; Ok (PFloat (SFmul prec emax x y))
  end.

(** [x == 0]. *)
Definition py_eq_zero (x : pynum) : bool :=
  match x with
  | PInt z => z =? 0
  | PFloat f => float_is_zero f
  end.

(** [a < b] on floats, the only comparison [list.sort] performs. *)
Definition float_ltb (a b : float) : bool := SFltb a b.

Section Pow.

(** [pow(10.0, d)] of the C library, which [10 ** d] returns for a negative
    [int] exponent [d]; the library does not promise a correctly rounded
    result, so it stays a parameter. *)
Variable libm_pow10 : Z -> float.

(** [10 ** d] for an [int] exponent. *)
Definition pow10 (d : Z) : pynum :=
  if 0 <=? d then PInt (10 ^ d) else PFloat (libm_pow10 d).

End Pow.

(** ** [int()] and [float()] on text *)

Definition digit_val (c : ascii) : Z := Z.of_N (code c) - 48.

(** Digits with single underscores between them; [prev] tells that the
    previous character was a digit. *)
Fixpoint parse_digits (acc : Z) (prev : bool) (l : list ascii) : option Z :=
  match l with
  | [] => if prev then Some acc else None
  | c :: l' =>
      if is_digit c then parse_digits (10 * acc + digit_val c) true l'
      else if (code c =? 95)%N && prev then
        match l' with
        | d :: _ => if is_digit d then parse_digits acc false l' else None
        | [] => None
        end
      else None
  end.

Definition strip_c_space (l : list ascii) : list ascii :=
  let drop := fix drop (l : list ascii) : list ascii :=
    match l with
    | c :: l' => if is_c_space c then drop l' else l
    | [] => []
    end in
  rev (drop (rev (drop l))).

(** Optional sign: the flag is [true] for a minus sign. *)
Definition split_sign (l : list ascii) : bool * list ascii :=
  match l with
  | c :: l' =>
      if (code c =? 45)%N then (true, l')
      else if (code c =? 43)%N then (false, l')
      else (false, l)
  | [] => (false, [])
  end.

(** [int(s)] for a [str], base 10. *)
Definition py_int (s : string) : result Z :=
  let (neg, body) := split_sign (strip_c_space (list_ascii_of_string s)) in
  match parse_digits 0 false body with
  | Some n => Ok (if neg then - n else n)
  | None => Raise ValueError
  end.

(** [int(tx.get(field, default))]: the text when the field is there, the
    integer default otherwise. *)
Definition int_field (field : option string) (default : Z) : result Z :=
  match field with
  | Some s => py_int s
  | None => Ok default
  end.

(** Every underscore must stand between two digits; they are then
    dropped. *)
Fixpoint drop_underscores (prev : bool) (l : list ascii) : option (list ascii) :=
  match l with
  | [] => Some []
  | c :: l' =>
      if (code c =? 95)%N then
        match l' with
        | d :: _ => if prev && is_digit d then drop_underscores false l' else None
        | [] => None
        end
      else option_map (cons c) (drop_underscores (is_digit c) l')
  end.

(** The leading run of digits, and what follows it. *)
Fixpoint span_digits (l : list ascii) : list ascii * list ascii :=
  match l with
  | c :: l' =>
      if is_digit c then let (ds, rest) := span_digits l' in (c :: ds, rest)
      else ([], l)
  | [] => ([], [])
  end.

Definition digits_val (ds : list ascii) : Z :=
  fold_left (fun acc c => 10 * acc + digit_val c) ds 0.

(** The exponent part: absent, or [e] / [E], an optional sign and at least
    one digit, up to the end of the text. *)
Definition parse_exponent (l : list ascii) : option Z :=
  match l with
  | [] => Some 0
  | c :: l' =>
      if (code c =? 101)%N || (code c =? 69)%N then
        let (neg, l'') := split_sign l' in
        match span_digits l'' with
        | (d :: ds, []) => Some (if neg then - digits_val (d :: ds) else digits_val (d :: ds))
        | _ => None
        end
      else None
  end.

(** The binary64 value nearest to [(-1)^neg * m * 10^e]. *)
Definition float_of_decimal (neg : bool) (m e : Z) : float :=
  if m =? 0 then S754_zero neg
  else if 0 <=? e then binary_normalize prec emax ((if neg then - m else m) * 10 ^ e) 0 false
  else SFdiv prec emax (exact_of_Z (if neg then - m else m)) (exact_of_Z (10 ^ (- e))).

(** [float(s)] for a [str]. *)
Definition py_float (s : string) : result float :=
  let (neg, body) := split_sign (strip_c_space (list_ascii_of_string s)) in
  let word := lower (string_of_list_ascii body) in
  if (word =? "inf")%string || (word =? "infinity")%string then Ok (S754_infinity neg)
  else if (word =? "nan")%string then Ok S754_nan
  else
    match drop_underscores false body with
    | None => Raise ValueError
    | Some l =>
        let (ip, rest) := span_digits l in
        let (fp, rest') :=
          match rest with
          | c :: r => if (code c =? 46)%N then span_digits r else ([], rest)
          | [] => ([], [])
          end in
        match (ip ++ fp)%list, parse_exponent rest' with
        | _ :: _, Some e =>
            Ok (float_of_decimal neg (digits_val (ip ++ fp)%list) (e - Z.of_nat (List.length fp)))
        | _, _ => Raise ValueError
        end
    end.

(** ** The ['f'] presentation type of [format]

    [format(x, "[+][,].nf")]: the exact binary value rounded half-even to
    [n] decimals. *)

Fixpoint group_thousands_rev (r : list ascii) : list ascii :=
  match r with
  | a :: b :: c :: ((_ :: _) as r') => a :: b :: c :: ","%char :: group_thousands_rev r'
  | _ => r
  end.

Definition group_thousands (s : string) : string :=
  string_of_list_ascii (rev (group_thousands_rev (rev (list_ascii_of_string s)))).

Fixpoint zeros (n : nat) : string :=
  match n with
  | O => EmptyString
  | S n' => String "0" (zeros n')
  end.

(** The integer nearest to [m * 2^e * 10^n], ties to even. *)
Definition scaled_round (m : positive) (e : Z) (n : nat) : Z :=
  let num := Zpos m * 10 ^ Z.of_nat n in
  if 0 <=? e then num * 2 ^ e
  else
    let den := 2 ^ (- e) in
    let q := num / den in
    let r := num mod den in
    match 2 * r ?= den with
    | Lt => q
    | Gt => q + 1
    | Eq => if Z.even q then q else q + 1
    end.

Definition fixed_digits (comma : bool) (n : nat) (scaled : Z) : string :=
  let ds := str_of_int scaled in
  let ds := (zeros (S n - String.length ds) ++ ds)%string in
  let ip := substring 0 (String.length ds - n) ds in
  let fp := substring (String.length ds - n) n ds in
  let ip := if comma then group_thousands ip else ip in
  match n with
  | O => ip
  | _ => (ip ++ "." ++ fp)%string
  end.

Definition format_float (plus comma : bool) (n : nat) (f : float) : string :=
  let sign (neg : bool) := if neg then "-" else if plus then "+" else "" in
  match f with
  | S754_nan => (sign false ++ "nan")%string
  | S754_infinity neg => (sign neg ++ "inf")%string
  | S754_zero neg => (sign neg ++ fixed_digits comma n 0)%string
  | S754_finite neg m e => (sign neg ++ fixed_digits comma n (scaled_round m e n))%string
  end.

Definition format_f (plus comma : bool) (n : nat) (x : pynum) : result string :=
  f <- to_float x ;; Ok (format_float plus comma n f).

(** ** [sorted(..., key=..., reverse=True)]

    The keys are computed once, front to back, before any comparison; the
    sort is stable and compares keys with [<] only, so with [reverse=True]
    the result is descending and items with equal keys keep the order they
    came in.  Any stable sort gives this list when [<] is a strict weak
    order on the keys met (for floats: when none is a NaN); it is written
    here as an insertion sort.

    With a NaN among float keys [<] is no order, and the list CPython's
    [list.sort] leaves then depends on its merge strategy: it is a
    permutation of the items, as the list below is, but it can be
    another one.  What is stated of a result with NaN keys is therefore
    stated of it as a permutation only, or on an input that [list.sort]
    leaves as it is: one where no item compares less than the item before
    it in the reversed list, which [list.sort] takes for a single run
    that is in order already. *)

Section Sorted.

Context {A K : Type}.
Variable ltb : K -> K -> bool.

Fixpoint insert_desc (x : K * A) (l : list (K * A)) : list (K * A) :=
  match l with
  | [] => [x]
  | y :: l' =>
      if ltb (fst x) (fst y) then y :: insert_desc x l' else x :: y :: l'
  end.

Definition sort_desc (l : list (K * A)) : list (K * A) :=
  fold_right insert_desc [] l.

Definition sorted_reverse (key : A -> result K) (l : list A) : result (list A) :=
  ks <- mapM key l ;; Ok (map snd (sort_desc (combine ks l))).

End Sorted.

End PyBase.

(* ================================================================== *)
(** * The upstream services and the effects of a request *)

Module Gateway.

Import PyBase.

(** One entry of the explorer's [tokentx] result: a JSON object whose
    members are all strings; any member may be missing.  Only the members
    the bot reads are kept. *)
Record transfer : Type := {
  contractAddress : option string;
  tokenSymbol : option string;
  tokenName : option string;
  tokenDecimal : option string;
  value : option string;
  to : option string
}.

(** What [get_token_info] hands back for a token with a pair. *)
Record token_info : Type := {
  ti_name : string;
  ti_symbol : string;
  ti_price : float;
  ti_price_change_24h : float;
  ti_volume_24h : float;
  ti_liquidity : float
}.

(** A JSON scalar of the pair search payload. *)
Inductive jval : Type :=
| JNull
| JNum (x : pynum)
| JStr (s : string).

Record volume_obj : Type := { h24 : option jval }.

(** One entry of the pair search result, with the members
    [get_trending_base] reads and the pair address as payload. *)
Record pair : Type := {
  chainId : option string;
  volume : option volume_obj;
  pairAddress : option string
}.

(** The answers of the upstream services during one request, as the four
    fetch functions return them (each already falls back to [0], [[]] or
    [None] on failure). *)
Record upstream : Type := {
  up_eth_price : pynum;
  up_eth_balance : string -> pynum;
  up_token_transactions : string -> Z -> list transfer;
  up_token_info : string -> option token_info
}.

(** What a request does that can be seen from outside. *)
Inductive event : Type :=
| CallEthPrice
| CallEthBalance (wallet : string)
| CallTokenTransactions (wallet : string) (limit : Z)
| CallTokenInfo (token_address : string)
| ReplyText (text : string) (parse_mode : option string)
            (disable_web_page_preview : bool).

Definition is_call (ev : event) : bool :=
  match ev with
  | ReplyText _ _ _ => false
  | _ => true
  end.

(** A computation reads the upstream answers, logs its events in order and
    ends with a value or an exception. *)
Definition IO (A : Type) : Type := upstream -> list event * result A.

Definition ret {A : Type} (a : A) : IO A := fun _ => ([], Ok a).

Definition bind {A B : Type} (m : IO A) (k : A -> IO B) : IO B :=
  fun up =>
    match m up with
    | (evs, Ok a) => let (evs', r) := k a up in ((evs ++ evs')%list, r)
    | (evs, Raise e) => (evs, Raise e)
    end.

Definition lift {A : Type} (r : result A) : IO A := fun _ => ([], r).

Definition call {A : Type} (ev : event) (answer : upstream -> A) : IO A :=
  fun up => ([ev], Ok (answer up)).

Definition reply_text (text : string) (parse_mode : option string)
  (disable_web_page_preview : bool) : IO unit :=
  fun _ => ([ReplyText text parse_mode disable_web_page_preview], Ok tt).

Notation "x <~ m ;; k" := (bind m (fun x => k))
  (at level 61, m at next level, right associativity).

End Gateway.

(* ================================================================== *)
(** * The bot *)

Module Bot.

Import PyBase Gateway.

Definition nl : string := String (ascii_of_nat 10) EmptyString.

(** ** API functions, as their callers see them *)

Definition get_eth_price : IO pynum :=
  call CallEthPrice up_eth_price.

Definition get_eth_balance (wallet : string) : IO pynum :=
  call (CallEthBalance wallet) (fun up => up_eth_balance up wallet).

Definition get_token_transactions (wallet : string) (limit : Z) : IO (list transfer) :=
  call (CallTokenTransactions wallet limit)
       (fun up => up_token_transactions up wallet limit).

Definition get_token_info (token_address : string) : IO (option token_info) :=
  call (CallTokenInfo token_address) (fun up => up_token_info up token_address).

(** ** [get_trending_base] *)

(** [v or 0]: [None], a zero number and the empty string are false. *)
Definition or_zero (v : jval) : jval :=
  match v with
  | JNull => JNum (PInt 0)
  | JNum x => if py_eq_zero x then JNum (PInt 0) else v
  | JStr s => if (s =? "")%string then JNum (PInt 0) else v
  end.

(** [float(v)] for what [or_zero] lets through. *)
Definition float_of_jval (v : jval) : result float :=
  match v with
  | JNull => Raise ValueError
  | JNum x => to_float x
  | JStr s => py_float s
  end.

(** The sort key: [float(x.get("volume", {}).get("h24", 0) or 0)]. *)
Definition volume_key (x : pair) : result float :=
  float_of_jval
    (or_zero (get_default (h24 (get_default (volume x) {| h24 := None |}))
                          (JNum (PInt 0)))).

(** [p.get("chainId") == "base"]. *)
Definition on_base (p : pair) : bool :=
  match chainId p with
  | Some c => (c =? "base")%string
  | None => false
  end.

(** The body of the [try]: [pairs] is [data.get("pairs", [])]. *)
Definition trending_of (pairs : list pair) : result (list pair) :=
  let base_pairs := filter on_base pairs in
  sorted <- sorted_reverse float_ltb volume_key base_pairs ;;
  Ok (firstn 10 sorted).

(** [fetched] is the outcome of the request up to [data.get("pairs", [])];
    the bare [except] turns every exception into the empty list. *)
Definition get_trending_base (fetched : result (list pair)) : list pair :=
  match (pairs <- fetched ;; trending_of pairs) with
  | Ok l => l
  | Raise _ => []
  end.

(** ** Message formatting *)

Definition shorten_address (address : string) : string :=
  (str_take 6 address ++ "..." ++ str_last 4 address)%string.

(** A value of [tokens_seen]. *)
Record token_entry : Type := {
  symbol : string;
  name : string;
  address : string;
  buys : Z;
  sells : Z;
  buy_amount : pynum;
  sell_amount : pynum
}.

(** [tokens_seen]: a [dict], which keeps its keys in insertion order. *)
Definition tokens_dict : Type := list (string * token_entry).

Definition dict_mem (k : string) (d : tokens_dict) : bool :=
  existsb (fun kv => (fst kv =? k)%string) d.

Fixpoint dict_get (k : string) (d : tokens_dict) : option token_entry :=
  match d with
  | [] => None
  | (k', e) :: d' => if (k' =? k)%string then Some e else dict_get k d'
  end.

(** [d[k] = f(d[k])], in place. *)
Fixpoint dict_update (k : string) (f : token_entry -> result token_entry)
  (d : tokens_dict) : result tokens_dict :=
  match d with
  | [] => Raise KeyError
  | (k', e) :: d' =>
      if (k' =? k)%string then e' <- f e ;; Ok ((k', e') :: d')
      else d'' <- dict_update k f d' ;; Ok ((k', e) :: d'')
  end.

Definition dict_values (d : tokens_dict) : list token_entry := map snd d.

Definition add_buy (v : pynum) (e : token_entry) : result token_entry :=
  amount <- py_add (buy_amount e) v ;;
  Ok {| symbol := symbol e; name := name e; address := address e;
        buys := buys e + 1; sells := sells e;
        buy_amount := amount; sell_amount := sell_amount e |}.

Definition add_sell (v : pynum) (e : token_entry) : result token_entry :=
  amount <- py_add (sell_amount e) v ;;
  Ok {| symbol := symbol e; name := name e; address := address e;
        buys := buys e; sells := sells e + 1;
        buy_amount := buy_amount e; sell_amount := amount |}.

Definition NO_ACTIVITY : string :=
  ("❌ No activity found for this wallet on Base." ++ nl ++ nl
   ++ "Make sure it's a valid Base wallet address.")%string.

(** The dominant-action branch of the rendering loop. *)
Definition dominant (buys sells : Z) : string * string :=
  if buys >? sells then ("🟢", "BUYING")
  else if sells >? buys then ("🔴", "SELLING")
  else ("⚪", "MIXED").

(** One turn of the rendering loop: the three lines added for a token. *)
Definition render_token (token : token_entry) : string :=
  let (emoji, action) := dominant (buys token) (sells token) in
  (emoji ++ " *" ++ symbol token ++ "* - " ++ action ++ nl
   ++ "   Buys: " ++ str_of_int (buys token)
   ++ " | Sells: " ++ str_of_int (sells token) ++ nl
   ++ "   [Chart](https://dexscreener.com/base/" ++ address token ++ ")"
   ++ nl ++ nl)%string.

Definition render_top (info : token_info) : string :=
  ("🎯 *TOP TRADED: " ++ ti_symbol info ++ "*" ++ nl
   ++ "   💵 Price: $" ++ format_float false false 6 (ti_price info) ++ nl
   ++ "   📈 24h: " ++ format_float true false 1 (ti_price_change_24h info)
   ++ "%" ++ nl
   ++ "   💧 Liquidity: $" ++ format_float false true 0 (ti_liquidity info)
   ++ nl)%string.

Definition header (wallet balance_text usd_text : string) : string :=
  (nl ++ "🔍 *WALLET ANALYSIS*" ++ nl ++ nl
   ++ "📍 `" ++ shorten_address wallet ++ "`" ++ nl
   ++ "🔗 [View on Basescan](https://basescan.org/address/" ++ wallet ++ ")"
   ++ nl ++ nl
   ++ "💰 *ETH Balance:* " ++ balance_text ++ " ETH ($" ++ usd_text ++ ")"
   ++ nl ++ nl)%string.

(** The sort key of the ranking: [x["buys"] + x["sells"]]. *)
Definition activity (x : token_entry) : Z := buys x + sells x.

Section WithLibm.

Variable libm_pow10 : Z -> float.

(** [is_buy = tx.get("to", "").lower() == wallet.lower()]. *)
Definition is_buy (wallet : string) (tx : transfer) : bool :=
  (lower (get_default (to tx) "") =? lower wallet)%string.

(** [value = int(tx.get("value", 0)) / (10 ** decimals)] with
    [decimals = int(tx.get("tokenDecimal", 18))]. *)
Definition adjusted_value (tx : transfer) : result pynum :=
  decimals <- int_field (tokenDecimal tx) 18 ;;
  raw <- int_field (value tx) 0 ;;
  py_truediv (PInt raw) (pow10 libm_pow10 decimals).

(** The body of the loop over [token_txns]. *)
Definition fold_step (wallet : string) (tokens_seen : tokens_dict) (tx : transfer)
  : result tokens_dict :=
  let token_address := get_default (contractAddress tx) "" in
  let token_symbol := get_default (tokenSymbol tx) "???" in
  let token_name := get_default (tokenName tx) "Unknown" in
  v <- adjusted_value tx ;;
  let tokens_seen :=
    if dict_mem token_address tokens_seen then tokens_seen
    else
      (tokens_seen
       ++ [(token_address,
            {| symbol := token_symbol; name := token_name;
               address := token_address; buys := 0; sells := 0;
               buy_amount := PInt 0; sell_amount := PInt 0 |})])%list in
  if is_buy wallet tx then dict_update token_address (add_buy v) tokens_seen
  else dict_update token_address (add_sell v) tokens_seen.

Fixpoint fold_transfers (wallet : string) (tokens_seen : tokens_dict)
  (token_txns : list transfer) : result tokens_dict :=
  match token_txns with
  | [] => Ok tokens_seen
  | tx :: rest =>
      tokens_seen' <- fold_step wallet tokens_seen tx ;;
      fold_transfers wallet tokens_seen' rest
  end.

(** [sorted(tokens_seen.values(), key=..., reverse=True)[:8]]. *)
Definition rank (tokens_seen : tokens_dict) : result (list token_entry) :=
  sorted <- sorted_reverse Z.ltb (fun x => Ok (activity x)) (dict_values tokens_seen) ;;
  Ok (firstn 8 sorted).

(** The local [sorted_tokens] is bound only inside [if tokens_seen:]; it is
    carried as an option, [None] standing for the unbound name. *)
Definition format_wallet_analysis (wallet : string) : IO string :=
  eth_price <~ get_eth_price ;;
  eth_balance <~ get_eth_balance wallet ;;
  token_txns <~ get_token_transactions wallet 30 ;;
  if match token_txns with [] => true | _ => false end && py_eq_zero eth_balance
  then ret NO_ACTIVITY
  else
    eth_value_usd <~ lift (py_mul eth_balance eth_price) ;;
    tokens_seen <~ lift (fold_transfers wallet [] token_txns) ;;
    balance_text <~ lift (format_f false false 4 eth_balance) ;;
    usd_text <~ lift (format_f false true 2 eth_value_usd) ;;
    let msg := header wallet balance_text usd_text in
    state <~ match tokens_seen with
             | _ :: _ =>
                 sorted_tokens <~ lift (rank tokens_seen) ;;
                 ret ((msg ++ "📊 *RECENT TOKEN ACTIVITY*" ++ nl ++ nl
                       ++ String.concat "" (map render_token sorted_tokens))%string,
                      Some sorted_tokens)
             | [] =>
                 ret ((msg ++ "📊 No recent token activity found." ++ nl ++ nl)%string,
                      None)
             end ;;
    let (msg, sorted_tokens) := state : string * option (list token_entry) in
    match sorted_tokens with
    | None => lift (Raise UnboundLocalError)
    | Some [] => ret msg
    | Some (top_token :: _) =>
        token_info <~ get_token_info (address top_token) ;;
        match token_info with
        | Some info => ret (msg ++ render_top info)%string
        | None => ret msg
        end
    end.

(** ** Handlers *)

(** [re.match(r"^0x[a-fA-F0-9]{40}$", text)]: [$] also matches just before
    a line feed that ends the text. *)
Definition is_wallet_address (text : string) : bool :=
  match list_ascii_of_string text with
  | c0 :: c1 :: rest =>
      (code c0 =? 48)%N && (code c1 =? 120)%N
      && (List.length (firstn 40 rest) =? 40)%nat
      && forallb is_hex (firstn 40 rest)
      && match skipn 40 rest with
         | [] => true
         | [c] => (code c =? 10)%N
         | _ => false
         end
  | _ => false
  end.

Definition INVALID_ADDRESS : string :=
  ("❌ That doesn't look like a valid wallet address." ++ nl ++ nl
   ++ "Send me a Base wallet address (starts with 0x, 42 characters)."
   ++ nl ++ nl
   ++ "Example: `0xd8dA6BF26964aF9D7eEd9e03E53415D37aA96045`")%string.

(** [message_text] is [update.message.text]. *)
Definition handle_message (message_text : string) : IO unit :=
  let text := strip message_text in
  if is_wallet_address text then
    _ <~ reply_text "🔍 Analyzing wallet..." None false ;;
    msg <~ format_wallet_analysis (lower text) ;;
    reply_text msg (Some "Markdown") true
  else
    reply_text INVALID_ADDRESS (Some "Markdown") false.

End WithLibm.

End Bot.

(* ================================================================== *)
(** * Specification-side definitions *)

Module Spec.

Import PyBase Gateway Bot.

(** ** Order left by [sorted_reverse] *)

Section Order.

Context {A K : Type}.
Variable ltb : K -> K -> bool.
Variable ok : K -> Prop.

(** [x] does not come after [y] in a descending list. *)
Definition not_below (x y : K * A) : Prop := ltb (fst x) (fst y) = false.

Definition keys_ok (l : list (K * A)) : Prop := Forall (fun x => ok (fst x)) l.

(** The order [sorted_reverse] leaves between two items: the key of the
    first is not less than the key of the second. *)
Definition key_ge (key : A -> result K) (a b : A) : Prop :=
  exists ka kb, key a = Ok ka /\ key b = Ok kb /\ ltb ka kb = false.

End Order.

(** ** Floats other than NaN *)

Definition not_nan (f : float) : Prop := f <> S754_nan.

(** A float without NaN as a point of [Z * Z * Z] under the lexicographic
    order: class (infinities, sign), then exponent, then mantissa. *)
Definition float_rank (f : float) : Z * Z * Z :=
  match f with
  | S754_nan => (0, 0, 0)
  | S754_zero _ => (0, 0, 0)
  | S754_infinity true => (-2, 0, 0)
  | S754_infinity false => (2, 0, 0)
  | S754_finite true m e => (-1, - e, - Zpos m)
  | S754_finite false m e => (1, e, Zpos m)
  end.

Definition lex_lt (x y : Z * Z * Z) : Prop :=
  let '(x1, x2, x3) := x in
  let '(y1, y2, y3) := y in
  x1 < y1 \/ (x1 = y1 /\ (x2 < y2 \/ (x2 = y2 /\ x3 < y3))).

(** ** Letter case *)

(** Two characters that are equal, or the upper- and lower-case form of
    one ASCII letter. *)
Definition same_letter (c d : ascii) : Prop :=
  c = d
  \/ ((65 <= code c <= 90)%N /\ code d = (code c + 32)%N)
  \/ ((65 <= code d <= 90)%N /\ code c = (code d + 32)%N).

(** Equality up to the case of ASCII letters. *)
Fixpoint caseless (s t : string) : Prop :=
  match s, t with
  | EmptyString, EmptyString => True
  | String c s', String d t' => same_letter c d /\ caseless s' t'
  | _, _ => False
  end.

(** ** The aggregation, per contract address *)

(** The dictionary key of a record. *)
Definition key_of (tx : transfer) : string := get_default (contractAddress tx) "".

(** The records of one contract address, in order. *)
Definition records_for (addr : string) (txs : list transfer) : list transfer :=
  filter (fun tx => (key_of tx =? addr)%string) txs.

Definition total_count (d : tokens_dict) : Z :=
  fold_right (fun kv acc => buys (snd kv) + sells (snd kv) + acc) 0 d.

(** An accumulator is the initial [0] or a float. *)
Definition amount_ok (x : pynum) : Prop := x = PInt 0 \/ exists f, x = PFloat f.

Definition amounts_ok (d : tokens_dict) : Prop :=
  Forall (fun kv => amount_ok (buy_amount (snd kv)) /\ amount_ok (sell_amount (snd kv))) d.

Section WithWallet.

Variable libm_pow10 : Z -> float.
Variable wallet : string.

Definition buy (tx : transfer) : bool := is_buy wallet tx.

Definition sell (tx : transfer) : bool := negb (is_buy wallet tx).

(** The decimal-adjusted values of the records, added up from [0] in
    order. *)
Definition sum_values (l : list transfer) : result pynum :=
  fold_left (fun acc tx => a <- acc ;; v <- adjusted_value libm_pow10 tx ;; py_add a v)
            l (Ok (PInt 0)).

(** The summary of one contract address, computed from its records. *)
Definition summary (addr : string) (recs : list transfer) : result token_entry :=
  match recs with
  | [] => Raise KeyError
  | first :: _ =>
      bought <- sum_values (filter buy recs) ;;
      sold <- sum_values (filter sell recs) ;;
      Ok {| symbol := get_default (tokenSymbol first) "???";
            name := get_default (tokenName first) "Unknown";
            address := addr;
            buys := Z.of_nat (List.length (filter buy recs));
            sells := Z.of_nat (List.length (filter sell recs));
            buy_amount := bought;
            sell_amount := sold |}
  end.

Definition bump (v : pynum) (tx : transfer) : token_entry -> result token_entry :=
  if is_buy wallet tx then add_buy v else add_sell v.

(** The entry a first record of a token creates. *)
Definition fresh (tx : transfer) : token_entry :=
  {| symbol := get_default (tokenSymbol tx) "???";
     name := get_default (tokenName tx) "Unknown";
     address := key_of tx; buys := 0; sells := 0;
     buy_amount := PInt 0; sell_amount := PInt 0 |}.

Definition with_key (seen : tokens_dict) (tx : transfer) : tokens_dict :=
  if dict_mem (key_of tx) seen then seen else seen ++ [(key_of tx, fresh tx)].

(** What holds of [tokens_seen] once the records [done] went through the
    loop. *)
Definition Inv (done : list transfer) (seen : tokens_dict) : Prop :=
  NoDup (map fst seen)
  /\ (forall addr,
        match dict_get addr seen with
        | Some e => summary addr (records_for addr done) = Ok e
        | None => records_for addr done = []
        end)
  /\ total_count seen = Z.of_nat (List.length done)
  /\ amounts_ok seen.

End WithWallet.

(** ** The report *)

Definition first_calls (wallet : string) : list event :=
  [CallEthPrice; CallEthBalance wallet; CallTokenTransactions wallet 30].

Definition activity_section (ranked : list token_entry) : string :=
  ("📊 *RECENT TOKEN ACTIVITY*" ++ nl ++ nl
   ++ String.concat "" (map render_token ranked))%string.

(** The test that opens [format_wallet_analysis]: no transfer and a
    balance equal to zero. *)
Definition nothing_found (wallet : string) (up : upstream) : bool :=
  match up_token_transactions up wallet 30 with [] => true | _ => false end
  && py_eq_zero (up_eth_balance up wallet).

(** The top-traded section of a report: the information on the first
    ranked token, when [get_token_info] gives one. *)
Definition top_traded (up : upstream) (ranked : list token_entry) : string :=
  match ranked with
  | [] => ""
  | top_token :: _ =>
      match up_token_info up (address top_token) with
      | Some token_info => render_top token_info
      | None => ""
      end
  end.

(** Most active first. *)
Definition by_activity (a b : token_entry) : Prop := activity b <= activity a.

(** ** The trending view *)

(** The volume as the specification words it: a volume that cannot be
    read counts as 0. *)
Definition volume_or_zero (p : pair) : float :=
  match volume_key p with
  | Ok f => f
  | Raise _ => S754_zero false
  end.

(** The trending list as the specification words it. *)
Definition trending_as_specified (pairs : list pair) : list pair :=
  firstn 10
    (map snd (sort_desc float_ltb
                (map (fun p => (volume_or_zero p, p)) (filter on_base pairs)))).

(** Highest volume first. *)
Definition by_volume (p q : pair) : Prop :=
  exists vp vq, volume_key p = Ok vp /\ volume_key q = Ok vq /\ float_ltb vp vq = false.

(** A volume that is missing, [null], zero or empty reads as 0. *)
Definition no_volume (p : pair) : Prop :=
  match volume p with
  | None => True
  | Some v =>
      match h24 v with
      | None | Some JNull => True
      | Some (JNum x) => py_eq_zero x = true
      | Some (JStr s) => s = ""%string
      end
  end.

(** ** The message handler *)

(** [0x] followed by exactly 40 hexadecimal characters, and nothing
    else. *)
Definition well_formed_address (s : string) : bool :=
  match list_ascii_of_string s with
  | c0 :: c1 :: rest =>
      (code c0 =? 48)%N && (code c1 =? 120)%N
      && (List.length rest =? 40)%nat && forallb is_hex rest
  | _ => false
  end.

(** A printable ASCII character. *)
Definition plain (c : ascii) : Prop := (33 <= code c < 128)%N.

Definition ANALYZING : event := ReplyText "🔍 Analyzing wallet..." None false.

(** Whether a request reached the upstream services. *)
Definition calls_upstream (evs : list event) : bool := existsb is_call evs.

(** ** Totals and sample data *)

Definition Zsum (l : list Z) : Z := fold_right Z.add 0 l.

(** A [pow(10.0, d)] that rounds correctly, for running the samples. *)
Definition libm_exact (d : Z) : float :=
  SFdiv prec emax (exact_of_Z 1) (exact_of_Z (10 ^ (- d))).

Definition float_one : float := S754_finite false 4503599627370496 (-52).

Definition two_and_a_half : float := Eval vm_compute in float_of_decimal false 25 (-1).

Definition sample_text : string := "0xd8dA6BF26964aF9D7eEd9e03E53415D37aA96045".

Definition sample_upper : string := "0xD8DA6BF26964AF9D7EED9E03E53415D37AA96045".

Definition sample_wallet : string := "0xd8da6bf26964af9d7eed9e03e53415d37aa96045".

Definition padded_text : string := " 0xd8dA6BF26964aF9D7eEd9e03E53415D37aA96045".

Definition sample_transfer (token amount recipient : string) : transfer :=
  {| contractAddress := Some token; tokenSymbol := Some "TKN";
     tokenName := Some "Token"; tokenDecimal := Some "18";
     value := Some amount; to := Some recipient |}.

(** One whole token received by the wallet. *)
Definition one_token : transfer :=
  sample_transfer "0xaaa" "1000000000000000000" sample_text.

Definition sample_transfers : list transfer :=
  [one_token;
   sample_transfer "0xbbb" "5" "0x0000000000000000000000000000000000000001";
   sample_transfer "0xaaa" "2500000000000000000" sample_wallet].

(** A record with none of its members. *)
Definition bare_transfer : transfer :=
  {| contractAddress := None; tokenSymbol := None; tokenName := None;
     tokenDecimal := None; value := None; to := None |}.

Definition sample_info : token_info :=
  {| ti_name := "Token"; ti_symbol := "TKN"; ti_price := two_and_a_half;
     ti_price_change_24h := two_and_a_half; ti_volume_24h := two_and_a_half;
     ti_liquidity := two_and_a_half |}.

(** Three records: one without any member, one with a value and none of
    the other members the loop reads, and one that lacks its decimals
    only. *)
Definition sparse_transfers : list transfer :=
  [bare_transfer;
   {| contractAddress := None; tokenSymbol := Some "TKN"; tokenName := None;
      tokenDecimal := None; value := Some "1000000000000000000"; to := None |};
   {| contractAddress := Some "0xaaa"; tokenSymbol := Some "TKN";
      tokenName := Some "Token"; tokenDecimal := None;
      value := Some "2500000000000000000"; to := Some sample_wallet |}].

(** Thirty records of nine tokens; the tokens first occur from the least
    active on, not in the order of their activity. *)
Definition busy_transfers : list transfer :=
  List.concat (map (fun token => repeat (sample_transfer (fst token) "1" sample_wallet)
                                   (snd token))
              [("0x01", 1); ("0x02", 2); ("0x03", 3); ("0x04", 4); ("0x05", 5);
               ("0x06", 6); ("0x07", 3); ("0x08", 2); ("0x09", 4)]%nat).

(** A wallet holding 2.5 ETH that never moved a token. *)
Definition balance_only : upstream :=
  {| up_eth_price := PFloat two_and_a_half;
     up_eth_balance := fun _ => PFloat two_and_a_half;
     up_token_transactions := fun _ _ => [];
     up_token_info := fun _ => None |}.

Definition active_wallet : upstream :=
  {| up_eth_price := PFloat two_and_a_half;
     up_eth_balance := fun _ => PFloat two_and_a_half;
     up_token_transactions := fun _ _ => sample_transfers;
     up_token_info := fun _ => Some sample_info |}.

Definition busy_wallet : upstream :=
  {| up_eth_price := PFloat two_and_a_half;
     up_eth_balance := fun _ => PFloat two_and_a_half;
     up_token_transactions := fun _ _ => busy_transfers;
     up_token_info := fun _ => Some sample_info |}.

Definition sample_pair (chain : string) (vol : jval) (addr : string) : pair :=
  {| chainId := Some chain; volume := Some {| h24 := Some vol |};
     pairAddress := Some addr |}.

(** Five pairs on Base with volumes 100, 50, 30, 10 and 5, among three
    pairs of other chains. *)
Definition mixed_pairs : list pair :=
  [sample_pair "base" (JNum (PInt 5)) "e";
   sample_pair "ethereum" (JNum (PInt 500)) "x";
   sample_pair "base" (JNum (PInt 100)) "a";
   sample_pair "base" (JStr "50") "b";
   sample_pair "Base" (JNum (PInt 70)) "y";
   sample_pair "base" (JNum (PInt 30)) "c";
   sample_pair "base" (JNum (PInt 10)) "d";
   sample_pair "solana" JNull "z"].

(** A pair on Base whose volume is text that is no number, after a pair
    with a proper volume. *)
Definition unreadable_pairs : list pair :=
  [sample_pair "base" (JNum (PInt 5)) "e"; sample_pair "base" (JStr "n/a") "q"].

(** Three pairs on Base with the volumes 1, NaN and 2: [float()] reads
    the text [nan] as a NaN. *)
Definition nan_pairs : list pair :=
  [sample_pair "base" (JNum (PInt 1)) "a";
   sample_pair "base" (JStr "nan") "b";
   sample_pair "base" (JNum (PInt 2)) "c"].

End Spec.

(* ================================================================== *)
(** * The API functions and the trending view *)

Module Api.

Import PyBase Gateway Bot.

(** Each function below takes [data], the outcome of the request up to
    [await resp.json()]: the decoded body, or the exception the request
    or the decoding raised.  The bodies are typed after the members the
    functions read: a member is [None] when the body lacks it, and has
    the shape the function expects of it otherwise (an object, a list of
    pairs); a member read as a number is any [jval], and the result of
    the transfer request is a list of records or a text. *)

(** ** [get_eth_price] *)

Record usd_obj : Type := { usd : option pynum }.

Record price_data : Type := { ethereum : option usd_obj }.

Definition get_eth_price (data : result price_data) : pynum :=
  match data with
  | Ok d => get_default (usd (get_default (ethereum d) {| usd := None |})) (PInt 0)
  | Raise _ => PInt 0
  end.

(** ** [get_eth_balance] *)

Record balance_data : Type := { balance_result : option jval }.

(** [int(f)] for a float: towards zero; [None] when it raises (infinity,
    NaN). *)
Definition int_of_float (f : float) : option Z :=
  match f with
  | S754_zero _ => Some 0
  | S754_finite neg m e =>
      let n := if 0 <=? e then Zpos m * 2 ^ e else Zpos m / 2 ^ (- e) in
      Some (if neg then - n else n)
  | S754_infinity _ | S754_nan => None
  end.

(** [int(v)]; [None] when it raises.  The caller's bare [except] makes no
    difference between exceptions. *)
Definition int_of_jval (v : jval) : option Z :=
  match v with
  | JNull => None
  | JNum (PInt z) => Some z
  | JNum (PFloat f) => int_of_float f
  | JStr s => match py_int s with Ok z => Some z | Raise _ => None end
  end.

Definition get_eth_balance (data : result balance_data) : pynum :=
  match data with
  | Ok d =>
      match int_of_jval (get_default (balance_result d) (JNum (PInt 0))) with
      | Some balance_wei =>
          match int_truediv balance_wei (10 ^ 18) with
          | Ok f => PFloat f
          | Raise _ => PInt 0
          end
      | None => PInt 0
      end
  | Raise _ => PInt 0
  end.

(** ** [get_token_transactions] *)

(** What the explorer puts under [result]: the list of the records or,
    with an error, a text such as [Max rate limit reached]. *)
Inductive txns : Type :=
| Records (records : list transfer)
| Text (text : string).

Record tokentx_data : Type := { tokentx_result : option txns }.

(** [data.get("result", [])], returned as it is. *)
Definition get_token_transactions (data : result tokentx_data) : txns :=
  match data with
  | Ok d => get_default (tokentx_result d) (Records [])
  | Raise _ => Records []
  end.

(** ** Pairs of the pair search, with all the members the bot reads *)

Record base_token : Type := {
  bt_name : option string;
  bt_symbol : option string;
  bt_address : option string
}.

Record liquidity_obj : Type := { liq_usd : option jval }.

(** One pair object: [core] holds the members [get_trending_base] reads
    (chain, volume, pair address), the other fields the members the
    formatting reads. *)
Record market : Type := {
  core : pair;
  baseToken : option base_token;
  priceUsd : option jval;
  priceChange : option volume_obj;
  liquidity : option liquidity_obj
}.

(** [pairs] is [None] when the member is missing or [null]. *)
Record dex_data : Type := { pairs : option (list market) }.

(** [float(field or 0)] on a member read with default [0]. *)
Definition float_field (field : option jval) : result float :=
  float_of_jval (or_zero (get_default field (JNum (PInt 0)))).

Definition base_token_of (pair : market) : base_token :=
  get_default (baseToken pair)
    {| bt_name := None; bt_symbol := None; bt_address := None |}.

Definition price_of (pair : market) : result float := float_field (priceUsd pair).

Definition change_of (pair : market) : result float :=
  float_field (h24 (get_default (priceChange pair) {| h24 := None |})).

Definition liquidity_of (pair : market) : result float :=
  float_field (liq_usd (get_default (liquidity pair) {| liq_usd := None |})).

(** ** [get_token_info] *)

Definition get_token_info (data : result dex_data) : option token_info :=
  match data with
  | Ok d =>
      match get_default (pairs d) [] with
      | pair :: _ =>
          match (price <- price_of pair ;;
                 change <- change_of pair ;;
                 vol <- volume_key (core pair) ;;
                 liq <- liquidity_of pair ;;
                 Ok {| ti_name := get_default (bt_name (base_token_of pair)) "Unknown";
                       ti_symbol := get_default (bt_symbol (base_token_of pair)) "???";
                       ti_price := price;
                       ti_price_change_24h := change;
                       ti_volume_24h := vol;
                       ti_liquidity := liq |}) with
          | Ok info => Some info
          | Raise _ => None
          end
      | [] => None
      end
  | Raise _ => None
  end.

(** ** [get_trending_base], on whole pair objects *)

Definition get_trending_base (data : result dex_data) : list market :=
  match (d <- data ;;
         let base_pairs := filter (fun p => on_base (core p)) (get_default (pairs d) []) in
         sorted <- sorted_reverse float_ltb (fun x => volume_key (core x)) base_pairs ;;
         Ok (firstn 10 sorted)) with
  | Ok l => l
  | Raise _ => []
  end.

(** ** [format_trending] *)

Definition COULD_NOT_FETCH : string :=
  "❌ Couldn't fetch trending tokens. Try again later.".

Definition TRENDING_HEADER : string :=
  ("🔥 *TOP TOKENS ON BASE (by 24h volume)*" ++ nl ++ nl)%string.

(** One turn of the loop: the three lines added for the pair numbered
    [i]. *)
Definition trending_entry (i : Z) (pair : market) : result string :=
  let symbol := get_default (bt_symbol (base_token_of pair)) "???" in
  price <- price_of pair ;;
  change <- change_of pair ;;
  vol <- volume_key (core pair) ;;
  let address := get_default (bt_address (base_token_of pair)) "" in
  let emoji := if float_ltb (S754_zero false) change then "🟢" else "🔴" in
  Ok (str_of_int i ++ ". *" ++ symbol ++ "* " ++ emoji ++ " "
      ++ format_float true false 1 change ++ "%" ++ nl
      ++ "   💵 $" ++ format_float false false 6 price
      ++ " | Vol: $" ++ format_float false true 0 vol ++ nl
      ++ "   [Chart](https://dexscreener.com/base/" ++ address ++ ")"
      ++ nl ++ nl)%string.

(** The loop over [enumerate(pairs[:10], 1)], from number [i] on. *)
Fixpoint trending_entries (i : Z) (pairs : list market) (msg : string)
  : result string :=
  match pairs with
  | [] => Ok msg
  | pair :: rest =>
      entry <- trending_entry i pair ;;
      trending_entries (i + 1) rest (msg ++ entry)%string
  end.

Definition format_trending (data : result dex_data) : result string :=
  match get_trending_base data with
  | [] => Ok COULD_NOT_FETCH
  | pairs => trending_entries 1 (firstn 10 pairs) TRENDING_HEADER
  end.

(** ** [trending_command] *)

Definition FETCHING : event := ReplyText "🔍 Fetching trending tokens..." None false.

Definition trending_command (data : result dex_data) : IO unit :=
  _ <~ reply_text "🔍 Fetching trending tokens..." None false ;;
  msg <~ lift (format_trending data) ;;
  reply_text msg (Some "Markdown") true.

(** ** A wallet analysis, from the responses *)

(** The outcome of each request of a wallet analysis. *)
Record responses : Type := {
  price_response : result price_data;
  balance_response : string -> result balance_data;
  tokentx_response : string -> Z -> result tokentx_data;
  token_response : string -> result dex_data
}.

(** What the API functions make of the responses, for a transfer request
    that gave the list [token_txns]. *)
Definition upstream_with (r : responses) (token_txns : list transfer) : upstream :=
  {| up_eth_price := get_eth_price (price_response r);
     up_eth_balance := fun wallet => get_eth_balance (balance_response r wallet);
     up_token_transactions := fun _ _ => token_txns;
     up_token_info := fun token_address => get_token_info (token_response r token_address) |}.

(** [format_wallet_analysis], by what [get_token_transactions] returned.
    The empty text is false and holds nothing to loop over, as the empty
    list.  A text that is not empty is true, so that the test for no
    activity fails whatever the balance; the value of the balance is
    computed, and the first turn of the loop takes the first character of
    the text for a record: [tx.get] raises [AttributeError]. *)
Definition format_wallet_analysis (libm_pow10 : Z -> float) (wallet : string)
  (r : responses) : list event * result string :=
  match get_token_transactions (tokentx_response r wallet 30) with
  | Records token_txns =>
      Bot.format_wallet_analysis libm_pow10 wallet (upstream_with r token_txns)
  | Text EmptyString =>
      Bot.format_wallet_analysis libm_pow10 wallet (upstream_with r [])
  | Text (String _ _) =>
      ([CallEthPrice; CallEthBalance wallet; CallTokenTransactions wallet 30],
       _ <- py_mul (get_eth_balance (balance_response r wallet))
                   (get_eth_price (price_response r)) ;;
       Raise AttributeError)
  end.

(** [handle_message] on top of it; [message_text] is
    [update.message.text]. *)
Definition handle_message (libm_pow10 : Z -> float) (message_text : string)
  (r : responses) : list event * result unit :=
  let text := strip message_text in
  if is_wallet_address text then
    match format_wallet_analysis libm_pow10 (lower text) r with
    | (evs, Ok msg) =>
        (ReplyText "🔍 Analyzing wallet..." None false
         :: evs ++ [ReplyText msg (Some "Markdown") true],
         Ok tt)
    | (evs, Raise e) => (ReplyText "🔍 Analyzing wallet..." None false :: evs, Raise e)
    end
  else ([ReplyText INVALID_ADDRESS (Some "Markdown") false], Ok tt).

End Api.

(* ================================================================== *)
(** * Further notions *)

Module Notions.

Import PyBase Gateway Bot Spec.

(** ** The aggregation *)

(** The keys of a list, each kept where it first occurs. *)
Fixpoint first_seen (keys : list string) : list string :=
  match keys with
  | [] => []
  | k :: rest => k :: filter (fun k' => negb (k' =? k)%string) (first_seen rest)
  end.

(** The number of records that pass a test. *)
Definition count_if (f : transfer -> bool) (txs : list transfer) : Z :=
  Z.of_nat (List.length (filter f txs)).

(** [k] is not among [ks]. *)
Definition notin (ks : list string) (k : string) : bool :=
  negb (existsb (String.eqb k) ks).

(** ** The report *)

(** A number [float()] accepts. *)
Definition fits_float (x : pynum) : Prop := exists f, to_float x = Ok f.

(** A record whose value can be computed. *)
Definition usable (libm_pow10 : Z -> float) (tx : transfer) : Prop :=
  exists v, adjusted_value libm_pow10 tx = Ok v.

(** ** Unanswered requests *)

(** A balance request that failed, or whose result reads as no integer
    or as 0. *)
Definition balance_unread (data : result Api.balance_data) : Prop :=
  match data with
  | Raise _ => True
  | Ok d =>
      match Api.int_of_jval (get_default (Api.balance_result d) (JNum (PInt 0))) with
      | None => True
      | Some wei => wei = 0
      end
  end.

(** A transfer request that failed, or came back without a result, with
    no record or with the empty text. *)
Definition transfers_unread (data : result Api.tokentx_data) : Prop :=
  match data with
  | Raise _ => True
  | Ok d =>
      Api.tokentx_result d = None
      \/ Api.tokentx_result d = Some (Api.Records [])
      \/ Api.tokentx_result d = Some (Api.Text "")
  end.

(** ** The trending view *)

(** The pairs of a body as [Bot.get_trending_base] takes them. *)
Definition cores_of (data : result Api.dex_data) : result (list pair) :=
  d <- data ;; Ok (map Api.core (get_default (Api.pairs d) [])).

(** [enumerate(pairs, i)]. *)
Fixpoint numbered (i : Z) (pairs : list Api.market) : list (Z * Api.market) :=
  match pairs with
  | [] => []
  | pair :: rest => (i, pair) :: numbered (i + 1) rest
  end.

(** A pair whose price and price change read as floats. *)
Definition priced (pair : Api.market) : Prop :=
  (exists price, Api.price_of pair = Ok price)
  /\ (exists change, Api.change_of pair = Ok change).

(** A keyed item with its payload mapped. *)
Definition on_payload {A B K : Type} (g : A -> B) (p : K * A) : K * B :=
  (fst p, g (snd p)).

(** ** The requests of the handler *)

(** What the explorer may be asked: the balance and the last 30 transfers
    of a well-formed address in lower case. *)
Definition explorer_call_ok (ev : event) : Prop :=
  match ev with
  | CallEthBalance wallet => well_formed_address wallet = true /\ lower wallet = wallet
  | CallTokenTransactions wallet limit =>
      well_formed_address wallet = true /\ lower wallet = wallet /\ limit = 30
  | _ => True
  end.

(** ** Sample data *)

(** A transfer whose value is no number. *)
Definition unreadable_transfer : transfer :=
  sample_transfer "0xccc" "n/a" sample_wallet.

(** A wallet with such a transfer among its records. *)
Definition damaged_wallet : upstream :=
  {| up_eth_price := PFloat two_and_a_half;
     up_eth_balance := fun _ => PFloat two_and_a_half;
     up_token_transactions := fun _ _ => [one_token; unreadable_transfer];
     up_token_info := fun _ => None |}.

(** No service answers. *)
Definition all_down : Api.responses :=
  {| Api.price_response := Raise ClientError;
     Api.balance_response := fun _ => Raise ClientError;
     Api.tokentx_response := fun _ _ => Raise ClientError;
     Api.token_response := fun _ => Raise ClientError |}.


(** The explorer is over its rate limit: both its results are the error
    text; the price service answers. *)
Definition rate_limited : Api.responses :=
  {| Api.price_response :=
       Ok {| Api.ethereum := Some {| Api.usd := Some (PFloat two_and_a_half) |} |};
     Api.balance_response :=
       fun _ => Ok {| Api.balance_result := Some (JStr "Max rate limit reached") |};
     Api.tokentx_response :=
       fun _ _ => Ok {| Api.tokentx_result := Some (Api.Text "Max rate limit reached") |};
     Api.token_response := fun _ => Raise ClientError |}.

Definition sample_market (chain : string) (vol : jval) (sym : string) (price : jval)
  : Api.market :=
  {| Api.core := sample_pair chain vol sym;
     Api.baseToken := Some {| Api.bt_name := Some sym; Api.bt_symbol := Some sym;
                              Api.bt_address := Some sym |};
     Api.priceUsd := Some price;
     Api.priceChange := Some {| h24 := Some (JNum (PInt 1)) |};
     Api.liquidity := None |}.

(** Two pairs on Base and one on another chain, all with a price. *)
Definition priced_body : result Api.dex_data :=
  Ok {| Api.pairs := Some [sample_market "base" (JNum (PInt 5)) "E" (JStr "0.5");
                           sample_market "ethereum" (JNum (PInt 50)) "X" (JStr "1");
                           sample_market "base" (JNum (PInt 100)) "A" (JStr "2")] |}.

(** A pair on Base whose price is no number. *)
Definition unpriced_body : result Api.dex_data :=
  Ok {| Api.pairs := Some [sample_market "base" (JNum (PInt 5)) "E" (JStr "n/a")] |}.

(** An address that differs from the sample address in the middle only. *)
Definition sample_twin : string :=
  "0xd8da000000000000000000000000000000006045".

(** Two records of one token that disagree on its symbol and name. *)
Definition renamed_transfers : list transfer :=
  [one_token;
   {| contractAddress := Some "0xaaa"; tokenSymbol := Some "OLD";
      tokenName := None; tokenDecimal := Some "18";
      value := Some "7"; to := Some sample_wallet |}].

End Notions.

(* ================================================================== *)
(** * Lemmas *)

Module SortFacts.

Import PyBase.
Section Facts.
Context {A K : Type}.
Variable ltb : K -> K -> bool.
Variable ok : K -> Prop.
Hypothesis ltb_asym : forall a b, ok a -> ok b -> ltb a b = true -> ltb b a = false.
Hypothesis ge_trans : forall a b c, ok a -> ok b -> ok c ->
  ltb a b = false -> ltb b c = false -> ltb a c = false.

Local Abbreviation not_below := (Spec.not_below ltb).
Local Abbreviation keys_ok := (Spec.keys_ok ok).
Local Abbreviation key_ge := (Spec.key_ge ltb).

Lemma insert_desc_perm (x : K * A) (l : list (K * A)) :
  Permutation (insert_desc ltb x l) (x :: l).
Proof.
  induction l as [|y l IH]; simpl.
  - apply Permutation_refl.
  - destruct (ltb (fst x) (fst y)).
    + rewrite IH. apply perm_swap.
    + apply Permutation_refl.
Qed.

Lemma sort_desc_perm (l : list (K * A)) : Permutation (sort_desc ltb l) l.
Proof.
  induction l as [|x l IH]; simpl.
  - constructor.
  - rewrite insert_desc_perm. now constructor.
Qed.

Lemma keys_ok_perm (l l' : list (K * A)) :
  Permutation l l' -> keys_ok l -> keys_ok l'.
Proof. intros P H. unfold Spec.keys_ok in *. now rewrite <- P. Qed.

Lemma insert_desc_sorted (x : K * A) (l : list (K * A)) :
  ok (fst x) -> keys_ok l ->
  StronglySorted not_below l -> StronglySorted not_below (insert_desc ltb x l).
Proof.
  intros Hx Hl Hs. induction Hs as [|y l Hs IH Hy]; simpl.
  - repeat constructor.
  - inversion Hl as [|? ? Hoky Hokl]; subst.
    destruct (ltb (fst x) (fst y)) eqn:E.
    + constructor.
      * now apply IH.
      * apply (Permutation_Forall (Permutation_sym (insert_desc_perm x l))).
        constructor; [|assumption].
        unfold Spec.not_below. now apply ltb_asym.
    + constructor.
      * now constructor.
      * constructor; [exact E|].
        rewrite Forall_forall in *. intros z Hz.
        unfold Spec.not_below in *. apply (ge_trans (fst x) (fst y) (fst z)); auto.
Qed.

Lemma sort_desc_sorted (l : list (K * A)) :
  keys_ok l -> StronglySorted not_below (sort_desc ltb l).
Proof.
  induction l as [|x l IH]; simpl; intros H.
  - constructor.
  - inversion H; subst. apply insert_desc_sorted; auto.
    apply (keys_ok_perm l); [apply Permutation_sym, sort_desc_perm | assumption].
Qed.

(** Keys and items after [mapM]. *)
Lemma mapM_combine (key : A -> result K) (l : list A) (ks : list K) :
  mapM key l = Ok ks ->
  map snd (combine ks l) = l /\ map fst (combine ks l) = ks
  /\ Forall (fun p => key (snd p) = Ok (fst p)) (combine ks l).
Proof.
  revert ks. induction l as [|a l IH]; simpl; intros ks H.
  - inversion H; subst. simpl. repeat split; constructor.
  - destruct (key a) as [k|e] eqn:Ek; simpl in H; [|discriminate].
    destruct (mapM key l) as [ks'|e] eqn:Em; simpl in H; [|discriminate].
    inversion H; subst. destruct (IH ks' eq_refl) as (H1 & H2 & H3).
    simpl. rewrite H1, H2. repeat split. constructor; assumption.
Qed.

Lemma mapM_total (key : A -> result K) (l : list A) :
  Forall (fun a => exists k, key a = Ok k) l -> exists ks, mapM key l = Ok ks.
Proof.
  induction 1 as [|a l [k Hk] _ [ks IH]]; simpl.
  - now exists [].
  - rewrite Hk, IH. simpl. now eexists.
Qed.

Lemma mapM_raise (key : A -> result K) (l : list A) (a : A) (e : exn) :
  In a l -> key a = Raise e -> exists e', mapM key l = Raise e'.
Proof.
  induction l as [|b l IH]; simpl; intros Hin Hk; [contradiction|].
  destruct Hin as [->|Hin].
  - rewrite Hk. simpl. now eexists.
  - destruct (key b); simpl; [|now eexists].
    destruct (IH Hin Hk) as [e' ->]. simpl. now eexists.
Qed.

Lemma sorted_map_snd (key : A -> result K) (l : list (K * A)) :
  Forall (fun p => key (snd p) = Ok (fst p)) l ->
  StronglySorted not_below l -> StronglySorted (key_ge key) (map snd l).
Proof.
  intros Hk Hs. induction Hs as [|p l Hs IH Hp]; simpl.
  - constructor.
  - inversion Hk as [|? ? Hkp Hkl]; subst. constructor; [now apply IH|].
    rewrite Forall_forall in *. intros b Hb.
    apply in_map_iff in Hb. destruct Hb as (q & <- & Hq).
    exists (fst p), (fst q). repeat split; auto. apply (Hp q Hq).
Qed.

Lemma sorted_reverse_spec (key : A -> result K) (l : list A) (ks : list K) :
  mapM key l = Ok ks -> Forall ok ks ->
  exists s, sorted_reverse ltb key l = Ok s
            /\ Permutation s l /\ StronglySorted (key_ge key) s.
Proof.
  intros Hm Hok. unfold sorted_reverse. rewrite Hm. simpl.
  destruct (mapM_combine key l ks Hm) as (H1 & H2 & H3).
  eexists. split; [reflexivity|]. split.
  - rewrite <- H1 at 2. apply Permutation_map, sort_desc_perm.
  - apply sorted_map_snd.
    + apply (Permutation_Forall (Permutation_sym (sort_desc_perm _))). exact H3.
    + apply sort_desc_sorted. unfold Spec.keys_ok.
      rewrite <- H2 in Hok. rewrite Forall_map in Hok. exact Hok.
Qed.

(** Cutting a descending list: what is kept is not below what is dropped. *)
Lemma sorted_app_ge (R : A -> A -> Prop) (l1 l2 : list A) :
  StronglySorted R (l1 ++ l2) ->
  forall a b, In a l1 -> In b l2 -> R a b.
Proof.
  induction l1 as [|x l1 IH]; simpl; intros Hs a b Ha Hb; [contradiction|].
  inversion Hs as [|? ? Hs' Hx]; subst. destruct Ha as [->|Ha].
  - rewrite Forall_forall in Hx. apply Hx, in_or_app. now right.
  - now apply IH.
Qed.

End Facts.
End SortFacts.


Module FloatOrder.

Import PyBase Spec.

Lemma float_ltb_rank (a b : float) :
  not_nan a -> not_nan b ->
  (float_ltb a b = true <-> lex_lt (float_rank a) (float_rank b)).
Proof.
  unfold Spec.not_nan, float_ltb, SFltb, SFcompare, Spec.lex_lt.
  destruct a as [sa|sa| |sa ma ea], b as [sb|sb| |sb mb eb];
    intros Ha Hb; try congruence;
    try destruct sa; try destruct sb; simpl;
    try (split; [discriminate|lia]); try (split; [lia|reflexivity]);
    try (split; [reflexivity|lia]).
  all: change (Pos.compare_cont Eq ma mb) with (Pos.compare ma mb);
    destruct (Z.compare_spec ea eb); destruct (Pos.compare_spec ma mb); simpl;
    split; intros; try discriminate; try reflexivity; try lia.
Qed.

Lemma float_ltb_asym (a b : float) :
  not_nan a -> not_nan b -> float_ltb a b = true -> float_ltb b a = false.
Proof.
  intros Ha Hb H. apply (float_ltb_rank a b Ha Hb) in H.
  destruct (float_ltb b a) eqn:E; [|reflexivity].
  apply (float_ltb_rank b a Hb Ha) in E.
  unfold Spec.lex_lt in *. destruct (float_rank a) as [[? ?] ?], (float_rank b) as [[? ?] ?]. lia.
Qed.

Lemma float_ge_trans (a b c : float) :
  not_nan a -> not_nan b -> not_nan c ->
  float_ltb a b = false -> float_ltb b c = false -> float_ltb a c = false.
Proof.
  intros Ha Hb Hc H1 H2.
  destruct (float_ltb a c) eqn:E; [|reflexivity].
  apply (float_ltb_rank a c Ha Hc) in E.
  assert (N1 : ~ lex_lt (float_rank a) (float_rank b))
    by (intros L; apply (float_ltb_rank a b Ha Hb) in L; congruence).
  assert (N2 : ~ lex_lt (float_rank b) (float_rank c))
    by (intros L; apply (float_ltb_rank b c Hb Hc) in L; congruence).
  unfold Spec.lex_lt in *.
  destruct (float_rank a) as [[? ?] ?], (float_rank b) as [[? ?] ?], (float_rank c) as [[? ?] ?]. lia.
Qed.

End FloatOrder.


Module Text.

Import PyBase Spec.

Lemma code_inj (c d : ascii) : code c = code d -> c = d.
Proof.
  unfold code. intros H.
  rewrite <- (ascii_N_embedding c), <- (ascii_N_embedding d). now rewrite H.
Qed.

Lemma code_lt_256 (c : ascii) : (code c < 256)%N.
Proof. apply N_ascii_bounded. Qed.

Lemma code_ascii_of_N (n : N) : (n < 256)%N -> code (ascii_of_N n) = n.
Proof. apply N_ascii_embedding. Qed.

Lemma is_upper_spec (c : ascii) : is_upper c = true <-> (65 <= code c <= 90)%N.
Proof. unfold is_upper. rewrite andb_true_iff, !N.leb_le. tauto. Qed.

Lemma code_lower_char (c : ascii) :
  code (lower_char c) = if is_upper c then (code c + 32)%N else code c.
Proof.
  unfold lower_char. destruct (is_upper c) eqn:E; [|reflexivity].
  apply is_upper_spec in E. apply code_ascii_of_N. lia.
Qed.

Lemma lower_char_same (c d : ascii) :
  same_letter c d <-> lower_char c = lower_char d.
Proof.
  split.
  - intros H. apply code_inj. rewrite !code_lower_char.
    destruct (is_upper c) eqn:Ec, (is_upper d) eqn:Ed;
      try apply is_upper_spec in Ec; try apply is_upper_spec in Ed;
      try (assert (Nc : ~ (65 <= code c <= 90)%N)
             by (rewrite <- is_upper_spec; congruence));
      try (assert (Nd : ~ (65 <= code d <= 90)%N)
             by (rewrite <- is_upper_spec; congruence));
      destruct H as [->|[[H1 H2]|[H1 H2]]]; try lia.
  - intros H. apply (f_equal code) in H. rewrite !code_lower_char in H.
    unfold Spec.same_letter.
    destruct (is_upper c) eqn:Ec, (is_upper d) eqn:Ed;
      try apply is_upper_spec in Ec; try apply is_upper_spec in Ed.
    + left. apply code_inj. lia.
    + right. left. split; [assumption|lia].
    + right. right. split; [assumption|lia].
    + left. now apply code_inj.
Qed.

Lemma caseless_lower (s t : string) : caseless s t <-> lower s = lower t.
Proof.
  revert t. induction s as [|c s IH]; destruct t as [|d t]; simpl;
    try (split; [contradiction|discriminate]); [tauto|].
  rewrite lower_char_same, IH. split.
  - intros [-> ->]. reflexivity.
  - intros H. inversion H. split; reflexivity || assumption.
Qed.

End Text.


Module Dict.

Import PyBase Gateway Bot.

Lemma dict_mem_get (k : string) (d : tokens_dict) :
  dict_mem k d = match dict_get k d with Some _ => true | None => false end.
Proof.
  induction d as [|[k' e] d IH]; simpl; [reflexivity|].
  destruct (k' =? k)%string; simpl; auto.
Qed.

Lemma dict_get_app (k : string) (d d' : tokens_dict) :
  dict_get k (d ++ d') =
  match dict_get k d with Some e => Some e | None => dict_get k d' end.
Proof.
  induction d as [|[k' e] d IH]; simpl; [reflexivity|].
  destruct (k' =? k)%string; auto.
Qed.

Lemma dict_get_In (k : string) (e : token_entry) (d : tokens_dict) :
  dict_get k d = Some e -> In (k, e) d.
Proof.
  induction d as [|[k' e'] d IH]; simpl; [discriminate|].
  destruct (k' =? k)%string eqn:E.
  - apply String.eqb_eq in E. intros H. inversion H; subst. now left.
  - intros H. right. now apply IH.
Qed.

Lemma dict_In_get (k : string) (e : token_entry) (d : tokens_dict) :
  NoDup (map fst d) -> In (k, e) d -> dict_get k d = Some e.
Proof.
  induction d as [|[k' e'] d IH]; simpl; [contradiction|].
  intros Hnd [H|H].
  - inversion H; subst. now rewrite String.eqb_refl.
  - inversion Hnd as [|? ? Hni Hnd']; subst.
    destruct (k' =? k)%string eqn:E.
    + apply String.eqb_eq in E. subst. exfalso. apply Hni.
      apply in_map_iff. now exists (k, e).
    + now apply IH.
Qed.

(** What an in-place update does to the dictionary. *)
Lemma dict_update_spec (k : string) (f : token_entry -> result token_entry)
  (d d' : tokens_dict) :
  dict_update k f d = Ok d' ->
  exists e e', dict_get k d = Some e /\ f e = Ok e'
    /\ dict_get k d' = Some e'
    /\ (forall k', k' <> k -> dict_get k' d' = dict_get k' d)
    /\ map fst d' = map fst d
    /\ exists d1 d2, d = (d1 ++ (k, e) :: d2)%list /\ d' = (d1 ++ (k, e') :: d2)%list.
Proof.
  revert d'. induction d as [|[k0 e0] d IH]; simpl; intros d' H; [discriminate|].
  destruct (k0 =? k)%string eqn:E.
  - apply String.eqb_eq in E. subst k0.
    destruct (f e0) as [e'|] eqn:Ef; simpl in H; [|discriminate].
    inversion H; subst. exists e0, e'. simpl. rewrite String.eqb_refl.
    repeat split; auto.
    + intros k' Hk'. destruct (k =? k')%string eqn:E'; [|reflexivity].
      apply String.eqb_eq in E'. congruence.
    + now exists [], d.
  - destruct (dict_update k f d) as [d''|] eqn:Eu; simpl in H; [|discriminate].
    inversion H; subst.
    destruct (IH d'' eq_refl) as (e & e' & H1 & H2 & H3 & H4 & H5 & d1 & d2 & H6 & H7).
    exists e, e'. simpl. rewrite E. repeat split; auto.
    + intros k' Hk'. destruct (k0 =? k')%string; auto.
    + now rewrite H5.
    + exists ((k0, e0) :: d1), d2. subst. now split.
Qed.

Lemma dict_update_total (k : string) (f : token_entry -> result token_entry)
  (d : tokens_dict) (e e' : token_entry) :
  dict_get k d = Some e -> f e = Ok e' -> exists d', dict_update k f d = Ok d'.
Proof.
  induction d as [|[k0 e0] d IH]; simpl; [discriminate|].
  destruct (k0 =? k)%string.
  - intros H Hf. inversion H; subst. rewrite Hf. simpl. now eexists.
  - intros H Hf. destruct (IH H Hf) as [d' ->]. simpl. now eexists.
Qed.

End Dict.

Module Fold.

Import PyBase Gateway Bot Spec Dict.

Section WithWallet.

Variable libm_pow10 : Z -> float.
Variable wallet : string.

Local Abbreviation buy := (Spec.buy wallet).
Local Abbreviation sell := (Spec.sell wallet).
Local Abbreviation sum_values := (Spec.sum_values libm_pow10).
Local Abbreviation summary := (Spec.summary libm_pow10 wallet).
Local Abbreviation bump := (Spec.bump wallet).
Local Abbreviation Inv := (Spec.Inv libm_pow10 wallet).

Lemma sum_values_snoc (l : list transfer) (tx : transfer) :
  sum_values (l ++ [tx]) =
  (a <- sum_values l ;; v <- adjusted_value libm_pow10 tx ;; py_add a v).
Proof. unfold Spec.sum_values. now rewrite fold_left_app. Qed.

Lemma records_for_snoc (addr : string) (l : list transfer) (tx : transfer) :
  records_for addr (l ++ [tx]) =
  records_for addr l ++ (if (key_of tx =? addr)%string then [tx] else []).
Proof. unfold Spec.records_for. rewrite filter_app. simpl. now destruct (key_of tx =? addr)%string. Qed.

Lemma adjusted_value_float (tx : transfer) (v : pynum) :
  adjusted_value libm_pow10 tx = Ok v -> exists f, v = PFloat f.
Proof.
  unfold adjusted_value.
  destruct (int_field (tokenDecimal tx) 18) as [d|]; simpl; [|discriminate].
  destruct (int_field (value tx) 0) as [raw|]; simpl; [|discriminate].
  unfold py_truediv, pow10. destruct (0 <=? d).
  - destruct (int_truediv raw (10 ^ d)); simpl; [|discriminate].
    intros H. inversion H. now eexists.
  - simpl. destruct (float_of_int raw); simpl; [|discriminate].
    destruct (float_truediv _ _); simpl; [|discriminate].
    intros H. inversion H. now eexists.
Qed.

Lemma py_add_amount (a : pynum) (f : float) :
  amount_ok a -> exists g, py_add a (PFloat f) = Ok (PFloat g).
Proof.
  intros [->|[g ->]]; simpl; now eexists.
Qed.

Lemma summary_cons (addr : string) (first : transfer) (recs : list transfer) :
  summary addr (first :: recs) =
  (bought <- sum_values (filter buy (first :: recs)) ;;
   sold <- sum_values (filter sell (first :: recs)) ;;
   Ok {| symbol := get_default (tokenSymbol first) "???";
         name := get_default (tokenName first) "Unknown";
         address := addr;
         buys := Z.of_nat (List.length (filter buy (first :: recs)));
         sells := Z.of_nat (List.length (filter sell (first :: recs)));
         buy_amount := bought;
         sell_amount := sold |}).
Proof. reflexivity. Qed.

Lemma filter_one (f : transfer -> bool) (tx : transfer) :
  filter f [tx] = if f tx then [tx] else [].
Proof. reflexivity. Qed.

(** One more record on an existing summary. *)
Lemma summary_snoc (addr : string) (recs : list transfer) (tx : transfer)
  (e : token_entry) :
  summary addr recs = Ok e ->
  summary addr (recs ++ [tx]) =
  (v <- adjusted_value libm_pow10 tx ;; bump v tx e).
Proof.
  unfold Spec.bump.
  destruct recs as [|first recs]; [intros H; discriminate H|].
  intros H. rewrite summary_cons in H.
  change ((first :: recs) ++ [tx]) with (first :: (recs ++ [tx])).
  rewrite summary_cons.
  change (first :: (recs ++ [tx])) with ((first :: recs) ++ [tx]).
  remember (first :: recs) as l eqn:El. clear El.
  rewrite !filter_app, !filter_one. unfold Spec.buy at 2 4, Spec.sell at 2 4.
  destruct (sum_values (filter buy l)) as [bought|] eqn:Eb; [|discriminate H].
  destruct (sum_values (filter sell l)) as [sold|] eqn:Es; [|discriminate H].
  simpl in H. inversion H; subst e; clear H.
  destruct (is_buy wallet tx) eqn:E; simpl negb; cbv iota.
  - rewrite app_nil_r, sum_values_snoc, Eb, Es. simpl.
    destruct (adjusted_value libm_pow10 tx) as [v|]; simpl; [|reflexivity].
    unfold add_buy. simpl. destruct (py_add bought v); simpl; [|reflexivity].
    rewrite length_app. simpl. do 2 f_equal. lia.
  - rewrite app_nil_r, sum_values_snoc, Eb, Es. simpl.
    destruct (adjusted_value libm_pow10 tx) as [v|]; simpl; [|reflexivity].
    unfold add_sell. simpl. destruct (py_add sold v); simpl; [|reflexivity].
    rewrite length_app. simpl. do 2 f_equal. lia.
Qed.

Lemma fold_step_eq (seen : tokens_dict) (tx : transfer) :
  fold_step libm_pow10 wallet seen tx =
  (v <- adjusted_value libm_pow10 tx ;;
   dict_update (key_of tx) (bump v tx) (with_key seen tx)).
Proof.
  unfold fold_step, Spec.bump, Spec.with_key, Spec.fresh, Spec.key_of.
  destruct (adjusted_value libm_pow10 tx); simpl; [|reflexivity].
  now destruct (is_buy wallet tx).
Qed.

Lemma summary_single (tx : transfer) :
  summary (key_of tx) [tx] =
  (v <- adjusted_value libm_pow10 tx ;; bump v tx (fresh tx)).
Proof.
  rewrite summary_cons, !filter_one. unfold Spec.buy, Spec.sell, Spec.bump.
  destruct (is_buy wallet tx); simpl; unfold Spec.sum_values; simpl;
    destruct (adjusted_value libm_pow10 tx) as [v|]; simpl; try reflexivity;
    unfold add_buy, add_sell; simpl; destruct (py_add (PInt 0) v); reflexivity.
Qed.

Lemma total_count_app (d1 d2 : tokens_dict) :
  total_count (d1 ++ d2) = total_count d1 + total_count d2.
Proof. induction d1 as [|kv d1 IH]; simpl; lia. Qed.

Lemma bump_counts (v : pynum) (tx : transfer) (e e' : token_entry) :
  bump v tx e = Ok e' -> buys e' + sells e' = buys e + sells e + 1.
Proof.
  unfold Spec.bump, add_buy, add_sell.
  destruct (is_buy wallet tx); [destruct (py_add (buy_amount e) v)
                               | destruct (py_add (sell_amount e) v)];
    simpl; intros H; inversion H; simpl; lia.
Qed.

Lemma bump_amounts (f : float) (tx : transfer) (e e' : token_entry) :
  amount_ok (buy_amount e) -> amount_ok (sell_amount e) ->
  bump (PFloat f) tx e = Ok e' ->
  amount_ok (buy_amount e') /\ amount_ok (sell_amount e').
Proof.
  intros Hb Hs. unfold Spec.bump, add_buy, add_sell.
  destruct (is_buy wallet tx).
  - destruct (py_add_amount (buy_amount e) f Hb) as [g ->]. simpl.
    intros H; inversion H; simpl. split; [right; now eexists|assumption].
  - destruct (py_add_amount (sell_amount e) f Hs) as [g ->]. simpl.
    intros H; inversion H; simpl. split; [assumption|right; now eexists].
Qed.

Lemma bump_total (f : float) (tx : transfer) (e : token_entry) :
  amount_ok (buy_amount e) -> amount_ok (sell_amount e) ->
  exists e', bump (PFloat f) tx e = Ok e'.
Proof.
  intros Hb Hs. unfold Spec.bump, add_buy, add_sell.
  destruct (is_buy wallet tx).
  - destruct (py_add_amount (buy_amount e) f Hb) as [g ->]. simpl. now eexists.
  - destruct (py_add_amount (sell_amount e) f Hs) as [g ->]. simpl. now eexists.
Qed.

Lemma Inv_nil : Inv [] [].
Proof. repeat split; simpl; auto; constructor. Qed.

Lemma with_key_facts (seen : tokens_dict) (tx : transfer) :
  NoDup (map fst seen) -> amounts_ok seen ->
  NoDup (map fst (with_key seen tx))
  /\ amounts_ok (with_key seen tx)
  /\ total_count (with_key seen tx) = total_count seen
  /\ (forall k, k <> key_of tx -> dict_get k (with_key seen tx) = dict_get k seen)
  /\ dict_get (key_of tx) (with_key seen tx)
     = Some (match dict_get (key_of tx) seen with Some e => e | None => fresh tx end).
Proof.
  intros Hnd Hok. unfold Spec.with_key. rewrite dict_mem_get.
  destruct (dict_get (key_of tx) seen) as [e|] eqn:Eg.
  - repeat split; auto.
  - repeat split.
    + rewrite map_app. simpl. apply NoDup_app; auto.
      * repeat constructor. intros [].
      * intros k Hk [<-|[]]. apply in_map_iff in Hk.
        destruct Hk as ([k' e'] & Hk' & Hin). simpl in Hk'. subst k'.
        rewrite (dict_In_get _ _ _ Hnd Hin) in Eg. discriminate.
    + apply Forall_app. split; [assumption|]. repeat constructor; simpl; now left.
    + rewrite total_count_app. simpl. lia.
    + intros k Hk. rewrite dict_get_app. destruct (dict_get k seen); [reflexivity|].
      simpl. destruct (key_of tx =? k)%string eqn:E; [|reflexivity].
      apply String.eqb_eq in E. congruence.
    + rewrite dict_get_app, Eg. simpl. now rewrite String.eqb_refl.
Qed.

Lemma Inv_step (done : list transfer) (seen seen' : tokens_dict) (tx : transfer) :
  Inv done seen -> fold_step libm_pow10 wallet seen tx = Ok seen' ->
  Inv (done ++ [tx]) seen'.
Proof.
  intros (Hnd & Hsum & Htot & Hok) Hstep. rewrite fold_step_eq in Hstep.
  destruct (adjusted_value libm_pow10 tx) as [v|] eqn:Ev; [|discriminate Hstep].
  simpl in Hstep. destruct (adjusted_value_float tx v Ev) as [f ->].
  destruct (with_key_facts seen tx Hnd Hok) as (Wnd & Wok & Wtot & Wother & Wkey).
  destruct (dict_update_spec _ _ _ _ Hstep)
    as (e & e' & Hget & Hbump & Hget' & Hother & Hkeys & d1 & d2 & Hd & Hd').
  rewrite Wkey in Hget. inversion Hget as [He]; clear Hget.
  assert (Hoke : amount_ok (buy_amount e) /\ amount_ok (sell_amount e)).
  { rewrite Hd in Wok. apply Forall_app in Wok. destruct Wok as [_ Wok].
    inversion Wok; subst; assumption. }
  repeat split.
  - now rewrite Hkeys.
  - intros addr. rewrite records_for_snoc.
    destruct (key_of tx =? addr)%string eqn:E.
    + apply String.eqb_eq in E. subst addr. rewrite Hget'.
      specialize (Hsum (key_of tx)).
      destruct (dict_get (key_of tx) seen) as [e0|].
      * subst e0. rewrite (summary_snoc _ _ _ _ Hsum), Ev. exact Hbump.
      * rewrite Hsum. change ([] ++ [tx]) with [tx].
        rewrite summary_single, Ev. subst e. exact Hbump.
    + assert (Hne : addr <> key_of tx)
        by (intros ->; rewrite String.eqb_refl in E; discriminate).
      rewrite app_nil_r, (Hother addr Hne), (Wother addr Hne). apply Hsum.
  - rewrite length_app. simpl. rewrite Hd', total_count_app. simpl.
    rewrite (bump_counts _ _ _ _ Hbump).
    rewrite Hd, total_count_app in Wtot. simpl in Wtot. lia.
  - rewrite Hd'. rewrite Hd in Wok. apply Forall_app in Wok.
    destruct Wok as [W1 W2]. inversion W2 as [|? ? W3 W4]. apply Forall_app. split; auto.
    constructor; auto. simpl.
    apply (bump_amounts f tx e e'); tauto.
Qed.

Lemma fold_inv (txs done : list transfer) (seen seen' : tokens_dict) :
  Inv done seen -> fold_transfers libm_pow10 wallet seen txs = Ok seen' ->
  Inv (done ++ txs) seen'.
Proof.
  revert done seen. induction txs as [|tx txs IH]; simpl; intros done seen HI H.
  - inversion H; subst. now rewrite app_nil_r.
  - destruct (fold_step libm_pow10 wallet seen tx) as [seen1|] eqn:E; [|discriminate H].
    simpl in H. replace (done ++ tx :: txs) with ((done ++ [tx]) ++ txs)
      by (now rewrite <- app_assoc).
    apply (IH _ seen1); [|assumption]. now apply (Inv_step done seen).
Qed.

(** The loop body goes through whenever the record's value can be
    computed. *)
Lemma fold_step_total (done : list transfer) (seen : tokens_dict) (tx : transfer)
  (v : pynum) :
  Inv done seen -> adjusted_value libm_pow10 tx = Ok v ->
  exists seen', fold_step libm_pow10 wallet seen tx = Ok seen'.
Proof.
  intros (Hnd & Hsum & Htot & Hok) Ev. rewrite fold_step_eq, Ev. simpl.
  destruct (adjusted_value_float tx v Ev) as [f ->].
  destruct (with_key_facts seen tx Hnd Hok) as (Wnd & Wok & Wtot & Wother & Wkey).
  set (e := match dict_get (key_of tx) seen with Some e => e | None => fresh tx end) in *.
  assert (Hoke : amount_ok (buy_amount e) /\ amount_ok (sell_amount e)).
  { apply dict_get_In in Wkey. unfold Spec.amounts_ok in Wok.
    rewrite Forall_forall in Wok. apply (Wok _ Wkey). }
  destruct (bump_total f tx e (proj1 Hoke) (proj2 Hoke)) as [e' He'].
  apply (dict_update_total _ _ _ e e'); assumption.
Qed.

Lemma fold_total (txs done : list transfer) (seen : tokens_dict) :
  Inv done seen ->
  Forall (fun tx => exists v, adjusted_value libm_pow10 tx = Ok v) txs ->
  exists seen', fold_transfers libm_pow10 wallet seen txs = Ok seen'.
Proof.
  revert done seen. induction txs as [|tx txs IH]; simpl; intros done seen HI H.
  - now eexists.
  - inversion H as [|? ? [v Hv] Hrest]; subst.
    destruct (fold_step_total done seen tx v HI Hv) as [seen1 E]. rewrite E. simpl.
    apply (IH (done ++ [tx])); [|assumption]. now apply (Inv_step done seen).
Qed.

(** An exception of the loop comes from a record whose value cannot be
    computed. *)
Lemma fold_raise (txs done : list transfer) (seen : tokens_dict) (e : exn) :
  Inv done seen -> fold_transfers libm_pow10 wallet seen txs = Raise e ->
  exists tx, In tx txs /\ adjusted_value libm_pow10 tx = Raise e.
Proof.
  revert done seen. induction txs as [|tx txs IH]; simpl; intros done seen HI H.
  - discriminate H.
  - destruct (adjusted_value libm_pow10 tx) as [v|e'] eqn:Ev.
    + destruct (fold_step_total done seen tx v HI Ev) as [seen1 E].
      rewrite E in H. simpl in H.
      destruct (IH (done ++ [tx]) seen1 (Inv_step _ _ _ _ HI E) H) as (tx' & Hin & Hr).
      exists tx'. split; [now right|assumption].
    + rewrite fold_step_eq, Ev in H. simpl in H. inversion H; subst.
      exists tx. split; [now left|assumption].
Qed.

End WithWallet.
End Fold.


Module Report.

Import PyBase Gateway Bot Spec SortFacts.

Section WithLibm.
Variable libm_pow10 : Z -> float.

(** The run of [format_wallet_analysis], effect by effect. *)
Lemma format_wallet_analysis_run (wallet : string) (up : upstream) :
  format_wallet_analysis libm_pow10 wallet up =
  let eth_price := up_eth_price up in
  let eth_balance := up_eth_balance up wallet in
  let token_txns := up_token_transactions up wallet 30 in
  if match token_txns with [] => true | _ => false end && py_eq_zero eth_balance
  then (first_calls wallet, Ok NO_ACTIVITY)
  else
    match py_mul eth_balance eth_price with
    | Raise e => (first_calls wallet, Raise e)
    | Ok eth_value_usd =>
    match fold_transfers libm_pow10 wallet [] token_txns with
    | Raise e => (first_calls wallet, Raise e)
    | Ok tokens_seen =>
    match format_f false false 4 eth_balance with
    | Raise e => (first_calls wallet, Raise e)
    | Ok balance_text =>
    match format_f false true 2 eth_value_usd with
    | Raise e => (first_calls wallet, Raise e)
    | Ok usd_text =>
    match tokens_seen with
    | [] => (first_calls wallet, Raise UnboundLocalError)
    | _ :: _ =>
      match rank tokens_seen with
      | Raise e => (first_calls wallet, Raise e)
      | Ok sorted_tokens =>
        let msg := (header wallet balance_text usd_text
                    ++ activity_section sorted_tokens)%string in
        match sorted_tokens with
        | [] => (first_calls wallet, Ok msg)
        | top_token :: _ =>
            (first_calls wallet ++ [CallTokenInfo (address top_token)],
             Ok match up_token_info up (address top_token) with
                | Some info => (msg ++ render_top info)%string
                | None => msg
                end)
        end
      end
    end end end end end.
Proof.
  unfold format_wallet_analysis, get_eth_price, get_eth_balance,
    get_token_transactions, get_token_info, bind, call, lift, ret, Spec.first_calls,
    Spec.activity_section.
  cbv zeta.
  destruct (match up_token_transactions up wallet 30 with [] => true | _ => false end
            && py_eq_zero (up_eth_balance up wallet)); [reflexivity|].
  destruct (py_mul _ _); [|reflexivity].
  destruct (fold_transfers _ _ _ _) as [seen|]; [|reflexivity].
  destruct (format_f false false 4 _); [|reflexivity].
  destruct (format_f false true 2 _); [|reflexivity].
  destruct seen as [|kv seen]; [reflexivity|].
  destruct (rank (kv :: seen)) as [ranked|]; [|reflexivity].
  destruct ranked as [|top ranked]; [reflexivity|].
  destruct (up_token_info up (address top)); reflexivity.
Qed.

Lemma string_app_assoc (a b c : string) :
  ((a ++ b) ++ c = a ++ b ++ c)%string.
Proof. induction a as [|x a IH]; simpl; [reflexivity|now rewrite IH]. Qed.

Lemma string_app_nil_r (a : string) : (a ++ "")%string = a.
Proof. induction a as [|x a IH]; simpl; [reflexivity|now rewrite IH]. Qed.

Lemma StronglySorted_weaken {A : Type} (R R' : A -> A -> Prop) (l : list A) :
  (forall a b, R a b -> R' a b) -> StronglySorted R l -> StronglySorted R' l.
Proof.
  intros HR. induction 1 as [|a l Hs IH Ha]; constructor; auto.
  rewrite Forall_forall in *. auto.
Qed.

(** The ranking: a descending arrangement of the summaries, cut after
    eight. *)
Lemma rank_spec (seen : tokens_dict) :
  exists kept dropped,
    rank seen = Ok kept
    /\ Permutation (dict_values seen) (kept ++ dropped)
    /\ StronglySorted by_activity (kept ++ dropped)
    /\ List.length kept = Nat.min 8 (List.length seen)
    /\ (forall a b, In a kept -> In b dropped -> activity b <= activity a).
Proof.
  destruct (mapM_total (fun x => Ok (activity x)) (dict_values seen)) as [ks Hks].
  { apply Forall_forall. intros x _. now eexists. }
  assert (Hasym : forall a b : Z, True -> True -> (a <? b) = true -> (b <? a) = false)
    by (intros a b _ _ H; apply Z.ltb_lt in H; apply Z.ltb_ge; lia).
  assert (Htrans : forall a b c : Z, True -> True -> True ->
                   (a <? b) = false -> (b <? c) = false -> (a <? c) = false)
    by (intros a b c _ _ _ H1 H2; apply Z.ltb_ge in H1, H2; apply Z.ltb_ge; lia).
  assert (Hall : Forall (fun _ : Z => True) ks) by (apply Forall_forall; auto).
  destruct (sorted_reverse_spec (A := token_entry) Z.ltb (fun _ => True) Hasym Htrans
              (fun x => Ok (activity x)) (dict_values seen) ks Hks Hall)
    as (s & Hs & Hperm & Hsorted).
  assert (Hsorted' : StronglySorted by_activity s).
  { apply (StronglySorted_weaken (key_ge Z.ltb (fun x => Ok (activity x)))); [|exact Hsorted].
    intros a b (ka & kb & Ha & Hb & Hlt).
    inversion Ha; inversion Hb; subst. apply Z.ltb_ge in Hlt. exact Hlt. }
  exists (firstn 8 s), (skipn 8 s). unfold rank. rewrite Hs. unfold rbind.
  rewrite firstn_skipn. repeat split; auto.
  - now apply Permutation_sym.
  - rewrite length_firstn. apply Permutation_length in Hperm.
    rewrite Hperm. unfold dict_values. now rewrite length_map.
  - apply (sorted_app_ge by_activity). now rewrite firstn_skipn.
Qed.

Lemma run_ok_inj {A : Type} (evs evs' : list event) (a a' : A) :
  (evs, Ok a) = (evs', Ok a') -> a = a'.
Proof. intros H. now inversion H. Qed.

(** A populated report opens with a line feed, the "no activity" text
    with its cross mark. *)
Lemma header_not_no_activity (wallet bt ut rest : string) :
  (header wallet bt ut ++ rest)%string <> NO_ACTIVITY.
Proof. unfold header, NO_ACTIVITY, nl. simpl. discriminate. Qed.

(** With no transfer and a balance other than zero the function never
    returns. *)
Lemma balance_only_raises (wallet : string) (up : upstream) :
  up_token_transactions up wallet 30 = [] ->
  py_eq_zero (up_eth_balance up wallet) = false ->
  exists e, format_wallet_analysis libm_pow10 wallet up = (first_calls wallet, Raise e).
Proof.
  intros Htx Hbal. rewrite format_wallet_analysis_run. cbv zeta.
  rewrite Htx, Hbal. simpl.
  destruct (py_mul _ _); [|now eexists].
  destruct (format_f false false 4 _); [|now eexists].
  destruct (format_f false true 2 _); now eexists.
Qed.

(** Every text that is returned is the "no activity" text, or has the
    header, the ranked activity section and, possibly, the top-traded
    section. *)
Lemma report_shape (wallet : string) (up : upstream) (evs : list event) (msg : string) :
  format_wallet_analysis libm_pow10 wallet up = (evs, Ok msg) ->
  (nothing_found wallet up = true /\ msg = NO_ACTIVITY)
  \/ (nothing_found wallet up = false
      /\ exists seen kept bt ut top,
           fold_transfers libm_pow10 wallet [] (up_token_transactions up wallet 30)
           = Ok seen
           /\ rank seen = Ok kept
           /\ msg = (header wallet bt ut ++ activity_section kept ++ top)%string).
Proof.
  rewrite format_wallet_analysis_run. cbv zeta.
  change (match up_token_transactions up wallet 30 with [] => true | _ => false end
          && py_eq_zero (up_eth_balance up wallet)) with (nothing_found wallet up).
  destruct (nothing_found wallet up);
    [intros H; apply run_ok_inj in H; left; now split|].
  destruct (py_mul _ _); [|discriminate].
  destruct (fold_transfers _ _ _ _) as [seen|]; [|discriminate].
  destruct (format_f false false 4 _) as [bt|]; [|discriminate].
  destruct (format_f false true 2 _) as [ut|]; [|discriminate].
  destruct seen as [|kv seen]; [discriminate|].
  destruct (rank (kv :: seen)) as [kept|] eqn:Er; [|discriminate].
  intros H. right. split; [reflexivity|]. exists (kv :: seen), kept, bt, ut.
  destruct kept as [|top kept].
  - exists ""%string. apply run_ok_inj in H. rewrite <- H.
    split; [reflexivity|]. split; [exact Er|].
    now rewrite string_app_nil_r.
  - destruct (up_token_info up (address top)) as [info|];
      apply run_ok_inj in H; rewrite <- H.
    + exists (render_top info).
      split; [reflexivity|]. split; [exact Er|]. apply string_app_assoc.
    + exists ""%string.
      split; [reflexivity|]. split; [exact Er|]. now rewrite string_app_nil_r.
Qed.

(** Every report, part by part: the header carries the balance and its
    value as they are formatted, the activity section lists what [rank]
    returns, and the text ends with the top-traded section. *)
Lemma report_text (wallet : string) (up : upstream) (evs : list event) (msg : string) :
  format_wallet_analysis libm_pow10 wallet up = (evs, Ok msg) ->
  msg <> NO_ACTIVITY ->
  exists seen kept usd bt ut,
    fold_transfers libm_pow10 wallet [] (up_token_transactions up wallet 30) = Ok seen
    /\ rank seen = Ok kept
    /\ py_mul (up_eth_balance up wallet) (up_eth_price up) = Ok usd
    /\ format_f false false 4 (up_eth_balance up wallet) = Ok bt
    /\ format_f false true 2 usd = Ok ut
    /\ msg = (header wallet bt ut ++ activity_section kept ++ top_traded up kept)%string.
Proof.
  rewrite format_wallet_analysis_run. cbv zeta.
  destruct (_ && _);
    [intros H Hne; apply run_ok_inj in H; now contradiction Hne|].
  destruct (py_mul _ _) as [usd|] eqn:Eu; [|discriminate].
  destruct (fold_transfers _ _ _ _) as [seen|] eqn:Ef; [|discriminate].
  destruct (format_f false false 4 _) as [bt|] eqn:Eb; [|discriminate].
  destruct (format_f false true 2 _) as [ut|] eqn:Et; [|discriminate].
  destruct seen as [|kv seen]; [discriminate|].
  destruct (rank (kv :: seen)) as [kept|] eqn:Er; [|discriminate].
  intros H _. exists (kv :: seen), kept, usd, bt, ut.
  split; [reflexivity|]. split; [exact Er|]. split; [reflexivity|].
  split; [reflexivity|]. split; [exact Et|].
  destruct kept as [|top kept]; unfold Spec.top_traded.
  - apply run_ok_inj in H. rewrite <- H. now rewrite string_app_nil_r.
  - destruct (up_token_info up (address top)) as [info|];
      apply run_ok_inj in H; rewrite <- H.
    + apply string_app_assoc.
    + now rewrite string_app_nil_r.
Qed.

End WithLibm.
End Report.


Module Trending.

Import PyBase Gateway Bot Spec SortFacts FloatOrder.

Lemma combine_keys (l : list pair) (ks : list float) :
  mapM volume_key l = Ok ks ->
  combine ks l = map (fun p => (volume_or_zero p, p)) l.
Proof.
  revert ks. induction l as [|p l IH]; simpl; intros ks H.
  - inversion H. reflexivity.
  - unfold Spec.volume_or_zero at 1.
    destruct (volume_key p) as [k|]; simpl in H; [|discriminate].
    destruct (mapM volume_key l) as [ks'|]; simpl in H; [|discriminate].
    inversion H; subst. simpl. now rewrite (IH ks' eq_refl).
Qed.

(** What [get_trending_base] returns when every volume on Base reads as a
    float: the first ten of a permutation of the pairs on Base, whatever
    the volumes; and, when no volume is a NaN, the first ten in descending
    order of volume. *)
Lemma trending_ok (pairs : list pair) (ks : list float) :
  mapM volume_key (filter on_base pairs) = Ok ks ->
  exists dropped,
    Permutation (filter on_base pairs) (get_trending_base (Ok pairs) ++ dropped)
    /\ List.length (get_trending_base (Ok pairs))
       = Nat.min 10 (List.length (filter on_base pairs))
    /\ (Forall not_nan ks ->
        StronglySorted by_volume (get_trending_base (Ok pairs) ++ dropped)
        /\ get_trending_base (Ok pairs) = trending_as_specified pairs).
Proof.
  intros Hks.
  set (s := map snd (sort_desc float_ltb (combine ks (filter on_base pairs)))).
  assert (Hs : sorted_reverse float_ltb volume_key (filter on_base pairs) = Ok s)
    by (unfold sorted_reverse; now rewrite Hks).
  assert (Hperm : Permutation s (filter on_base pairs)).
  { destruct (mapM_combine volume_key _ ks Hks) as (H1 & _).
    subst s. rewrite <- H1 at 2. apply Permutation_map, sort_desc_perm. }
  assert (Hrun : get_trending_base (Ok pairs) = firstn 10 s).
  { unfold get_trending_base, trending_of, rbind. now rewrite Hs. }
  exists (skipn 10 s). rewrite Hrun, firstn_skipn. split; [|split].
  - now apply Permutation_sym.
  - rewrite length_firstn. now rewrite (Permutation_length Hperm).
  - intros Hnan.
    destruct (sorted_reverse_spec (A := pair) float_ltb not_nan float_ltb_asym
                float_ge_trans volume_key (filter on_base pairs) ks Hks Hnan)
      as (s' & Hs' & _ & Hsorted).
    rewrite Hs in Hs'. inversion Hs' as [Hss]. rewrite <- Hss in Hsorted.
    split; [exact Hsorted|].
    unfold Spec.trending_as_specified. f_equal. subst s.
    now rewrite (combine_keys _ _ Hks).
Qed.

Lemma trending_unparseable (pairs : list pair) (p : pair) (e : exn) :
  In p pairs -> on_base p = true -> volume_key p = Raise e ->
  get_trending_base (Ok pairs) = [].
Proof.
  intros Hin Hb Hk.
  assert (Hf : In p (filter on_base pairs)) by (apply filter_In; now split).
  destruct (mapM_raise volume_key _ p e Hf Hk) as [e' He'].
  unfold get_trending_base, trending_of, sorted_reverse, rbind. now rewrite He'.
Qed.

Lemma trending_none (pairs : list pair) :
  filter on_base pairs = [] -> get_trending_base (Ok pairs) = [].
Proof.
  intros H. unfold get_trending_base, trending_of, sorted_reverse, rbind.
  now rewrite H.
Qed.

Lemma no_volume_key (p : pair) : no_volume p -> volume_key p = Ok (S754_zero false).
Proof.
  unfold Spec.no_volume, volume_key.
  destruct (volume p) as [[[[|x|s]|]]|]; simpl; intros H; try reflexivity.
  - now rewrite H.
  - now subst s.
Qed.

End Trending.


Module Handler.

Import PyBase Gateway Bot Spec Text Report.

Lemma is_hex_plain (c : ascii) : is_hex c = true -> plain c.
Proof.
  unfold is_hex, is_digit, Spec.plain.
  rewrite !orb_true_iff, !andb_true_iff, !N.leb_le. lia.
Qed.

Lemma space_prefix_plain (c : ascii) (l : list ascii) :
  plain c -> space_prefix (c :: l) = O.
Proof.
  unfold Spec.plain, space_prefix. intros H.
  assert (E1 : (code c <=? 13)%N = false) by (apply N.leb_gt; lia).
  assert (E2 : (code c <=? 32)%N = false) by (apply N.leb_gt; lia).
  assert (E3 : (code c =? 194)%N = false) by (apply N.eqb_neq; lia).
  assert (E4 : (code c =? 225)%N = false) by (apply N.eqb_neq; lia).
  assert (E5 : (code c =? 226)%N = false) by (apply N.eqb_neq; lia).
  assert (E6 : (code c =? 227)%N = false) by (apply N.eqb_neq; lia).
  cbv zeta. rewrite E1, E2, E3, E4, E5, E6, !andb_false_r. simpl.
  destruct l as [|c2 [|c3 l]]; reflexivity.
Qed.

Lemma space_suffix_plain (r : list ascii) : Forall plain r -> space_suffix r = O.
Proof.
  intros H. destruct r as [|c1 r]; [reflexivity|].
  inversion H as [|? ? H1 Hr]; subst. unfold space_suffix.
  rewrite (space_prefix_plain c1 [] H1). change ((0 =? 1)%nat) with false. cbv iota.
  destruct r as [|c2 r]; [reflexivity|]. inversion Hr as [|? ? H2 Hr']; subst.
  rewrite (space_prefix_plain c2 [c1] H2). change ((0 =? 2)%nat) with false. cbv iota.
  destruct r as [|c3 r]; [reflexivity|]. inversion Hr' as [|? ? H3 _]; subst.
  now rewrite (space_prefix_plain c3 [c2; c1] H3).
Qed.

Lemma strip_with_fixed (test : list ascii -> nat) (l : list ascii) :
  test l = O -> strip_with test (List.length l) l = l.
Proof. intros H. destruct l; simpl; [reflexivity|now rewrite H]. Qed.

(** Text made of printable ASCII characters has nothing to strip. *)
Lemma strip_plain (s : string) :
  Forall plain (list_ascii_of_string s) -> strip s = s.
Proof.
  intros H. unfold strip, lstrip_bytes, rstrip_bytes.
  rewrite (strip_with_fixed space_prefix).
  - rewrite <- (length_rev (list_ascii_of_string s)).
    rewrite (strip_with_fixed space_suffix).
    + rewrite rev_involutive. apply string_of_list_ascii_of_string.
    + apply space_suffix_plain. apply Forall_rev. exact H.
  - destruct (list_ascii_of_string s) as [|c l]; [reflexivity|].
    inversion H; subst. now apply space_prefix_plain.
Qed.

Lemma well_formed_plain (s : string) :
  well_formed_address s = true -> Forall plain (list_ascii_of_string s).
Proof.
  unfold Spec.well_formed_address.
  destruct (list_ascii_of_string s) as [|c0 [|c1 rest]]; try discriminate.
  rewrite !andb_true_iff, !N.eqb_eq. intros [[[H0 H1] _] Hhex].
  constructor; [unfold Spec.plain; lia|]. constructor; [unfold Spec.plain; lia|].
  rewrite forallb_forall in Hhex. apply Forall_forall.
  intros c Hc. apply is_hex_plain. auto.
Qed.

Lemma well_formed_strip (s : string) :
  well_formed_address s = true -> strip s = s.
Proof. intros H. apply strip_plain. now apply well_formed_plain. Qed.

Lemma well_formed_is_wallet (s : string) :
  well_formed_address s = true -> is_wallet_address s = true.
Proof.
  unfold Spec.well_formed_address, is_wallet_address.
  destruct (list_ascii_of_string s) as [|c0 [|c1 rest]]; try discriminate.
  intros H. apply andb_true_iff in H as [H Hhex].
  apply andb_true_iff in H as [H Hlen]. apply andb_true_iff in H as [H0 H1].
  apply Nat.eqb_eq in Hlen.
  rewrite firstn_all2, skipn_all2 by lia.
  rewrite H0, H1, Hhex, Hlen. reflexivity.
Qed.

Lemma strip_with_stable (test : list ascii -> nat) (fuel : nat) (l : list ascii) :
  test [] = O -> (List.length l <= fuel)%nat -> test (strip_with test fuel l) = O.
Proof.
  intros Hnil. revert l. induction fuel as [|fuel IH]; simpl; intros l Hl.
  - destruct l; [assumption|simpl in Hl; lia].
  - destruct (test l) as [|k] eqn:E; [assumption|].
    apply IH. destruct l as [|c l]; [congruence|].
    simpl in *. rewrite length_skipn. lia.
Qed.

(** Stripped text does not end with white space. *)
Lemma strip_no_trailing_space (t : string) :
  space_suffix (rev (list_ascii_of_string (strip t))) = O.
Proof.
  unfold strip, rstrip_bytes.
  rewrite list_ascii_of_string_of_list_ascii, rev_involutive.
  apply strip_with_stable; [reflexivity|]. now rewrite length_rev.
Qed.

(** On text without trailing white space the pattern accepts the
    well-formed addresses and nothing else. *)
Lemma is_wallet_well_formed (s : string) :
  space_suffix (rev (list_ascii_of_string s)) = O ->
  is_wallet_address s = well_formed_address s.
Proof.
  unfold is_wallet_address, Spec.well_formed_address.
  destruct (list_ascii_of_string s) as [|c0 [|c1 rest]]; try reflexivity.
  intros Hsp.
  assert (Hlen : List.length (skipn 40 rest) = (List.length rest - 40)%nat)
    by apply length_skipn.
  destruct (skipn 40 rest) as [|c [|c' tl]] eqn:Esk.
  - simpl in Hlen. rewrite firstn_all2 by lia. now rewrite andb_true_r.
  - simpl in Hlen.
    assert (Hlong : (List.length rest =? 40)%nat = false) by (apply Nat.eqb_neq; lia).
    rewrite Hlong, (andb_false_r (_ && _)). cbn [andb].
    destruct (code c =? 10)%N eqn:Ec; [|now rewrite andb_false_r].
    exfalso. apply N.eqb_eq in Ec.
    rewrite <- (firstn_skipn 40 rest), Esk in Hsp.
    change (c0 :: c1 :: firstn 40 rest ++ [c])
      with ((c0 :: c1 :: firstn 40 rest) ++ [c]) in Hsp.
    rewrite rev_app_distr in Hsp. simpl rev at 1 in Hsp. simpl app at 1 in Hsp.
    unfold space_suffix, space_prefix in Hsp. rewrite Ec in Hsp. simpl in Hsp.
    discriminate.
  - simpl in Hlen.
    assert (Hlong : (List.length rest =? 40)%nat = false) by (apply Nat.eqb_neq; lia).
    rewrite Hlong, (andb_false_r (_ && _)). cbn [andb]. now rewrite andb_false_r.
Qed.

Lemma is_wallet_stripped (t : string) :
  is_wallet_address (strip t) = well_formed_address (strip t).
Proof. apply is_wallet_well_formed, strip_no_trailing_space. Qed.

Section WithLibm.
Variable libm_pow10 : Z -> float.

(** The run of [handle_message], effect by effect. *)
Lemma handle_message_run (message_text : string) (up : upstream) :
  handle_message libm_pow10 message_text up =
  if is_wallet_address (strip message_text) then
    match format_wallet_analysis libm_pow10 (lower (strip message_text)) up with
    | (evs, Ok msg) =>
        (ANALYZING :: evs ++ [ReplyText msg (Some "Markdown"%string) true], Ok tt)
    | (evs, Raise e) => (ANALYZING :: evs, Raise e)
    end
  else ([ReplyText INVALID_ADDRESS (Some "Markdown"%string) false], Ok tt).
Proof.
  unfold handle_message, bind, reply_text, Spec.ANALYZING.
  destruct (is_wallet_address (strip message_text)); [|reflexivity].
  destruct (format_wallet_analysis libm_pow10 _ up) as [evs [msg|e]]; reflexivity.
Qed.

Lemma analysis_calls (wallet : string) (up : upstream) :
  exists tail,
    fst (format_wallet_analysis libm_pow10 wallet up) = first_calls wallet ++ tail.
Proof.
  rewrite format_wallet_analysis_run. cbv zeta.
  destruct (_ && _); [now exists []|].
  destruct (py_mul _ _); [|now exists []].
  destruct (fold_transfers _ _ _ _) as [seen|]; [|now exists []].
  destruct (format_f false false 4 _); [|now exists []].
  destruct (format_f false true 2 _); [|now exists []].
  destruct seen as [|kv seen]; [now exists []|].
  destruct (rank (kv :: seen)) as [[|top kept]|]; try now exists [].
  now eexists.
Qed.

Lemma handle_message_calls (message_text : string) (up : upstream) :
  calls_upstream (fst (handle_message libm_pow10 message_text up))
  = is_wallet_address (strip message_text).
Proof.
  rewrite handle_message_run.
  destruct (is_wallet_address (strip message_text)); [|reflexivity].
  destruct (analysis_calls (lower (strip message_text)) up) as [tail Ht].
  destruct (format_wallet_analysis libm_pow10 _ up) as [evs [msg|e]];
    simpl in Ht; subst evs; reflexivity.
Qed.

End WithLibm.

End Handler.


(* ================================================================== *)
(** * The claims *)

Module Claims.

Import PyBase Gateway Bot Spec.
Import SortFacts FloatOrder Text Dict Fold Report Trending Handler.

(** ** Facts shared by the claims *)

Lemma total_count_Zsum (d : tokens_dict) :
  total_count d = Zsum (map buys (dict_values d)) + Zsum (map sells (dict_values d)).
Proof.
  unfold dict_values. induction d as [|kv d IH]; simpl; [reflexivity|].
  rewrite IH. lia.
Qed.

Lemma filter_split_length {A : Type} (f : A -> bool) (l : list A) :
  (List.length (filter f l) + List.length (filter (fun a => negb (f a)) l)
   = List.length l)%nat.
Proof.
  induction l as [|a l IH]; simpl; [reflexivity|].
  destruct (f a); simpl; lia.
Qed.

(** What a summary says, member by member. *)
Lemma summary_facts (libm_pow10 : Z -> float) (wallet addr : string)
  (recs : list transfer) (e : token_entry) :
  summary libm_pow10 wallet addr recs = Ok e ->
  address e = addr
  /\ buys e = Z.of_nat (List.length (filter (buy wallet) recs))
  /\ sells e = Z.of_nat (List.length (filter (sell wallet) recs))
  /\ buys e + sells e = Z.of_nat (List.length recs)
  /\ sum_values libm_pow10 (filter (buy wallet) recs) = Ok (buy_amount e)
  /\ sum_values libm_pow10 (filter (sell wallet) recs) = Ok (sell_amount e).
Proof.
  destruct recs as [|first recs]; [discriminate|].
  rewrite summary_cons. remember (first :: recs) as l eqn:El. clear El.
  destruct (sum_values libm_pow10 (filter (buy wallet) l)) as [b|]; [|discriminate].
  destruct (sum_values libm_pow10 (filter (sell wallet) l)) as [s|]; [|discriminate].
  unfold rbind. intros H. inversion H; subst e; clear H.
  cbn [address buys sells buy_amount sell_amount].
  repeat split.
  rewrite <- Nat2Z.inj_add. f_equal.
  change (sell wallet) with (fun a => negb (buy wallet a)).
  apply filter_split_length.
Qed.

Lemma with_key_get (seen : tokens_dict) (tx : transfer) :
  dict_get (key_of tx) (with_key seen tx)
  = Some (match dict_get (key_of tx) seen with Some e => e | None => fresh tx end).
Proof.
  unfold with_key. rewrite dict_mem_get.
  destruct (dict_get (key_of tx) seen) as [e|] eqn:E; [exact E|].
  rewrite dict_get_app, E. simpl. now rewrite String.eqb_refl.
Qed.

(** What one turn of the loop does to the summary of the record's
    token. *)
Lemma fold_step_effect (libm_pow10 : Z -> float) (wallet : string)
  (tokens_seen tokens_seen' : tokens_dict) (tx : transfer) :
  fold_step libm_pow10 wallet tokens_seen tx = Ok tokens_seen' ->
  exists v e',
    adjusted_value libm_pow10 tx = Ok v
    /\ dict_get (key_of tx) tokens_seen' = Some e'
    /\ let e := match dict_get (key_of tx) tokens_seen with
                | Some e => e
                | None => fresh tx
                end in
       if is_buy wallet tx
       then buys e' = buys e + 1 /\ sells e' = sells e
            /\ py_add (buy_amount e) v = Ok (buy_amount e')
            /\ sell_amount e' = sell_amount e
       else sells e' = sells e + 1 /\ buys e' = buys e
            /\ py_add (sell_amount e) v = Ok (sell_amount e')
            /\ buy_amount e' = buy_amount e.
Proof.
  intros Hstep. rewrite fold_step_eq in Hstep.
  destruct (adjusted_value libm_pow10 tx) as [v|]; [|discriminate].
  unfold rbind in Hstep.
  destruct (dict_update_spec _ _ _ _ Hstep) as (e & e' & Hget & Hbump & Hget' & _).
  rewrite with_key_get in Hget. inversion Hget as [He]. clear Hget.
  exists v, e'. split; [reflexivity|]. split; [exact Hget'|]. cbv zeta.
  unfold bump in Hbump. destruct (is_buy wallet tx).
  - unfold add_buy in Hbump.
    destruct (py_add (buy_amount e) v) as [amount|] eqn:Ea; [|discriminate].
    unfold rbind in Hbump. inversion Hbump. simpl. rewrite He, Ea. repeat split.
  - unfold add_sell in Hbump.
    destruct (py_add (sell_amount e) v) as [amount|] eqn:Ea; [|discriminate].
    unfold rbind in Hbump. inversion Hbump. simpl. rewrite He, Ea. repeat split.
Qed.

(** C1 (the code departs from it).  With no transfer and a balance of
    2.5 ETH, [format_wallet_analysis] fetches the three data sets and then
    raises [UnboundLocalError]: [sorted_tokens] is read although only the
    branch for a non-empty [tokens_seen] binds it.  No balance-only report
    is returned. *)
Theorem balance_only_report_raises :
  forall libm_pow10 : Z -> float,
    format_wallet_analysis libm_pow10 sample_wallet balance_only
    = ([CallEthPrice; CallEthBalance sample_wallet;
        CallTokenTransactions sample_wallet 30],
       Raise UnboundLocalError).
Proof. intros libm_pow10. reflexivity. Qed.

(** C2.  The loop over the transfer records goes through whenever every
    record has a value that can be computed, and whenever it goes
    through: the buy counts and the sell counts of all summaries add up to
    the number of records; each contract address has one summary; the
    summary of an address counts the records of that address, its buys
    being those sent to the wallet and its sells the others; and its two
    amounts are the decimal-adjusted values of those records added up in
    order.  An address has a summary exactly when it has a record. *)
Theorem fold_counts_and_amounts :
  forall (libm_pow10 : Z -> float) (wallet : string) (token_txns : list transfer),
    (Forall (fun tx => exists v, adjusted_value libm_pow10 tx = Ok v) token_txns ->
     exists tokens_seen, fold_transfers libm_pow10 wallet [] token_txns = Ok tokens_seen)
    /\ (forall tokens_seen,
          fold_transfers libm_pow10 wallet [] token_txns = Ok tokens_seen ->
          Zsum (map buys (dict_values tokens_seen))
          + Zsum (map sells (dict_values tokens_seen))
          = Z.of_nat (List.length token_txns)
          /\ NoDup (map fst tokens_seen)
          /\ (forall addr e,
                In (addr, e) tokens_seen ->
                let recs := records_for addr token_txns in
                address e = addr
                /\ buys e + sells e = Z.of_nat (List.length recs)
                /\ buys e = Z.of_nat (List.length (filter (buy wallet) recs))
                /\ sells e = Z.of_nat (List.length (filter (sell wallet) recs))
                /\ sum_values libm_pow10 (filter (buy wallet) recs) = Ok (buy_amount e)
                /\ sum_values libm_pow10 (filter (sell wallet) recs) = Ok (sell_amount e))
          /\ (forall tx, In tx token_txns ->
                exists e, In (key_of tx, e) tokens_seen)).
Proof.
  intros libm_pow10 wallet token_txns. split.
  - intros Hall. apply (fold_total libm_pow10 wallet token_txns [] []); [apply Inv_nil|exact Hall].
  - intros tokens_seen Hfold.
    destruct (fold_inv libm_pow10 wallet token_txns [] [] tokens_seen (Inv_nil _ _) Hfold)
      as (Hnd & Hsum & Htot & _).
    simpl app in *.
    split; [now rewrite <- total_count_Zsum|]. split; [exact Hnd|]. split.
    + intros addr e Hin. cbv zeta. pose proof (Hsum addr) as Ha.
      rewrite (dict_In_get _ _ _ Hnd Hin) in Ha.
      destruct (summary_facts _ _ _ _ _ Ha) as (F1 & F2 & F3 & F4 & F5 & F6).
      repeat split; assumption.
    + intros tx Hin. pose proof (Hsum (key_of tx)) as Ha.
      destruct (dict_get (key_of tx) tokens_seen) as [e|] eqn:E.
      * exists e. now apply dict_get_In.
      * exfalso. assert (Hr : In tx (records_for (key_of tx) token_txns)).
        { apply filter_In. split; [exact Hin|apply String.eqb_refl]. }
        rewrite Ha in Hr. exact Hr.
Qed.

(** The sample wallet's three transfers fold into summaries whose counts
    add up to three. *)
Lemma fold_counts_and_amounts_witness :
  exists tokens_seen,
    fold_transfers libm_exact sample_wallet [] sample_transfers = Ok tokens_seen
    /\ Zsum (map buys (dict_values tokens_seen))
       + Zsum (map sells (dict_values tokens_seen)) = 3.
Proof.
  destruct (fold_counts_and_amounts libm_exact sample_wallet sample_transfers)
    as [Htotal Hcounts].
  destruct Htotal as [tokens_seen Hfold].
  - repeat constructor; eexists; vm_compute; reflexivity.
  - exists tokens_seen. split; [exact Hfold|].
    exact (proj1 (Hcounts tokens_seen Hfold)).
Defined.


(** C3.  [format_wallet_analysis] returns the "no activity" text if and
    only if the transfer list is empty and the balance equals zero; every
    other text it returns is a report, which differs from it. *)
Theorem no_activity_iff :
  forall (libm_pow10 : Z -> float) (wallet : string) (up : upstream),
    snd (format_wallet_analysis libm_pow10 wallet up) = Ok NO_ACTIVITY
    <-> (up_token_transactions up wallet 30 = []
         /\ py_eq_zero (up_eth_balance up wallet) = true).
Proof.
  intros libm_pow10 wallet up. split.
  - intros H.
    destruct (format_wallet_analysis libm_pow10 wallet up) as [evs r] eqn:Erun.
    simpl in H. subst r. apply report_shape in Erun.
    destruct Erun as [[Hcase _]|[_ (seen & kept & bt & ut & top & _ & _ & Hmsg)]].
    + unfold nothing_found in Hcase. apply andb_true_iff in Hcase.
      destruct Hcase as [Htx Hz]. split; [|exact Hz].
      now destruct (up_token_transactions up wallet 30).
    + symmetry in Hmsg. now apply header_not_no_activity in Hmsg.
  - intros [Etx Ez]. rewrite format_wallet_analysis_run. cbv zeta.
    now rewrite Etx, Ez.
Qed.

(** C4.  For a record whose [value] and [tokenDecimal] read as the
    integers [raw] and [d], the amount that is accumulated is
    [raw / 10 ** d], which for [d >= 0] is the float nearest to the
    quotient of [raw] by the integer [10^d]; the record counts as a buy
    exactly when
    its [to] member equals the wallet address up to letter case; a step of
    the loop that goes through adds one to the buy count and the amount to
    the buy amount of the record's token when the record is a buy, and
    does the same on the sell side otherwise, leaving the other side
    untouched; and the raw value [1000000000000000000] with 18 decimals
    gives 1.0. *)
Theorem record_amount_and_side :
  forall (libm_pow10 : Z -> float) (wallet : string) (tx : transfer),
    (forall raw d,
        int_field (value tx) 0 = Ok raw ->
        int_field (tokenDecimal tx) 18 = Ok d ->
        adjusted_value libm_pow10 tx = py_truediv (PInt raw) (pow10 libm_pow10 d)
        /\ (0 <= d ->
            adjusted_value libm_pow10 tx
            = (f <- int_truediv raw (10 ^ d) ;; Ok (PFloat f))))
    /\ (is_buy wallet tx = true <-> caseless (get_default (to tx) "") wallet)
    /\ (forall tokens_seen tokens_seen',
          fold_step libm_pow10 wallet tokens_seen tx = Ok tokens_seen' ->
          exists v e',
            adjusted_value libm_pow10 tx = Ok v
            /\ dict_get (key_of tx) tokens_seen' = Some e'
            /\ let e := match dict_get (key_of tx) tokens_seen with
                        | Some e => e
                        | None => fresh tx
                        end in
               if is_buy wallet tx
               then buys e' = buys e + 1 /\ sells e' = sells e
                    /\ py_add (buy_amount e) v = Ok (buy_amount e')
                    /\ sell_amount e' = sell_amount e
               else sells e' = sells e + 1 /\ buys e' = buys e
                    /\ py_add (sell_amount e) v = Ok (sell_amount e')
                    /\ buy_amount e' = buy_amount e)
    /\ adjusted_value libm_pow10 one_token = Ok (PFloat float_one).
Proof.
  intros libm_pow10 wallet tx. split; [|split; [|split]].
  - intros raw d Hraw Hd. split.
    + unfold adjusted_value. rewrite Hd, Hraw. reflexivity.
    + intros Hpos. unfold adjusted_value. rewrite Hd, Hraw.
      unfold rbind, pow10. apply Z.leb_le in Hpos. rewrite Hpos. reflexivity.
  - unfold is_buy. rewrite String.eqb_eq. symmetry. apply caseless_lower.
  - intros tokens_seen tokens_seen' Hstep. now apply fold_step_effect.
  - reflexivity.
Qed.

(** The sample record: its value and decimals read as [10^18] and [18]. *)
Lemma record_amount_and_side_witness :
  adjusted_value libm_exact one_token
  = (f <- int_truediv 1000000000000000000 (10 ^ 18) ;; Ok (PFloat f)).
Proof.
  apply (proj1 (record_amount_and_side libm_exact sample_wallet one_token)
           1000000000000000000 18).
  - reflexivity.
  - reflexivity.
  - lia.
Defined.

(** C5.  In every report that is returned the activity section lists
    exactly what [rank] returns of the summaries of the fold, between the
    header and the top-traded section, and nothing else: the text holds no
    other summary.  What [rank] returns is the first eight of a descending
    arrangement, by [buys + sells], of all the summaries: eight of them or,
    when there are fewer summaries, all of them, in descending order, and
    none of them is less active than a summary that was dropped. *)
Theorem report_ranking :
  forall (libm_pow10 : Z -> float) (wallet : string) (up : upstream) (msg : string),
    snd (format_wallet_analysis libm_pow10 wallet up) = Ok msg ->
    msg <> NO_ACTIVITY ->
    exists tokens_seen kept dropped eth_value_usd balance_text usd_text,
      fold_transfers libm_pow10 wallet [] (up_token_transactions up wallet 30)
      = Ok tokens_seen
      /\ rank tokens_seen = Ok kept
      /\ py_mul (up_eth_balance up wallet) (up_eth_price up) = Ok eth_value_usd
      /\ format_f false false 4 (up_eth_balance up wallet) = Ok balance_text
      /\ format_f false true 2 eth_value_usd = Ok usd_text
      /\ msg = (header wallet balance_text usd_text
                ++ activity_section kept ++ top_traded up kept)%string
      /\ Permutation (dict_values tokens_seen) (kept ++ dropped)
      /\ StronglySorted by_activity (kept ++ dropped)
      /\ List.length kept = Nat.min 8 (List.length tokens_seen)
      /\ (forall a b, In a kept -> In b dropped -> activity b <= activity a).
Proof.
  intros libm_pow10 wallet up msg Hrun Hne.
  destruct (format_wallet_analysis libm_pow10 wallet up) as [evs r] eqn:Erun.
  simpl in Hrun. subst r.
  destruct (report_text _ _ _ _ _ Erun Hne)
    as (seen & kept & usd & bt & ut & Hfold & Hrank & Husd & Hbt & Hut & Hmsg).
  destruct (rank_spec seen) as (kept' & dropped & Hrank' & Hperm & Hsorted & Hlen & Hge).
  rewrite Hrank in Hrank'. inversion Hrank'; subst kept'.
  exists seen, kept, dropped, usd, bt, ut. repeat split; assumption.
Qed.

(** The report on a wallet that moved nine tokens: the eight most active
    ones are listed, most active first and equally active ones as they
    first occurred; the least active one, which occurred first, is left
    out. *)
Lemma report_ranking_witness :
  exists msg tokens_seen kept dropped eth_value_usd balance_text usd_text,
    snd (format_wallet_analysis libm_exact sample_wallet busy_wallet) = Ok msg
    /\ fold_transfers libm_exact sample_wallet [] busy_transfers = Ok tokens_seen
    /\ rank tokens_seen = Ok kept
    /\ py_mul (PFloat two_and_a_half) (PFloat two_and_a_half) = Ok eth_value_usd
    /\ format_f false false 4 (PFloat two_and_a_half) = Ok balance_text
    /\ format_f false true 2 eth_value_usd = Ok usd_text
    /\ msg = (header sample_wallet balance_text usd_text
              ++ activity_section kept ++ render_top sample_info)%string
    /\ map address (dict_values tokens_seen)
       = ["0x01"; "0x02"; "0x03"; "0x04"; "0x05"; "0x06"; "0x07"; "0x08"; "0x09"]%string
    /\ map address kept
       = ["0x06"; "0x05"; "0x04"; "0x09"; "0x03"; "0x07"; "0x02"; "0x08"]%string
    /\ Permutation (dict_values tokens_seen) (kept ++ dropped)
    /\ StronglySorted by_activity (kept ++ dropped)
    /\ List.length dropped = 1%nat.
Proof.
  assert (Hrun : exists msg,
             snd (format_wallet_analysis libm_exact sample_wallet busy_wallet) = Ok msg
             /\ msg <> NO_ACTIVITY).
  { eexists. split; [vm_compute; reflexivity|]. vm_compute. discriminate. }
  destruct Hrun as (msg & Hrun & Hne).
  destruct (report_ranking libm_exact sample_wallet busy_wallet msg Hrun Hne)
    as (seen & kept & dropped & usd & bt & ut
        & H1 & H2 & H3 & H4 & H5 & H6 & H7 & H8 & H9 & _).
  assert (Hsample : exists seen' kept',
             fold_transfers libm_exact sample_wallet [] busy_transfers = Ok seen'
             /\ rank seen' = Ok kept'
             /\ map address (dict_values seen')
                = ["0x01"; "0x02"; "0x03"; "0x04"; "0x05"; "0x06"; "0x07"; "0x08"; "0x09"]%string
             /\ map address kept'
                = ["0x06"; "0x05"; "0x04"; "0x09"; "0x03"; "0x07"; "0x02"; "0x08"]%string
             /\ top_traded busy_wallet kept' = render_top sample_info).
  { do 2 eexists. split; [vm_compute; reflexivity|].
    split; [vm_compute; reflexivity|]. repeat split; vm_compute; reflexivity. }
  destruct Hsample as (seen' & kept' & E1 & E2 & E3 & E4 & E5).
  change (up_token_transactions busy_wallet sample_wallet 30) with busy_transfers in H1.
  rewrite H1 in E1. inversion E1; subst seen'.
  rewrite H2 in E2. inversion E2; subst kept'.
  rewrite E5 in H6.
  exists msg, seen, kept, dropped, usd, bt, ut.
  repeat split; try assumption.
  apply Permutation_length in H7. rewrite length_app in H7.
  apply (f_equal (@List.length string)) in E3, E4.
  rewrite length_map in E3, E4. simpl in E3, E4. lia.
Defined.

(** C6.  The lines rendered for a summary carry the label [BUYING] when it
    has more buys than sells, [SELLING] when it has more sells than buys,
    and [MIXED] when the two counts are equal. *)
Theorem dominant_action_label :
  forall token : token_entry,
    exists emoji action,
      dominant (buys token) (sells token) = (emoji, action)
      /\ render_token token
         = (emoji ++ " *" ++ symbol token ++ "* - " ++ action ++ nl
            ++ "   Buys: " ++ str_of_int (buys token)
            ++ " | Sells: " ++ str_of_int (sells token) ++ nl
            ++ "   [Chart](https://dexscreener.com/base/" ++ address token ++ ")"
            ++ nl ++ nl)%string
      /\ (buys token > sells token -> action = "BUYING"%string)
      /\ (sells token > buys token -> action = "SELLING"%string)
      /\ (buys token = sells token -> action = "MIXED"%string).
Proof.
  intros token. unfold render_token, dominant.
  destruct (buys token >? sells token) eqn:E1;
    [|destruct (sells token >? buys token) eqn:E2];
    eexists; eexists; (split; [reflexivity|]); (split; [reflexivity|]);
    rewrite ?Z.gtb_ltb, ?Z.ltb_lt, ?Z.ltb_ge in *; repeat split; intros; lia || reflexivity.
Qed.

(** C7, as the specification words it, fails: a pair on Base whose volume
    is text that is no number is not ranked with volume 0; [float()]
    raises on it and the bare [except] returns the empty list. *)
Lemma unreadable_volume_empties_trending :
  get_trending_base (Ok unreadable_pairs) = []
  /\ trending_as_specified unreadable_pairs = unreadable_pairs
  /\ get_trending_base (Ok unreadable_pairs) <> trending_as_specified unreadable_pairs.
Proof. repeat split; try reflexivity. vm_compute. discriminate. Qed.

(** C7, the order and NaN.  [float()] accepts the text [nan], and a NaN
    is not less than any volume nor any volume less than it: pairs with
    the volumes 1, NaN and 2 come back as they were given, the pair with
    the highest volume last.  This is why the amended statement gives the
    descending order for volumes other than NaN only. *)
Lemma nan_volume_not_ranked :
  mapM volume_key nan_pairs = Ok [float_one; S754_nan; S754_finite false 4503599627370496 (-51)]
  /\ get_trending_base (Ok nan_pairs) = nan_pairs
  /\ ~ StronglySorted by_volume (get_trending_base (Ok nan_pairs)).
Proof.
  split; [reflexivity|]. split; [reflexivity|].
  change (get_trending_base (Ok nan_pairs)) with nan_pairs. unfold nan_pairs.
  intros Hs. inversion Hs as [|p l _ Hall]; subst.
  inversion Hall as [|q l' _ Hrest]; subst.
  inversion Hrest as [|q' l'' (vp & vq & Hp & Hq & Hlt) _]; subst.
  vm_compute in Hp, Hq. inversion Hp; inversion Hq; subst.
  vm_compute in Hlt. discriminate.
Qed.

(** C7, amended.  [get_trending_base] keeps the pairs whose [chainId] is
    the string [base], exactly.  When the volume of every kept pair reads
    as a float, the result is the first ten of an arrangement of all the
    kept pairs, all of them when they are fewer than ten; when none of the
    volumes is a NaN the arrangement is in descending order of volume, and
    the result is the list the specification describes.  A volume that is
    missing, [null], zero or empty reads as 0.  When the volume of some
    kept pair cannot be read, and when no pair is on Base, the result is
    empty. *)
Theorem trending_ranking :
  forall pairs : list pair,
    (forall p, In p (filter on_base pairs) <-> In p pairs /\ chainId p = Some "base"%string)
    /\ (forall ks,
          mapM volume_key (filter on_base pairs) = Ok ks ->
          exists dropped,
            Permutation (filter on_base pairs) (get_trending_base (Ok pairs) ++ dropped)
            /\ List.length (get_trending_base (Ok pairs))
               = Nat.min 10 (List.length (filter on_base pairs))
            /\ (Forall not_nan ks ->
                StronglySorted by_volume (get_trending_base (Ok pairs) ++ dropped)
                /\ get_trending_base (Ok pairs) = trending_as_specified pairs))
    /\ (forall p, no_volume p -> volume_key p = Ok (S754_zero false))
    /\ (forall p e,
          In p (filter on_base pairs) -> volume_key p = Raise e ->
          get_trending_base (Ok pairs) = [])
    /\ (filter on_base pairs = [] -> get_trending_base (Ok pairs) = []).
Proof.
  intros pairs. split; [|split; [|split; [|split]]].
  - intros p. rewrite filter_In. unfold on_base.
    destruct (chainId p) as [c|].
    + split; intros [Hin Hc]; (split; [exact Hin|]).
      * apply String.eqb_eq in Hc. now subst c.
      * inversion Hc. apply String.eqb_refl.
    + split; intros [Hin Hc]; discriminate.
  - apply trending_ok.
  - apply no_volume_key.
  - intros p e Hin Hk. apply filter_In in Hin. destruct Hin as [Hin Hb].
    now apply (trending_unparseable pairs p e).
  - apply trending_none.
Qed.

(** The five Base pairs of the mixed sample come out by descending
    volume; the three pairs with a NaN among their volumes come out all
    three. *)
Lemma trending_ranking_witness :
  (exists dropped,
     Permutation (filter on_base mixed_pairs) (get_trending_base (Ok mixed_pairs) ++ dropped)
     /\ List.length (get_trending_base (Ok mixed_pairs))
        = Nat.min 10 (List.length (filter on_base mixed_pairs))
     /\ StronglySorted by_volume (get_trending_base (Ok mixed_pairs) ++ dropped)
     /\ get_trending_base (Ok mixed_pairs) = trending_as_specified mixed_pairs)
  /\ map pairAddress (get_trending_base (Ok mixed_pairs))
     = [Some "a"; Some "b"; Some "c"; Some "d"; Some "e"]%string
  /\ (exists dropped,
        Permutation (filter on_base nan_pairs) (get_trending_base (Ok nan_pairs) ++ dropped)
        /\ List.length (get_trending_base (Ok nan_pairs)) = 3%nat).
Proof.
  split; [|split; [reflexivity|]].
  - assert (Hks : exists ks, mapM volume_key (filter on_base mixed_pairs) = Ok ks
                              /\ Forall not_nan ks).
    { eexists. split; [vm_compute; reflexivity|]. repeat constructor; discriminate. }
    destruct Hks as (ks & Hks & Hnan).
    destruct (proj1 (proj2 (trending_ranking mixed_pairs)) ks Hks)
      as (dropped & H1 & H2 & H3).
    exists dropped. split; [exact H1|]. split; [exact H2|]. exact (H3 Hnan).
  - destruct (proj1 (proj2 (trending_ranking nan_pairs))
                [float_one; S754_nan; S754_finite false 4503599627370496 (-51)]) as (dropped & H1 & H2 & _).
    + reflexivity.
    + exists dropped. split; [exact H1|exact H2].
Defined.

(** C8, as the specification words it, fails: a message that carries an
    address after a space does not match the pattern, yet it is analysed. *)
Lemma padded_address_is_analysed :
  is_wallet_address padded_text = false
  /\ calls_upstream (fst (handle_message libm_exact padded_text active_wallet)) = true.
Proof. split; vm_compute; reflexivity. Qed.

(** C8, amended.  [handle_message] strips the white space around the
    message first.  The upstream services are called if and only if the
    stripped text is [0x] followed by exactly 40 hexadecimal characters;
    then the analysis of the lower-cased text runs between the two
    replies.  Any other message gets the one reply that explains what an
    address looks like and ends with an example, and nothing is fetched.
    The example address is well formed; [0x123] and [not-an-address] are
    not. *)
Theorem handle_message_validation :
  forall (libm_pow10 : Z -> float) (message_text : string) (up : upstream),
    calls_upstream (fst (handle_message libm_pow10 message_text up))
    = well_formed_address (strip message_text)
    /\ (well_formed_address (strip message_text) = true ->
        handle_message libm_pow10 message_text up
        = match format_wallet_analysis libm_pow10 (lower (strip message_text)) up with
          | (evs, Ok msg) =>
              (ANALYZING :: evs ++ [ReplyText msg (Some "Markdown"%string) true], Ok tt)
          | (evs, Raise e) => (ANALYZING :: evs, Raise e)
          end)
    /\ (well_formed_address (strip message_text) = false ->
        handle_message libm_pow10 message_text up
        = ([ReplyText INVALID_ADDRESS (Some "Markdown"%string) false], Ok tt))
    /\ (exists before,
          INVALID_ADDRESS = (before ++ "Example: `" ++ sample_text ++ "`")%string)
    /\ well_formed_address sample_text = true
    /\ well_formed_address "0x123" = false
    /\ well_formed_address "not-an-address" = false.
Proof.
  intros libm_pow10 message_text up. split; [|split; [|split; [|split]]].
  - rewrite handle_message_calls. apply is_wallet_stripped.
  - intros H. rewrite handle_message_run, is_wallet_stripped, H. reflexivity.
  - intros H. rewrite handle_message_run, is_wallet_stripped, H. reflexivity.
  - exists ("❌ That doesn't look like a valid wallet address." ++ nl ++ nl
            ++ "Send me a Base wallet address (starts with 0x, 42 characters)."
            ++ nl ++ nl)%string.
    reflexivity.
  - repeat split.
Qed.

(** The reply to [0x123]. *)
Lemma handle_message_validation_witness :
  handle_message libm_exact "0x123" active_wallet
  = ([ReplyText INVALID_ADDRESS (Some "Markdown"%string) false], Ok tt).
Proof.
  apply (proj1 (proj2 (proj2 (handle_message_validation libm_exact "0x123" active_wallet)))).
  reflexivity.
Defined.

(** C9.  A record may lack any of the members the loop reads.  Without
    [tokenDecimal] the value is divided by [10^18].  Without [value], and
    with decimals that are absent or not negative, the amount is the float
    zero.  Without [contractAddress] the key is the empty string.  Without
    [to], and for a wallet address that is not empty, the record is no
    buy.  And on every list of records that have no [value] (with decimals
    absent or not negative) or a value that can be computed, whatever
    their other members, the loop goes through and leaves, for each record
    of the list, a summary under the record's contract address, the empty
    string when it has none: the summary counts the records of that key,
    the record among them, its buys being those sent to the wallet and its
    sells the others, a record without [to] among the sells; and its two
    amounts are the adjusted values of those records added up, 0 for a
    record without [value]. *)
Theorem absent_members_defaults :
  forall (libm_pow10 : Z -> float) (wallet : string),
    (forall tx : transfer,
       (tokenDecimal tx = None ->
        adjusted_value libm_pow10 tx
        = (raw <- int_field (value tx) 0 ;; py_truediv (PInt raw) (PInt (10 ^ 18))))
       /\ (value tx = None ->
           forall d, int_field (tokenDecimal tx) 18 = Ok d -> 0 <= d ->
           adjusted_value libm_pow10 tx = Ok (PFloat (S754_zero false)))
       /\ (contractAddress tx = None -> key_of tx = ""%string)
       /\ (to tx = None -> wallet <> ""%string -> is_buy wallet tx = false))
    /\ (forall token_txns : list transfer,
          Forall (fun tx =>
                    (value tx = None
                     /\ exists d, int_field (tokenDecimal tx) 18 = Ok d /\ 0 <= d)
                    \/ exists v, adjusted_value libm_pow10 tx = Ok v)
                 token_txns ->
          exists tokens_seen,
            fold_transfers libm_pow10 wallet [] token_txns = Ok tokens_seen
            /\ forall tx, In tx token_txns ->
                 exists e,
                   let recs := records_for (get_default (contractAddress tx) "")
                                           token_txns in
                   dict_get (get_default (contractAddress tx) "") tokens_seen = Some e
                   /\ address e = get_default (contractAddress tx) ""%string
                   /\ In tx recs
                   /\ buys e = Z.of_nat (List.length (filter (buy wallet) recs))
                   /\ sells e = Z.of_nat (List.length (filter (sell wallet) recs))
                   /\ sum_values libm_pow10 (filter (buy wallet) recs) = Ok (buy_amount e)
                   /\ sum_values libm_pow10 (filter (sell wallet) recs) = Ok (sell_amount e)
                   /\ (to tx = None -> wallet <> ""%string ->
                       In tx (filter (sell wallet) recs) /\ 1 <= sells e)).
Proof.
  intros libm_pow10 wallet.
  assert (Hzero : forall tx', value tx' = None ->
            forall d, int_field (tokenDecimal tx') 18 = Ok d -> 0 <= d ->
            adjusted_value libm_pow10 tx' = Ok (PFloat (S754_zero false))).
  { intros tx' Hv d Hd Hpos. unfold adjusted_value. rewrite Hd, Hv.
    unfold int_field, rbind, pow10. pose proof Hpos as Hle.
    apply Z.leb_le in Hle. rewrite Hle.
    unfold py_truediv, int_truediv.
    assert (Hp : 0 < 10 ^ d) by (apply Z.pow_pos_nonneg; lia).
    replace (10 ^ d =? 0) with false by (symmetry; apply Z.eqb_neq; lia).
    replace (10 ^ d <? 0) with false by (symmetry; apply Z.ltb_ge; lia).
    reflexivity. }
  assert (Hsell : forall tx, to tx = None -> wallet <> ""%string ->
                             is_buy wallet tx = false).
  { intros tx Hto Hw. unfold is_buy. rewrite Hto. simpl.
    destruct wallet; [congruence|reflexivity]. }
  split.
  - intros tx. split; [|split; [|split]].
    + intros Hd. unfold adjusted_value. rewrite Hd. reflexivity.
    + apply Hzero.
    + intros Hc. unfold key_of. now rewrite Hc.
    + apply Hsell.
  - intros token_txns Hall.
    destruct (fold_total libm_pow10 wallet token_txns [] []) as [tokens_seen Hfold];
      [apply Inv_nil| |].
    { apply Forall_forall. intros tx' Hin. rewrite Forall_forall in Hall.
      destruct (Hall tx' Hin) as [(Hv & d & Hd & Hpos)|Hu]; [|exact Hu].
      eexists. now apply (Hzero tx' Hv d). }
    exists tokens_seen. split; [exact Hfold|]. intros tx Hin.
    destruct (fold_inv libm_pow10 wallet token_txns [] [] tokens_seen (Inv_nil _ _) Hfold)
      as (Hnd & Hsum & _).
    simpl app in Hsum. pose proof (Hsum (key_of tx)) as Ha.
    assert (Hr : In tx (records_for (key_of tx) token_txns)).
    { apply filter_In. split; [exact Hin|apply String.eqb_refl]. }
    destruct (dict_get (key_of tx) tokens_seen) as [e|] eqn:E;
      [|rewrite Ha in Hr; contradiction].
    destruct (summary_facts _ _ _ _ _ Ha) as (F1 & F2 & F3 & _ & F5 & F6).
    exists e. cbv zeta. change (get_default (contractAddress tx) ""%string) with (key_of tx).
    split; [exact E|]. split; [exact F1|]. split; [exact Hr|].
    split; [exact F2|]. split; [exact F3|]. split; [exact F5|]. split; [exact F6|].
    intros Hto Hw.
    assert (Hs : In tx (filter (sell wallet) (records_for (key_of tx) token_txns))).
    { apply filter_In. split; [exact Hr|]. unfold sell. now rewrite (Hsell tx Hto Hw). }
    split; [exact Hs|]. rewrite F3.
    destruct (filter (sell wallet) (records_for (key_of tx) token_txns));
      [contradiction|simpl; lia].
Qed.

(** Three records with members missing: the two without contract address
    are two sells under the empty string, with 0 and 1 token added up;
    the third is a buy of 2.5 tokens. *)
Lemma absent_members_defaults_witness :
  exists tokens_seen,
    fold_transfers libm_exact sample_wallet [] sparse_transfers = Ok tokens_seen
    /\ tokens_seen
       = [(""%string,
           {| symbol := "???"; name := "Unknown"; address := "";
              buys := 0; sells := 2;
              buy_amount := PInt 0; sell_amount := PFloat float_one |});
          ("0xaaa"%string,
           {| symbol := "TKN"; name := "Token"; address := "0xaaa";
              buys := 1; sells := 0;
              buy_amount := PFloat two_and_a_half; sell_amount := PInt 0 |})]
    /\ forall tx, In tx sparse_transfers ->
         exists e,
           dict_get (get_default (contractAddress tx) "") tokens_seen = Some e
           /\ In tx (records_for (get_default (contractAddress tx) "") sparse_transfers)
           /\ (to tx = None -> 1 <= sells e).
Proof.
  destruct (proj2 (absent_members_defaults libm_exact sample_wallet) sparse_transfers)
    as (tokens_seen & Hfold & Hall).
  - apply Forall_cons; [left; split; [reflexivity|exists 18; split; [reflexivity|lia]]|].
    apply Forall_cons; [right; eexists; vm_compute; reflexivity|].
    apply Forall_cons; [right; eexists; vm_compute; reflexivity|].
    apply Forall_nil.
  - exists tokens_seen. split; [exact Hfold|]. split.
    + assert (Hrun : fold_transfers libm_exact sample_wallet [] sparse_transfers
                     = Ok [(""%string,
                            {| symbol := "???"; name := "Unknown"; address := "";
                               buys := 0; sells := 2;
                               buy_amount := PInt 0; sell_amount := PFloat float_one |});
                           ("0xaaa"%string,
                            {| symbol := "TKN"; name := "Token"; address := "0xaaa";
                               buys := 1; sells := 0;
                               buy_amount := PFloat two_and_a_half;
                               sell_amount := PInt 0 |})])
        by (vm_compute; reflexivity).
      rewrite Hfold in Hrun. now inversion Hrun.
    + intros tx Hin. destruct (Hall tx Hin) as (e & H1 & _ & H3 & _ & _ & _ & _ & H8).
      exists e. split; [exact H1|]. split; [exact H3|].
      intros Hto. apply H8; [exact Hto|discriminate].
Defined.

(** C10.  Two messages that are well-formed addresses and differ in the
    case of letters only are handled alike: the same calls, the same
    replies, the same outcome, because the analysis runs on the lower-cased
    text. *)
Theorem casing_independent :
  forall (libm_pow10 : Z -> float) (up : upstream) (text1 text2 : string),
    well_formed_address text1 = true ->
    well_formed_address text2 = true ->
    caseless text1 text2 ->
    lower (strip text1) = lower (strip text2)
    /\ handle_message libm_pow10 text1 up = handle_message libm_pow10 text2 up.
Proof.
  intros libm_pow10 up text1 text2 H1 H2 Hcase.
  assert (Hlow : lower (strip text1) = lower (strip text2)).
  { rewrite (well_formed_strip _ H1), (well_formed_strip _ H2).
    now apply caseless_lower. }
  split; [exact Hlow|].
  rewrite !handle_message_run, Hlow.
  rewrite (well_formed_strip _ H1), (well_formed_strip _ H2).
  now rewrite (well_formed_is_wallet _ H1), (well_formed_is_wallet _ H2).
Qed.

(** The sample address in mixed case and in upper case. *)
Lemma casing_independent_witness :
  lower (strip sample_text) = lower (strip sample_upper)
  /\ handle_message libm_exact sample_text active_wallet
     = handle_message libm_exact sample_upper active_wallet.
Proof.
  apply (casing_independent libm_exact active_wallet sample_text sample_upper).
  - reflexivity.
  - reflexivity.
  - apply caseless_lower. reflexivity.
Defined.

End Claims.

(* ================================================================== *)
(** * Further properties of the code *)

Module FoldMore.

Import PyBase Gateway Bot Spec.
Import SortFacts FloatOrder Text Dict Fold Report Trending Handler.
Import Notions.

Section WithWallet.
Variable libm_pow10 : Z -> float.
Variable wallet : string.

Lemma Zsum_app (l1 l2 : list Z) : Zsum (l1 ++ l2) = Zsum l1 + Zsum l2.
Proof. induction l1 as [|x l1 IH]; simpl; lia. Qed.

Lemma bump_sides (v : pynum) (tx : transfer) (e e' : token_entry) :
  bump wallet v tx e = Ok e' ->
  buys e' = buys e + (if is_buy wallet tx then 1 else 0)
  /\ sells e' = sells e + (if is_buy wallet tx then 0 else 1)
  /\ symbol e' = symbol e /\ name e' = name e /\ address e' = address e.
Proof.
  unfold bump, add_buy, add_sell.
  destruct (is_buy wallet tx); [destruct (py_add (buy_amount e) v)
                               | destruct (py_add (sell_amount e) v)];
    simpl; intros H; inversion H; simpl; repeat split; lia.
Qed.

Lemma with_key_sums (seen : tokens_dict) (tx : transfer) :
  Zsum (map buys (dict_values (with_key seen tx))) = Zsum (map buys (dict_values seen))
  /\ Zsum (map sells (dict_values (with_key seen tx))) = Zsum (map sells (dict_values seen)).
Proof.
  unfold with_key, dict_values. destruct (dict_mem (key_of tx) seen); [now split|].
  rewrite !map_app, !Zsum_app. simpl. lia.
Qed.

Lemma fold_step_sums (seen seen' : tokens_dict) (tx : transfer) :
  fold_step libm_pow10 wallet seen tx = Ok seen' ->
  Zsum (map buys (dict_values seen'))
  = Zsum (map buys (dict_values seen)) + (if is_buy wallet tx then 1 else 0)
  /\ Zsum (map sells (dict_values seen'))
     = Zsum (map sells (dict_values seen)) + (if is_buy wallet tx then 0 else 1).
Proof.
  intros Hstep. rewrite fold_step_eq in Hstep.
  destruct (adjusted_value libm_pow10 tx) as [v|]; [|discriminate].
  unfold rbind in Hstep.
  destruct (dict_update_spec _ _ _ _ Hstep)
    as (e & e' & _ & Hbump & _ & _ & _ & d1 & d2 & Hd & Hd').
  destruct (with_key_sums seen tx) as [Wb Ws]. rewrite Hd in Wb, Ws.
  destruct (bump_sides _ _ _ _ Hbump) as (Hb & Hs & _).
  subst seen'. unfold dict_values in *.
  rewrite !map_app, !Zsum_app in *. simpl in *. lia.
Qed.

Lemma fold_sums (txs : list transfer) (seen seen' : tokens_dict) :
  fold_transfers libm_pow10 wallet seen txs = Ok seen' ->
  Zsum (map buys (dict_values seen'))
  = Zsum (map buys (dict_values seen)) + count_if (buy wallet) txs
  /\ Zsum (map sells (dict_values seen'))
     = Zsum (map sells (dict_values seen)) + count_if (sell wallet) txs.
Proof.
  revert seen. induction txs as [|tx txs IH]; simpl; intros seen H.
  - inversion H. unfold count_if. simpl. lia.
  - destruct (fold_step libm_pow10 wallet seen tx) as [seen1|] eqn:E; [|discriminate].
    simpl in H. destruct (IH _ H) as [Hb Hs].
    destruct (fold_step_sums _ _ _ E) as [Sb Ss].
    unfold count_if, buy, sell in *. simpl filter.
    destruct (is_buy wallet tx); simpl negb; cbv iota; simpl List.length; lia.
Qed.

Lemma dict_mem_keys (k : string) (d : tokens_dict) :
  dict_mem k d = existsb (String.eqb k) (map fst d).
Proof.
  unfold dict_mem. induction d as [|[k' e] d IH]; simpl; [reflexivity|].
  now rewrite IH, (String.eqb_sym k' k).
Qed.

Lemma fold_step_keys (seen seen' : tokens_dict) (tx : transfer) :
  fold_step libm_pow10 wallet seen tx = Ok seen' ->
  map fst seen'
  = map fst seen ++ (if notin (map fst seen) (key_of tx) then [key_of tx] else []).
Proof.
  intros Hstep. rewrite fold_step_eq in Hstep.
  destruct (adjusted_value libm_pow10 tx) as [v|]; [|discriminate].
  unfold rbind in Hstep.
  destruct (dict_update_spec _ _ _ _ Hstep) as (e & e' & _ & _ & _ & _ & Hkeys & _).
  rewrite Hkeys. unfold with_key, notin. rewrite dict_mem_keys.
  destruct (existsb (String.eqb (key_of tx)) (map fst seen)); simpl.
  - now rewrite app_nil_r.
  - now rewrite map_app.
Qed.

Lemma filter_twice {A : Type} (f g : A -> bool) (l : list A) :
  filter f (filter g l) = filter (fun x => g x && f x) l.
Proof.
  induction l as [|x l IH]; simpl; [reflexivity|].
  destruct (g x); simpl; [destruct (f x)|]; now rewrite IH.
Qed.

Lemma fold_keys_from (txs : list transfer) (seen seen' : tokens_dict) :
  fold_transfers libm_pow10 wallet seen txs = Ok seen' ->
  map fst seen'
  = map fst seen ++ filter (notin (map fst seen)) (first_seen (map key_of txs)).
Proof.
  revert seen. induction txs as [|tx txs IH]; simpl; intros seen H.
  - inversion H. now rewrite app_nil_r.
  - destruct (fold_step libm_pow10 wallet seen tx) as [seen1|] eqn:E; [|discriminate].
    simpl in H. rewrite (IH _ H), (fold_step_keys _ _ _ E). clear IH H E.
    set (ks := map fst seen). set (k := key_of tx).
    set (fs := first_seen (map key_of txs)).
    destruct (notin ks k) eqn:Hn.
    + rewrite <- app_assoc. simpl. rewrite filter_twice. do 2 f_equal.
      apply filter_ext. intros x.
      unfold notin. rewrite existsb_app. simpl. rewrite orb_false_r, negb_orb.
      apply andb_comm.
    + rewrite app_nil_r. f_equal. rewrite filter_twice.
      apply filter_ext_in. intros x _.
      destruct (x =? k)%string eqn:Ex; simpl; [|reflexivity].
      apply String.eqb_eq in Ex. now subst x.
Qed.

Lemma filter_all {A : Type} (l : list A) : filter (fun _ => true) l = l.
Proof. induction l as [|x l IH]; simpl; [reflexivity|now rewrite IH]. Qed.

Lemma fold_keys (txs : list transfer) (seen : tokens_dict) :
  fold_transfers libm_pow10 wallet [] txs = Ok seen ->
  map fst seen = first_seen (map key_of txs).
Proof.
  intros H. rewrite (fold_keys_from _ _ _ H). simpl. apply filter_all.
Qed.

(** The symbol and the name of a summary are those of the first record of
    its address. *)
Lemma summary_first (addr : string) (recs : list transfer) (e : token_entry) :
  summary libm_pow10 wallet addr recs = Ok e ->
  exists first rest,
    recs = first :: rest
    /\ symbol e = get_default (tokenSymbol first) "???"
    /\ name e = get_default (tokenName first) "Unknown".
Proof.
  destruct recs as [|first rest]; [discriminate|].
  rewrite summary_cons.
  destruct (Spec.sum_values libm_pow10 (filter (buy wallet) (first :: rest))); [|discriminate].
  destruct (Spec.sum_values libm_pow10 (filter (sell wallet) (first :: rest))); [|discriminate].
  unfold rbind. intros H. inversion H. exists first, rest. now repeat split.
Qed.

End WithWallet.
End FoldMore.

Module SortHead.

Import PyBase Gateway Bot Spec.
Import SortFacts FloatOrder Text Dict Fold Report Trending Handler.
Import FoldMore.
Import Notions.

Section Facts.
Context {A K : Type}.
Variable ltb : K -> K -> bool.
Variable ok : K -> Prop.
Hypothesis ltb_asym : forall a b, ok a -> ok b -> ltb a b = true -> ltb b a = false.
Hypothesis ge_trans : forall a b c, ok a -> ok b -> ok c ->
  ltb a b = false -> ltb b c = false -> ltb a c = false.

(** The head of the sorted list is the first item of the input whose key
    no other key exceeds: the items before it have smaller keys, the items
    after it have keys that are not greater. *)
Lemma sort_desc_head (l : list (K * A)) :
  keys_ok ok l -> l <> [] ->
  exists h t before after,
    sort_desc ltb l = h :: t
    /\ l = before ++ h :: after
    /\ Forall (fun b => ltb (fst b) (fst h) = true) before
    /\ Forall (fun a => ltb (fst h) (fst a) = false) after.
Proof.
  induction l as [|x l IH]; intros Hok Hne; [congruence|].
  inversion Hok as [|? ? Hx Hl]; subst.
  destruct l as [|y l'].
  - exists x, [], [], []. simpl. repeat split; constructor.
  - destruct (IH Hl ltac:(discriminate)) as (h & t & before & after & Hs & Hd & Hb & Ha).
    assert (Hin : forall z, In z (y :: l') -> ok (fst z))
      by (intros z Hz; unfold keys_ok in Hl; rewrite Forall_forall in Hl; auto).
    assert (Hh : ok (fst h)) by (apply Hin; rewrite Hd; apply in_or_app; right; now left).
    change (sort_desc ltb (x :: y :: l')) with (insert_desc ltb x (sort_desc ltb (y :: l'))).
    rewrite Hs. simpl insert_desc. destruct (ltb (fst x) (fst h)) eqn:E.
    + exists h, (insert_desc ltb x t), (x :: before), after.
      split; [reflexivity|]. split; [now rewrite Hd|].
      split; [now constructor|assumption].
    + exists x, (h :: t), [], (y :: l').
      split; [reflexivity|]. split; [reflexivity|]. split; [constructor|].
      rewrite Hd. apply Forall_app. split; [|constructor; [exact E|]].
      * rewrite Forall_forall in *. intros b Hinb.
        assert (Hokb : ok (fst b)) by (apply Hin; rewrite Hd; apply in_or_app; now left).
        apply (ge_trans (fst x) (fst h) (fst b)); auto.
      * rewrite Forall_forall in *. intros a Hina.
        assert (Hoka : ok (fst a))
          by (apply Hin; rewrite Hd; apply in_or_app; right; now right).
        apply (ge_trans (fst x) (fst h) (fst a)); auto.
Qed.

End Facts.

Lemma mapM_pure {A B : Type} (f : A -> B) (l : list A) :
  mapM (fun x => Ok (f x)) l = Ok (map f l).
Proof. induction l as [|x l IH]; simpl; [reflexivity|]. rewrite IH. reflexivity. Qed.

Lemma combine_map_self {A B : Type} (f : A -> B) (l : list A) :
  combine (map f l) l = map (fun x => (f x, x)) l.
Proof. induction l as [|x l IH]; simpl; [reflexivity|]. now rewrite IH. Qed.

(** The first ranked summary is the first summary with the highest
    activity. *)
Lemma rank_head (seen : tokens_dict) (top : token_entry) (rest : list token_entry) :
  rank seen = Ok (top :: rest) ->
  exists before after,
    dict_values seen = before ++ top :: after
    /\ Forall (fun e => activity e < activity top) before
    /\ Forall (fun e => activity e <= activity top) after.
Proof.
  unfold rank, sorted_reverse. intros H.
  rewrite mapM_pure in H. unfold rbind in H. rewrite combine_map_self in H.
  set (d := map (fun x => (activity x, x)) (dict_values seen)) in *.
  destruct (dict_values seen) as [|v vs] eqn:Ev; [discriminate|].
  destruct (sort_desc_head (A := token_entry) Z.ltb (fun _ => True)) with (l := d)
    as (h & t & before & after & Hs & Hd & Hb & Ha).
  - intros a b _ _ Hlt. apply Z.ltb_lt in Hlt. apply Z.ltb_ge. lia.
  - intros a b c _ _ _ H1 H2. apply Z.ltb_ge in H1, H2. apply Z.ltb_ge. lia.
  - apply Forall_forall. auto.
  - subst d. discriminate.
  - rewrite Hs in H. simpl in H. inversion H as [[Htop Hrest]]. clear H.
    assert (Hkey : forall p, In p d -> fst p = activity (snd p)).
    { intros p Hp. subst d. apply in_map_iff in Hp. destruct Hp as (x & <- & _). reflexivity. }
    exists (map snd before), (map snd after).
    split.
    + assert (Hsnd : map snd d = v :: vs).
      { subst d. rewrite map_map. simpl. f_equal. apply map_id. }
      rewrite <- Hsnd, Hd, map_app. reflexivity.
    + assert (Hh : fst h = activity (snd h))
        by (apply Hkey; rewrite Hd; apply in_or_app; right; now left).
      split; apply Forall_forall; intros e He; apply in_map_iff in He;
        destruct He as (p & <- & Hp).
      * rewrite Forall_forall in Hb. pose proof (Hb p Hp) as Hlt.
        rewrite (Hkey p), Hh in Hlt by (rewrite Hd; apply in_or_app; now left).
        now apply Z.ltb_lt in Hlt.
      * rewrite Forall_forall in Ha. pose proof (Ha p Hp) as Hge.
        rewrite (Hkey p), Hh in Hge by (rewrite Hd; apply in_or_app; right; now right).
        now apply Z.ltb_ge in Hge.
Qed.

End SortHead.

Module ReportMore.

Import PyBase Gateway Bot Spec.
Import SortFacts FloatOrder Text Dict Fold Report Trending Handler.
Import FoldMore SortHead.
Import Notions.

Section WithLibm.
Variable libm_pow10 : Z -> float.

Lemma fold_ok_usable (wallet : string) (txs : list transfer) (seen seen' : tokens_dict) :
  fold_transfers libm_pow10 wallet seen txs = Ok seen' ->
  Forall (usable libm_pow10) txs.
Proof.
  revert seen. induction txs as [|tx txs IH]; simpl; intros seen H; [constructor|].
  destruct (fold_step libm_pow10 wallet seen tx) as [seen1|] eqn:E; [|discriminate].
  constructor; [|now apply (IH seen1)].
  rewrite fold_step_eq in E. unfold usable.
  destruct (adjusted_value libm_pow10 tx) as [v|]; [now exists v|discriminate].
Qed.

Lemma fold_nonempty (wallet : string) (tx : transfer) (txs : list transfer)
  (seen : tokens_dict) :
  fold_transfers libm_pow10 wallet [] (tx :: txs) = Ok seen -> seen <> [].
Proof.
  intros H Hnil. subst seen.
  destruct (fold_inv libm_pow10 wallet (tx :: txs) [] [] [] (Inv_nil _ _) H)
    as (_ & Hsum & _).
  specialize (Hsum (key_of tx)). simpl in Hsum.
  unfold records_for in Hsum. simpl in Hsum. rewrite String.eqb_refl in Hsum.
  discriminate.
Qed.

Lemma rank_nonempty (seen : tokens_dict) :
  seen <> [] -> exists top rest, rank seen = Ok (top :: rest).
Proof.
  intros Hne. destruct (rank_spec seen) as (kept & dropped & Hr & _ & _ & Hlen & _).
  destruct kept as [|top rest]; [|now exists top, rest].
  destruct seen; [congruence|]. simpl in Hlen. discriminate.
Qed.

(** The calls of an analysis, by outcome. *)
Lemma analysis_trace (wallet : string) (up : upstream) :
  match format_wallet_analysis libm_pow10 wallet up with
  | (evs, Raise _) => evs = first_calls wallet
  | (evs, Ok msg) =>
      (msg = NO_ACTIVITY /\ evs = first_calls wallet)
      \/ (msg <> NO_ACTIVITY
          /\ exists seen top rest,
               fold_transfers libm_pow10 wallet [] (up_token_transactions up wallet 30)
               = Ok seen
               /\ rank seen = Ok (top :: rest)
               /\ evs = first_calls wallet ++ [CallTokenInfo (address top)])
  end.
Proof.
  rewrite format_wallet_analysis_run. cbv zeta.
  destruct (_ && _); [now left|].
  destruct (py_mul _ _); [|reflexivity].
  destruct (fold_transfers _ _ _ _) as [seen|] eqn:Ef; [|reflexivity].
  destruct (format_f false false 4 _) as [bt|]; [|reflexivity].
  destruct (format_f false true 2 _) as [ut|]; [|reflexivity].
  destruct seen as [|kv seen]; [reflexivity|].
  destruct (rank_nonempty (kv :: seen)) as (top & rest & Hr); [discriminate|].
  rewrite Hr. right. split.
  - destruct (up_token_info up (address top)).
    + rewrite string_app_assoc. apply header_not_no_activity.
    + apply header_not_no_activity.
  - now exists (kv :: seen), top, rest.
Qed.

Lemma to_float_amount (x : pynum) : amount_ok x -> exists f, to_float x = Ok f.
Proof. intros [->|[f ->]]; simpl; now eexists. Qed.

(** The balance times the price, and both texts of the header, for a
    balance that is [0] or a float and a price [float()] accepts. *)
Lemma header_numbers (balance price : pynum) :
  amount_ok balance -> fits_float price ->
  exists usd bt ut,
    py_mul balance price = Ok usd
    /\ format_f false false 4 balance = Ok bt
    /\ format_f false true 2 usd = Ok ut.
Proof.
  intros Hb [p Hp]. destruct (to_float_amount balance Hb) as [b Hbf].
  unfold format_f. rewrite Hbf. unfold rbind.
  destruct Hb as [->|[fb ->]]; destruct price as [z|fp]; simpl in *.
  - exists (PInt 0). simpl. now repeat eexists.
  - eexists. eexists. eexists. repeat split.
  - rewrite Hp. simpl. eexists. eexists. eexists. repeat split.
  - eexists. eexists. eexists. repeat split.
Qed.

(** A wallet with at least one transfer record gets its report. *)
Lemma active_wallet_report (wallet : string) (up : upstream) :
  up_token_transactions up wallet 30 <> [] ->
  Forall (usable libm_pow10) (up_token_transactions up wallet 30) ->
  amount_ok (up_eth_balance up wallet) ->
  fits_float (up_eth_price up) ->
  exists seen top rest bt ut,
    fold_transfers libm_pow10 wallet [] (up_token_transactions up wallet 30) = Ok seen
    /\ rank seen = Ok (top :: rest)
    /\ format_wallet_analysis libm_pow10 wallet up
       = (first_calls wallet ++ [CallTokenInfo (address top)],
          Ok (header wallet bt ut ++ activity_section (top :: rest)
              ++ match up_token_info up (address top) with
                 | Some info => render_top info
                 | None => ""
                 end)%string).
Proof.
  intros Hne Hall Hb Hp.
  destruct (fold_total libm_pow10 wallet _ [] [] (Inv_nil _ _) Hall) as [seen Hf].
  destruct (up_token_transactions up wallet 30) as [|tx txs] eqn:Etx; [congruence|].
  pose proof (fold_nonempty wallet tx txs seen Hf) as Hseen.
  destruct (rank_nonempty seen Hseen) as (top & rest & Hr).
  destruct (header_numbers _ _ Hb Hp) as (usd & bt & ut & Hmul & Hbt & Hut).
  exists seen, top, rest, bt, ut. split; [exact Hf|]. split; [exact Hr|].
  rewrite format_wallet_analysis_run. cbv zeta.
  rewrite Etx, Hmul, Hf, Hbt, Hut. cbn [andb].
  destruct seen as [|kv seen]; [congruence|]. rewrite Hr.
  destruct (up_token_info up (address top)).
  - now rewrite string_app_assoc.
  - now rewrite string_app_nil_r.
Qed.

(** One record whose value cannot be computed, and there is no report. *)
Lemma unreadable_record_aborts (wallet : string) (up : upstream) (tx : transfer) (e : exn) :
  In tx (up_token_transactions up wallet 30) ->
  adjusted_value libm_pow10 tx = Raise e ->
  exists e', format_wallet_analysis libm_pow10 wallet up = (first_calls wallet, Raise e').
Proof.
  intros Hin He. rewrite format_wallet_analysis_run. cbv zeta.
  destruct (up_token_transactions up wallet 30) as [|tx0 txs] eqn:Etx; [contradiction|].
  cbn [andb].
  destruct (py_mul _ _); [|now eexists].
  destruct (fold_transfers libm_pow10 wallet [] (tx0 :: txs)) as [seen|] eqn:Ef;
    [|now eexists].
  exfalso. apply fold_ok_usable in Ef. rewrite Forall_forall in Ef.
  destruct (Ef tx Hin) as [v Hv]. congruence.
Qed.

End WithLibm.
End ReportMore.

Module ApiFacts.

Import PyBase Gateway Bot Spec.
Import SortFacts FloatOrder Text Dict Fold Report Trending Handler.
Import FoldMore SortHead ReportMore.
Import Notions.

Lemma balance_unread_zero (data : result Api.balance_data) :
  balance_unread data -> py_eq_zero (Api.get_eth_balance data) = true.
Proof.
  unfold balance_unread, Api.get_eth_balance. destruct data as [d|e]; [|reflexivity].
  destruct (Api.int_of_jval _) as [wei|]; [|reflexivity].
  intros ->. reflexivity.
Qed.

Lemma balance_amount_ok (data : result Api.balance_data) :
  amount_ok (Api.get_eth_balance data).
Proof.
  unfold Api.get_eth_balance. destruct data as [d|e]; [|now left].
  destruct (Api.int_of_jval _) as [wei|]; [|now left].
  destruct (int_truediv wei (10 ^ 18)) as [f|]; [right; now exists f|now left].
Qed.

Lemma transfers_unread_nil (data : result Api.tokentx_data) :
  transfers_unread data
  <-> Api.get_token_transactions data = Api.Records []
      \/ Api.get_token_transactions data = Api.Text "".
Proof.
  unfold transfers_unread, Api.get_token_transactions.
  destruct data as [d|e]; [|split; [now left|trivial]].
  destruct (Api.tokentx_result d) as [t|]; simpl.
  - split.
    + intros [H|[H|H]]; [discriminate|left|right]; congruence.
    + intros [->| ->]; [right; now left|right; now right].
  - split; [now left|now left].
Qed.

Section WithLibm.
Variable libm_pow10 : Z -> float.


(** When the explorer answers neither request, the wallet looks empty. *)
Lemma explorer_failure_no_activity (wallet : string) (r : Api.responses) :
  balance_unread (Api.balance_response r wallet) ->
  transfers_unread (Api.tokentx_response r wallet 30) ->
  Api.format_wallet_analysis libm_pow10 wallet r = (first_calls wallet, Ok NO_ACTIVITY).
Proof.
  intros Hb Ht. unfold Api.format_wallet_analysis.
  assert (Hrun : format_wallet_analysis libm_pow10 wallet (Api.upstream_with r [])
                 = (first_calls wallet, Ok NO_ACTIVITY)).
  { rewrite format_wallet_analysis_run. cbv zeta. unfold Api.upstream_with.
    cbn [up_token_transactions up_eth_balance up_eth_price].
    now rewrite (balance_unread_zero _ Hb). }
  apply transfers_unread_nil in Ht. destruct Ht as [-> | ->]; exact Hrun.
Qed.

(** When the explorer answers the transfer request with a text, the
    analysis ends in the loop. *)
Lemma error_text_raises (wallet : string) (r : Api.responses) (c : ascii) (s : string) :
  Api.get_token_transactions (Api.tokentx_response r wallet 30)
  = Api.Text (String c s) ->
  fits_float (Api.get_eth_price (Api.price_response r)) ->
  Api.format_wallet_analysis libm_pow10 wallet r
  = (first_calls wallet, Raise AttributeError).
Proof.
  intros Ht Hp. unfold Api.format_wallet_analysis. rewrite Ht.
  destruct (header_numbers _ _ (balance_amount_ok (Api.balance_response r wallet)) Hp)
    as (usd & _ & _ & -> & _). reflexivity.
Qed.


End WithLibm.

End ApiFacts.

Module TrendingView.

Import PyBase Gateway Bot Spec.
Import SortFacts FloatOrder Text Dict Fold Report Trending Handler.
Import FoldMore SortHead ReportMore ApiFacts.
Import Notions.

Lemma mapM_ok_all {A B : Type} (f : A -> result B) (l : list A) (bs : list B) :
  mapM f l = Ok bs -> Forall (fun a => exists b, f a = Ok b) l.
Proof.
  revert bs. induction l as [|a l IH]; simpl; intros bs H; [constructor|].
  destruct (f a) as [b|] eqn:E; [|discriminate]. simpl in H.
  destruct (mapM f l) as [bs'|]; [|discriminate].
  constructor; [now exists b|now apply (IH bs')].
Qed.

Lemma in_firstn {A : Type} (n : nat) (l : list A) (x : A) :
  In x (firstn n l) -> In x l.
Proof.
  revert l. induction n as [|n IH]; intros [|y l]; simpl; try contradiction.
  intros [H|H]; [now left|right; now apply IH].
Qed.

Lemma sorted_reverse_perm {A K : Type} (ltb : K -> K -> bool) (key : A -> result K)
  (l s : list A) :
  sorted_reverse ltb key l = Ok s ->
  Permutation s l /\ Forall (fun a => exists k, key a = Ok k) l.
Proof.
  unfold sorted_reverse. destruct (mapM key l) as [ks|] eqn:Em; [|discriminate].
  unfold rbind. intros H. inversion H; subst s. split.
  - destruct (mapM_combine key l ks Em) as (H1 & _).
    rewrite <- H1 at 2. apply Permutation_map, sort_desc_perm.
  - now apply (mapM_ok_all key l ks).
Qed.

(** What [get_trending_base] returns: at most ten pairs of the body, all
    on Base, all with a volume that reads as a float. *)
Lemma trending_members (data : result Api.dex_data) :
  (List.length (Api.get_trending_base data) <= 10)%nat
  /\ forall m, In m (Api.get_trending_base data) ->
       on_base (Api.core m) = true
       /\ (exists v, volume_key (Api.core m) = Ok v)
       /\ exists d, data = Ok d /\ In m (get_default (Api.pairs d) []).
Proof.
  unfold Api.get_trending_base, rbind.
  destruct data as [d|e]; [|split; [simpl; lia|intros m []]].
  destruct (sorted_reverse _ _ _) as [s|] eqn:Es; [|split; [simpl; lia|intros m []]].
  split; [rewrite length_firstn; lia|].
  intros m Hm. apply in_firstn in Hm.
  destruct (sorted_reverse_perm _ _ _ _ Es) as [Hperm Hall].
  apply (Permutation_in _ Hperm) in Hm. rewrite Forall_forall in Hall.
  pose proof (Hall m Hm) as Hv. apply filter_In in Hm. destruct Hm as [Hin Hb].
  split; [exact Hb|]. split; [exact Hv|]. now exists d.
Qed.

Section Payload.
Context {A B K : Type}.
Variable ltb : K -> K -> bool.
Variable g : A -> B.

Local Abbreviation on_payload := (Notions.on_payload g).

Lemma insert_desc_payload (x : K * A) (l : list (K * A)) :
  map on_payload (insert_desc ltb x l) = insert_desc ltb (on_payload x) (map on_payload l).
Proof.
  induction l as [|y l IH]; simpl; [reflexivity|].
  destruct (ltb (fst x) (fst y)); simpl; [now rewrite IH|reflexivity].
Qed.

Lemma sort_desc_payload (l : list (K * A)) :
  map on_payload (sort_desc ltb l) = sort_desc ltb (map on_payload l).
Proof.
  induction l as [|x l IH]; simpl; [reflexivity|].
  now rewrite insert_desc_payload, IH.
Qed.

Lemma combine_payload (ks : list K) (l : list A) :
  combine ks (map g l) = map on_payload (combine ks l).
Proof.
  revert ks. induction l as [|a l IH]; intros [|k ks]; simpl; try reflexivity.
  now rewrite IH.
Qed.

Lemma mapM_payload (key : B -> result K) (l : list A) :
  mapM key (map g l) = mapM (fun x => key (g x)) l.
Proof. induction l as [|a l IH]; simpl; [reflexivity|now rewrite IH]. Qed.

(** Sorting items by a key of their payload and then taking the payloads
    is sorting the payloads. *)
Lemma sorted_reverse_payload (key : B -> result K) (l : list A) :
  sorted_reverse ltb key (map g l)
  = (s <- sorted_reverse ltb (fun x => key (g x)) l ;; Ok (map g s)).
Proof.
  unfold sorted_reverse. rewrite mapM_payload.
  destruct (mapM (fun x => key (g x)) l) as [ks|]; [|reflexivity].
  unfold rbind. rewrite combine_payload, <- sort_desc_payload, !map_map. reflexivity.
Qed.

End Payload.

Lemma filter_map_swap {A B : Type} (f : B -> bool) (g : A -> B) (l : list A) :
  filter f (map g l) = map g (filter (fun x => f (g x)) l).
Proof.
  induction l as [|a l IH]; simpl; [reflexivity|].
  destruct (f (g a)); simpl; now rewrite IH.
Qed.

(** [Api.get_trending_base] is [Bot.get_trending_base] carried over to
    whole pair objects. *)
Lemma trending_cores (data : result Api.dex_data) :
  map Api.core (Api.get_trending_base data) = Bot.get_trending_base (cores_of data).
Proof.
  unfold Api.get_trending_base, Bot.get_trending_base, cores_of, trending_of.
  destruct data as [d|e]; [|reflexivity]. unfold rbind at 1 3 4. cbv beta iota zeta.
  rewrite filter_map_swap, sorted_reverse_payload.
  destruct (sorted_reverse float_ltb _ _) as [s|]; unfold rbind; [|reflexivity].
  now rewrite firstn_map.
Qed.

Lemma concat_cons (b : string) (bs : list string) :
  String.concat "" (b :: bs) = (b ++ String.concat "" bs)%string.
Proof. destruct bs; simpl; [now rewrite string_app_nil_r|reflexivity]. Qed.

(** The loop of [format_trending] adds the entries of the numbered
    pairs. *)
Lemma trending_entries_numbered (i : Z) (l : list Api.market) (msg : string) :
  Api.trending_entries i l msg
  = (texts <- mapM (fun p => Api.trending_entry (fst p) (snd p)) (numbered i l) ;;
     Ok (msg ++ String.concat "" texts)%string).
Proof.
  revert i msg. induction l as [|pair rest IH]; intros i msg;
    cbn [Api.trending_entries numbered mapM fst snd rbind].
  - cbn [String.concat]. now rewrite string_app_nil_r.
  - destruct (Api.trending_entry i pair) as [entry|]; cbn [rbind]; [|reflexivity].
    rewrite IH.
    destruct (mapM _ (numbered (i + 1) rest)) as [texts|]; cbn [rbind]; [|reflexivity].
    now rewrite concat_cons, string_app_assoc.
Qed.

Lemma format_trending_run (data : result Api.dex_data) :
  Api.format_trending data
  = match Api.get_trending_base data with
    | [] => Ok Api.COULD_NOT_FETCH
    | listed =>
        texts <- mapM (fun p => Api.trending_entry (fst p) (snd p)) (numbered 1 listed) ;;
        Ok (Api.TRENDING_HEADER ++ String.concat "" texts)%string
    end.
Proof.
  unfold Api.format_trending.
  destruct (trending_members data) as [Hlen _].
  destruct (Api.get_trending_base data) as [|m l] eqn:E; [reflexivity|].
  rewrite firstn_all2 by exact Hlen. apply trending_entries_numbered.
Qed.

Lemma numbered_snd (i : Z) (l : list Api.market) : map snd (numbered i l) = l.
Proof. revert i. induction l as [|m l IH]; intros i; simpl; [reflexivity|now rewrite IH]. Qed.

Lemma numbered_nth (i : Z) (l : list Api.market) (n : nat) (m : Api.market) :
  nth_error l n = Some m -> nth_error (numbered i l) n = Some (i + Z.of_nat n, m).
Proof.
  revert i n. induction l as [|x l IH]; intros i [|n]; simpl; try discriminate.
  - intros H. inversion H. now rewrite Z.add_0_r.
  - intros H. rewrite (IH (i + 1) n H). do 2 f_equal. lia.
Qed.

Lemma trending_entry_ok (i : Z) (m : Api.market) :
  priced m -> (exists v, volume_key (Api.core m) = Ok v) ->
  exists t, Api.trending_entry i m = Ok t.
Proof.
  intros [[p Hp] [c Hc]] [v Hv]. unfold Api.trending_entry.
  rewrite Hp, Hc, Hv. simpl. now eexists.
Qed.

Lemma trending_entry_raise (i : Z) (m : Api.market) :
  (exists e, Api.price_of m = Raise e) \/ (exists e, Api.change_of m = Raise e) ->
  exists e, Api.trending_entry i m = Raise e.
Proof.
  unfold Api.trending_entry. intros [[e He]|[e He]].
  - rewrite He. simpl. now eexists.
  - rewrite He. destruct (Api.price_of m); simpl; now eexists.
Qed.

Lemma mapM_Forall2 {A B : Type} (f : A -> result B) (l : list A) (bs : list B) :
  mapM f l = Ok bs -> Forall2 (fun a b => f a = Ok b) l bs.
Proof.
  revert bs. induction l as [|a l IH]; simpl; intros bs H.
  - inversion H. constructor.
  - destruct (f a) as [b|] eqn:E; [|discriminate]. simpl in H.
    destruct (mapM f l) as [bs'|]; [|discriminate]. simpl in H.
    inversion H. constructor; [exact E|now apply IH].
Qed.

(** The run of [trending_command], effect by effect. *)
Lemma trending_command_run (data : result Api.dex_data) (up : upstream) :
  Api.trending_command data up
  = match Api.format_trending data with
    | Ok msg => ([Api.FETCHING; ReplyText msg (Some "Markdown"%string) true], Ok tt)
    | Raise e => ([Api.FETCHING], Raise e)
    end.
Proof.
  unfold Api.trending_command, bind, reply_text, lift, Api.FETCHING.
  destruct (Api.format_trending data); reflexivity.
Qed.

End TrendingView.

Module HandlerMore.

Import PyBase Gateway Bot Spec.
Import SortFacts FloatOrder Text Dict Fold Report Trending Handler.
Import FoldMore SortHead ReportMore ApiFacts TrendingView.
Import Notions.

Lemma list_ascii_lower (s : string) :
  list_ascii_of_string (lower s) = map lower_char (list_ascii_of_string s).
Proof. induction s as [|c s IH]; simpl; [reflexivity|now rewrite IH]. Qed.

Lemma lower_char_fixed (c : ascii) : is_upper c = false -> lower_char c = c.
Proof. unfold lower_char. now intros ->. Qed.

Lemma lower_char_not_upper (c : ascii) : is_upper (lower_char c) = false.
Proof.
  destruct (is_upper c) eqn:E.
  - unfold is_upper. rewrite code_lower_char, E. apply is_upper_spec in E.
    apply andb_false_iff. right. apply N.leb_gt. lia.
  - now rewrite lower_char_fixed.
Qed.

Lemma lower_idempotent (s : string) : lower (lower s) = lower s.
Proof.
  induction s as [|c s IH]; simpl; [reflexivity|].
  now rewrite IH, (lower_char_fixed _ (lower_char_not_upper c)).
Qed.

Lemma is_hex_lower (c : ascii) : is_hex c = true -> is_hex (lower_char c) = true.
Proof.
  unfold is_hex, is_digit. rewrite code_lower_char.
  destruct (is_upper c) eqn:E.
  - apply is_upper_spec in E.
    rewrite !orb_true_iff, !andb_true_iff, !N.leb_le. lia.
  - auto.
Qed.

Lemma lower_well_formed (s : string) :
  well_formed_address s = true -> well_formed_address (lower s) = true.
Proof.
  unfold well_formed_address. rewrite list_ascii_lower.
  destruct (list_ascii_of_string s) as [|c0 [|c1 rest]]; try discriminate.
  intros H. apply andb_true_iff in H as [H Hhex].
  apply andb_true_iff in H as [H Hlen]. apply andb_true_iff in H as [H0 H1].
  apply N.eqb_eq in H0, H1. simpl map.
  assert (L0 : lower_char c0 = c0)
    by (apply lower_char_fixed, andb_false_iff; left; apply N.leb_gt; lia).
  assert (L1 : lower_char c1 = c1)
    by (apply lower_char_fixed, andb_false_iff; right; apply N.leb_gt; lia).
  rewrite L0, L1, H0, H1, length_map, Hlen. simpl.
  rewrite forallb_forall in *. intros c Hc. apply in_map_iff in Hc.
  destruct Hc as (c' & <- & Hc'). apply is_hex_lower. auto.
Qed.

Lemma length_list_ascii (s : string) :
  List.length (list_ascii_of_string s) = String.length s.
Proof. induction s as [|c s IH]; simpl; [reflexivity|now rewrite IH]. Qed.

Lemma well_formed_length (s : string) :
  well_formed_address s = true -> String.length s = 42%nat.
Proof.
  unfold well_formed_address. rewrite <- length_list_ascii.
  destruct (list_ascii_of_string s) as [|c0 [|c1 rest]]; try discriminate.
  intros H. apply andb_true_iff in H as [H _]. apply andb_true_iff in H as [_ Hlen].
  apply Nat.eqb_eq in Hlen. simpl. now rewrite Hlen.
Qed.

Lemma length_substring (n m : nat) (s : string) :
  (n + m <= String.length s)%nat -> String.length (substring n m s) = m.
Proof.
  revert n m. induction s as [|c s IH]; intros [|n] [|m]; simpl; intros H;
    try reflexivity; try lia.
  - rewrite (IH 0%nat m); [reflexivity|simpl; lia].
  - apply IH. lia.
  - apply IH. lia.
Qed.

Lemma length_append (a b : string) :
  String.length (a ++ b)%string = (String.length a + String.length b)%nat.
Proof. induction a as [|c a IH]; simpl; [reflexivity|now rewrite IH]. Qed.

(** The short form of an address: the characters at positions 0 to 5, three
    dots, the characters at positions 38 to 41. *)
Lemma shorten_well_formed (address : string) :
  well_formed_address address = true ->
  shorten_address address
  = (substring 0 6 address ++ "..." ++ substring 38 4 address)%string
  /\ String.length (shorten_address address) = 13%nat.
Proof.
  intros H. apply well_formed_length in H.
  assert (E : shorten_address address
              = (substring 0 6 address ++ "..." ++ substring 38 4 address)%string).
  { unfold shorten_address, str_take, str_last. now rewrite H. }
  split; [exact E|]. rewrite E, !length_append, !length_substring by lia.
  reflexivity.
Qed.

Lemma append_inj_length (a a' b b' : string) :
  String.length a = String.length a' ->
  (a ++ b)%string = (a' ++ b')%string -> a = a' /\ b = b'.
Proof.
  revert a'. induction a as [|c a IH]; intros [|c' a']; simpl; try discriminate.
  - auto.
  - intros Hl H. inversion H. destruct (IH a') as [-> ->]; auto.
Qed.

(** Two addresses have the same short form exactly when they agree on
    their first six and their last four characters. *)
Lemma shorten_same (a b : string) :
  well_formed_address a = true -> well_formed_address b = true ->
  (shorten_address a = shorten_address b
   <-> substring 0 6 a = substring 0 6 b /\ substring 38 4 a = substring 38 4 b).
Proof.
  intros Ha Hb.
  rewrite (proj1 (shorten_well_formed a Ha)), (proj1 (shorten_well_formed b Hb)).
  apply well_formed_length in Ha, Hb. split.
  - intros H. apply append_inj_length in H.
    + destruct H as [H1 H2]. split; [exact H1|].
      now apply (append_inj_length "..." "...") in H2.
    + now rewrite !length_substring by lia.
  - intros [-> ->]. reflexivity.
Qed.

Lemma string_of_list_ascii_app (l1 l2 : list ascii) :
  string_of_list_ascii (l1 ++ l2)
  = (string_of_list_ascii l1 ++ string_of_list_ascii l2)%string.
Proof. induction l1 as [|c l1 IH]; simpl; [reflexivity|now rewrite IH]. Qed.

Lemma list_ascii_app (a b : string) :
  list_ascii_of_string (a ++ b) = list_ascii_of_string a ++ list_ascii_of_string b.
Proof. induction a as [|c a IH]; simpl; [reflexivity|now rewrite IH]. Qed.

(** What the pattern accepts: a well-formed address, alone or followed by
    one line feed. *)
Lemma is_wallet_address_spec (s : string) :
  is_wallet_address s = true
  <-> well_formed_address s = true
      \/ exists a, s = (a ++ nl)%string /\ well_formed_address a = true.
Proof.
  split.
  - intros H. pose proof H as Hw. unfold is_wallet_address in H.
    destruct (list_ascii_of_string s) as [|c0 [|c1 rest]] eqn:El; try discriminate.
    apply andb_true_iff in H as [H Hend]. apply andb_true_iff in H as [H Hhex].
    apply andb_true_iff in H as [H Hlen]. apply andb_true_iff in H as [H0 H1].
    apply Nat.eqb_eq in Hlen.
    destruct (skipn 40 rest) as [|c [|c' tl]] eqn:Esk; try discriminate.
    + left. unfold well_formed_address. rewrite El.
      assert (Hr : firstn 40 rest = rest)
        by (rewrite <- (firstn_skipn 40 rest) at 2; now rewrite Esk, app_nil_r).
      rewrite Hr in Hlen, Hhex. rewrite H0, H1, Hhex, Hlen. reflexivity.
    + right. exists (string_of_list_ascii (c0 :: c1 :: firstn 40 rest)). split.
      * rewrite <- (string_of_list_ascii_of_string s), El.
        rewrite <- (firstn_skipn 40 rest) at 1. rewrite Esk.
        change (c0 :: c1 :: firstn 40 rest ++ [c])
          with ((c0 :: c1 :: firstn 40 rest) ++ [c]).
        rewrite string_of_list_ascii_app. f_equal. simpl. unfold nl. f_equal.
        apply code_inj. apply N.eqb_eq in Hend. rewrite Hend. reflexivity.
      * unfold well_formed_address. rewrite list_ascii_of_string_of_list_ascii.
        rewrite H0, H1, Hhex, Hlen. reflexivity.
  - intros [H|(a & -> & H)]; [now apply well_formed_is_wallet|].
    unfold well_formed_address in H. unfold is_wallet_address.
    rewrite list_ascii_app.
    destruct (list_ascii_of_string a) as [|c0 [|c1 rest]]; try discriminate.
    apply andb_true_iff in H as [H Hhex]. apply andb_true_iff in H as [H Hlen].
    apply andb_true_iff in H as [H0 H1]. apply Nat.eqb_eq in Hlen.
    change ((c0 :: c1 :: rest) ++ list_ascii_of_string nl)
      with (c0 :: c1 :: (rest ++ list_ascii_of_string nl)).
    cbv iota beta. rewrite firstn_app, skipn_app, Hlen.
    rewrite firstn_all2, skipn_all2 by lia. simpl. rewrite app_nil_r.
    rewrite H0, H1, Hhex, Hlen. reflexivity.
Qed.

Section WithLibm.
Variable libm_pow10 : Z -> float.

(** The explorer is only ever asked about well-formed lower-case
    addresses. *)
Lemma explorer_calls_ok (message_text : string) (up : upstream) :
  Forall explorer_call_ok (fst (handle_message libm_pow10 message_text up)).
Proof.
  rewrite handle_message_run, is_wallet_stripped.
  destruct (well_formed_address (strip message_text)) eqn:Hwf;
    [|repeat constructor].
  set (wallet := lower (strip message_text)).
  assert (Hw : well_formed_address wallet = true /\ lower wallet = wallet)
    by (split; [now apply lower_well_formed|apply lower_idempotent]).
  pose proof (analysis_trace libm_pow10 wallet up) as Ht.
  assert (Hfirst : Forall explorer_call_ok (first_calls wallet)).
  { unfold first_calls. repeat constructor; simpl; tauto. }
  destruct (format_wallet_analysis libm_pow10 wallet up) as [evs [msg|e]]; simpl.
  - constructor; [exact I|]. apply Forall_app. split; [|repeat constructor].
    destruct Ht as [[_ ->]|[_ (seen & top & rest & _ & _ & ->)]]; [exact Hfirst|].
    apply Forall_app. split; [exact Hfirst|repeat constructor].
  - subst evs. constructor; [exact I|exact Hfirst].
Qed.

End WithLibm.
End HandlerMore.

Module Extras.

Import PyBase Gateway Bot Spec.
Import SortFacts FloatOrder Text Dict Fold Report Trending Handler.
Import FoldMore SortHead ReportMore ApiFacts TrendingView HandlerMore.
Import Notions.

Lemma summary_address (libm_pow10 : Z -> float) (wallet addr : string)
  (recs : list transfer) (e : token_entry) :
  summary libm_pow10 wallet addr recs = Ok e -> address e = addr.
Proof.
  destruct recs as [|first rest]; [discriminate|].
  rewrite summary_cons.
  destruct (Spec.sum_values libm_pow10 (filter (buy wallet) (first :: rest))); [|discriminate].
  destruct (Spec.sum_values libm_pow10 (filter (sell wallet) (first :: rest))); [|discriminate].
  unfold rbind. intros H. now inversion H.
Qed.

(** X1.  The upstream calls of [format_wallet_analysis], by outcome.  It
    always asks for the price, the balance and the last 30 transfers, in
    this order.  When it raises, and when it returns the "no activity"
    text, it asks nothing more.  When it returns a report it asks once
    more, for the token information of the first ranked summary. *)
Theorem analysis_call_trace :
  forall (libm_pow10 : Z -> float) (wallet : string) (up : upstream),
    match format_wallet_analysis libm_pow10 wallet up with
    | (evs, Raise _) => evs = first_calls wallet
    | (evs, Ok msg) =>
        (msg = NO_ACTIVITY /\ evs = first_calls wallet)
        \/ (msg <> NO_ACTIVITY
            /\ exists seen top rest,
                 fold_transfers libm_pow10 wallet []
                   (up_token_transactions up wallet 30) = Ok seen
                 /\ rank seen = Ok (top :: rest)
                 /\ evs = first_calls wallet ++ [CallTokenInfo (address top)])
    end.
Proof. intros. apply analysis_trace. Qed.

(** X2.  A wallet with at least one transfer record, all of whose values
    can be computed, gets its report, for a balance that is [0] or a float
    and a price [float()] accepts: the header, the ranked summaries and,
    when the token information of the first one is there, the top-traded
    section. *)
Theorem active_wallet_gets_report :
  forall (libm_pow10 : Z -> float) (wallet : string) (up : upstream),
    up_token_transactions up wallet 30 <> [] ->
    Forall (usable libm_pow10) (up_token_transactions up wallet 30) ->
    amount_ok (up_eth_balance up wallet) ->
    fits_float (up_eth_price up) ->
    exists seen top rest bt ut,
      fold_transfers libm_pow10 wallet [] (up_token_transactions up wallet 30) = Ok seen
      /\ rank seen = Ok (top :: rest)
      /\ format_wallet_analysis libm_pow10 wallet up
         = (first_calls wallet ++ [CallTokenInfo (address top)],
            Ok (header wallet bt ut ++ activity_section (top :: rest)
                ++ match up_token_info up (address top) with
                   | Some info => render_top info
                   | None => ""
                   end)%string).
Proof. intros. now apply active_wallet_report. Qed.

Lemma active_wallet_gets_report_witness :
  exists seen top rest bt ut,
    fold_transfers libm_exact sample_wallet [] sample_transfers = Ok seen
    /\ rank seen = Ok (top :: rest)
    /\ format_wallet_analysis libm_exact sample_wallet active_wallet
       = (first_calls sample_wallet ++ [CallTokenInfo (address top)],
          Ok (header sample_wallet bt ut ++ activity_section (top :: rest)
              ++ render_top sample_info)%string).
Proof.
  apply (active_wallet_gets_report libm_exact sample_wallet active_wallet).
  - discriminate.
  - repeat constructor; eexists; vm_compute; reflexivity.
  - right. now eexists.
  - eexists. reflexivity.
Defined.

(** X3.  One transfer record whose value cannot be computed, and the user
    gets no report: [handle_message] sends the acknowledgement, the three
    first requests go out, and the exception leaves the handler. *)
Theorem unreadable_record_no_report :
  forall (libm_pow10 : Z -> float) (message_text : string) (up : upstream)
         (tx : transfer) (e : exn),
    well_formed_address (strip message_text) = true ->
    In tx (up_token_transactions up (lower (strip message_text)) 30) ->
    adjusted_value libm_pow10 tx = Raise e ->
    exists e',
      handle_message libm_pow10 message_text up
      = (ANALYZING :: first_calls (lower (strip message_text)), Raise e').
Proof.
  intros libm_pow10 message_text up tx e Hwf Hin He.
  destruct (unreadable_record_aborts libm_pow10 _ up tx e Hin He) as [e' Hrun].
  exists e'. now rewrite handle_message_run, is_wallet_stripped, Hwf, Hrun.
Qed.

Lemma unreadable_record_no_report_witness :
  exists e',
    handle_message libm_exact sample_text damaged_wallet
    = (ANALYZING :: first_calls (lower (strip sample_text)), Raise e').
Proof.
  apply (unreadable_record_no_report libm_exact sample_text damaged_wallet
           unreadable_transfer ValueError).
  - reflexivity.
  - right. now left.
  - reflexivity.
Defined.

(** X4.  Over all summaries, the buy counts add up to the number of
    records sent to the wallet and the sell counts to the number of the
    other records; when every record is sent to the wallet the buys are as
    many as the records and there is no sell. *)
Theorem fold_buy_sell_totals :
  forall (libm_pow10 : Z -> float) (wallet : string) (token_txns : list transfer)
         (tokens_seen : tokens_dict),
    fold_transfers libm_pow10 wallet [] token_txns = Ok tokens_seen ->
    Zsum (map buys (dict_values tokens_seen)) = count_if (buy wallet) token_txns
    /\ Zsum (map sells (dict_values tokens_seen)) = count_if (sell wallet) token_txns
    /\ (Forall (fun tx => is_buy wallet tx = true) token_txns ->
        Zsum (map buys (dict_values tokens_seen)) = Z.of_nat (List.length token_txns)
        /\ Zsum (map sells (dict_values tokens_seen)) = 0).
Proof.
  intros libm_pow10 wallet token_txns tokens_seen Hfold.
  destruct (fold_sums libm_pow10 wallet _ _ _ Hfold) as [Hb Hs]. simpl in Hb, Hs.
  split; [exact Hb|]. split; [exact Hs|]. intros Hall. rewrite Hb, Hs.
  unfold count_if. clear Hb Hs Hfold.
  induction Hall as [|tx txs Htx _ [IHb IHs]]; [now split|].
  unfold buy, sell in *. simpl. rewrite Htx. simpl. split; [|exact IHs].
  apply Nat2Z.inj in IHb. now rewrite IHb.
Qed.

Lemma fold_buy_sell_totals_witness :
  exists tokens_seen,
    fold_transfers libm_exact sample_wallet [] sample_transfers = Ok tokens_seen
    /\ Zsum (map buys (dict_values tokens_seen)) = count_if (buy sample_wallet) sample_transfers
    /\ Zsum (map sells (dict_values tokens_seen)) = count_if (sell sample_wallet) sample_transfers.
Proof.
  eexists. split; [vm_compute; reflexivity|].
  split; eapply (fold_buy_sell_totals libm_exact sample_wallet sample_transfers);
    vm_compute; reflexivity.
Defined.

(** X5.  After the loop [tokens_seen] holds one summary for each contract
    address of the records, under that address, in the order in which the
    addresses first occur among the records. *)
Theorem summaries_in_first_seen_order :
  forall (libm_pow10 : Z -> float) (wallet : string) (token_txns : list transfer)
         (tokens_seen : tokens_dict),
    fold_transfers libm_pow10 wallet [] token_txns = Ok tokens_seen ->
    map fst tokens_seen = first_seen (map key_of token_txns)
    /\ map address (dict_values tokens_seen) = first_seen (map key_of token_txns)
    /\ NoDup (map address (dict_values tokens_seen)).
Proof.
  intros libm_pow10 wallet token_txns tokens_seen Hfold.
  pose proof (fold_keys libm_pow10 wallet _ _ Hfold) as Hkeys.
  destruct (fold_inv libm_pow10 wallet token_txns [] [] tokens_seen
              (Inv_nil libm_pow10 wallet) Hfold) as (Hnd & Hsum & _).
  assert (Haddr : map address (dict_values tokens_seen) = map fst tokens_seen).
  { unfold dict_values. rewrite map_map. apply map_ext_in. intros [k e] Hin. simpl.
    pose proof (Hsum k) as Hk. rewrite (dict_In_get _ _ _ Hnd Hin) in Hk.
    now apply summary_address in Hk. }
  rewrite Haddr. repeat split; [exact Hkeys | exact Hkeys | exact Hnd].
Qed.

Lemma summaries_in_first_seen_order_witness :
  exists tokens_seen,
    fold_transfers libm_exact sample_wallet [] sample_transfers = Ok tokens_seen
    /\ map address (dict_values tokens_seen) = ["0xaaa"; "0xbbb"]%string.
Proof.
  eexists. split; [vm_compute; reflexivity|].
  apply (summaries_in_first_seen_order libm_exact sample_wallet sample_transfers).
  vm_compute. reflexivity.
Defined.

(** X6.  The symbol and the name of a summary are those of the first of
    the records of its address, with ["???"] and ["Unknown"] for a member
    the record lacks; the later records of the address do not change
    them. *)
Theorem summary_symbol_from_first_record :
  forall (libm_pow10 : Z -> float) (wallet : string) (token_txns : list transfer)
         (tokens_seen : tokens_dict) (token : token_entry),
    fold_transfers libm_pow10 wallet [] token_txns = Ok tokens_seen ->
    In token (dict_values tokens_seen) ->
    exists first rest,
      records_for (address token) token_txns = first :: rest
      /\ symbol token = get_default (tokenSymbol first) "???"
      /\ name token = get_default (tokenName first) "Unknown".
Proof.
  intros libm_pow10 wallet token_txns tokens_seen token Hfold Hin.
  destruct (fold_inv libm_pow10 wallet token_txns [] [] tokens_seen
              (Inv_nil libm_pow10 wallet) Hfold) as (Hnd & Hsum & _).
  unfold dict_values in Hin. apply in_map_iff in Hin.
  destruct Hin as ([k e] & He & Hin). simpl in He. subst e.
  pose proof (Hsum k) as Hk. rewrite (dict_In_get _ _ _ Hnd Hin) in Hk.
  simpl in Hk. rewrite (summary_address _ _ _ _ _ Hk).
  now apply summary_first in Hk.
Qed.

Lemma summary_symbol_from_first_record_witness :
  exists tokens_seen token rest first others,
    fold_transfers libm_exact sample_wallet [] renamed_transfers = Ok tokens_seen
    /\ dict_values tokens_seen = token :: rest
    /\ records_for (address token) renamed_transfers = first :: others
    /\ symbol token = get_default (tokenSymbol first) "???"
    /\ name token = get_default (tokenName first) "Unknown".
Proof.
  assert (Hfold : exists tokens_seen token rest,
             fold_transfers libm_exact sample_wallet [] renamed_transfers = Ok tokens_seen
             /\ dict_values tokens_seen = token :: rest).
  { do 3 eexists. split; vm_compute; reflexivity. }
  destruct Hfold as (tokens_seen & token & rest & Hfold & Hvals).
  destruct (summary_symbol_from_first_record libm_exact sample_wallet renamed_transfers
              tokens_seen token Hfold) as (first & others & H1 & H2 & H3).
  - rewrite Hvals. now left.
  - exists tokens_seen, token, rest, first, others. repeat split; assumption.
Defined.

(** X7.  The token whose information a report asks for is the most
    active one, and of several equally active ones the one whose address
    came first among the records: every summary before it in
    [tokens_seen] is strictly less active, no summary after it is more
    active. *)
Theorem top_token_most_active :
  forall (libm_pow10 : Z -> float) (wallet : string) (up : upstream)
         (evs : list event) (msg : string),
    format_wallet_analysis libm_pow10 wallet up = (evs, Ok msg) ->
    msg <> NO_ACTIVITY ->
    exists tokens_seen top before after,
      fold_transfers libm_pow10 wallet [] (up_token_transactions up wallet 30)
      = Ok tokens_seen
      /\ evs = first_calls wallet ++ [CallTokenInfo (address top)]
      /\ dict_values tokens_seen = before ++ top :: after
      /\ Forall (fun e => activity e < activity top) before
      /\ Forall (fun e => activity e <= activity top) after.
Proof.
  intros libm_pow10 wallet up evs msg Hrun Hne.
  pose proof (analysis_trace libm_pow10 wallet up) as Htrace. rewrite Hrun in Htrace.
  destruct Htrace as [[Hno _]|[_ (seen & top & rest & Hfold & Hrank & Hevs)]];
    [contradiction|].
  destruct (rank_head seen top rest Hrank) as (before & after & Hd & Hb & Ha).
  exists seen, top, before, after. repeat split; assumption.
Qed.

Lemma top_token_most_active_witness :
  exists evs msg tokens_seen top before after,
    format_wallet_analysis libm_exact sample_wallet active_wallet = (evs, Ok msg)
    /\ fold_transfers libm_exact sample_wallet [] sample_transfers = Ok tokens_seen
    /\ evs = first_calls sample_wallet ++ [CallTokenInfo (address top)]
    /\ dict_values tokens_seen = before ++ top :: after
    /\ Forall (fun e => activity e < activity top) before
    /\ Forall (fun e => activity e <= activity top) after.
Proof.
  assert (Hrun : exists evs msg,
             format_wallet_analysis libm_exact sample_wallet active_wallet = (evs, Ok msg)
             /\ msg <> NO_ACTIVITY).
  { do 2 eexists. split; [vm_compute; reflexivity|]. vm_compute. discriminate. }
  destruct Hrun as (evs & msg & Hrun & Hne).
  destruct (top_token_most_active libm_exact sample_wallet active_wallet evs msg Hrun Hne)
    as (seen & top & before & after & H1 & H2 & H3 & H4 & H5).
  exists evs, msg, seen, top, before, after. repeat split; assumption.
Defined.

(** X8.  What a failed lookup of the explorer looks like, for a message
    with a well-formed address.  When the balance request fails or gives
    a result that reads as no integer or as 0, and the transfer request
    fails or gives no result, no record or the empty text, the reply is
    the "no activity" text, as for a wallet that is empty.  When the
    transfer request gives a text that is not empty, as the explorer's
    error body does, the text is looped over as if it were the records:
    [AttributeError] leaves the handler after the acknowledgement and
    the three requests, and nothing more is sent. *)
Theorem explorer_failure_outcomes :
  forall (libm_pow10 : Z -> float) (message_text : string) (r : Api.responses),
    well_formed_address (strip message_text) = true ->
    (balance_unread (Api.balance_response r (lower (strip message_text))) ->
     transfers_unread (Api.tokentx_response r (lower (strip message_text)) 30) ->
     Api.handle_message libm_pow10 message_text r
     = (ANALYZING :: first_calls (lower (strip message_text))
        ++ [ReplyText NO_ACTIVITY (Some "Markdown"%string) true],
        Ok tt))
    /\ (forall (c : ascii) (s : string),
          Api.get_token_transactions
            (Api.tokentx_response r (lower (strip message_text)) 30)
          = Api.Text (String c s) ->
          fits_float (Api.get_eth_price (Api.price_response r)) ->
          Api.handle_message libm_pow10 message_text r
          = (ANALYZING :: first_calls (lower (strip message_text)),
             Raise AttributeError)).
Proof.
  intros libm_pow10 message_text r Hwf.
  unfold Api.handle_message. cbv zeta. rewrite is_wallet_stripped, Hwf. split.
  - intros Hb Ht. now rewrite (explorer_failure_no_activity libm_pow10 _ r Hb Ht).
  - intros c s Ht Hp. now rewrite (error_text_raises libm_pow10 _ r c s Ht Hp).
Qed.

Lemma explorer_failure_outcomes_witness :
  Api.handle_message libm_exact sample_text all_down
  = (ANALYZING :: first_calls (lower (strip sample_text))
     ++ [ReplyText NO_ACTIVITY (Some "Markdown"%string) true],
     Ok tt)
  /\ Api.handle_message libm_exact sample_text rate_limited
     = (ANALYZING :: first_calls (lower (strip sample_text)), Raise AttributeError).
Proof.
  split.
  - apply (proj1 (explorer_failure_outcomes libm_exact sample_text all_down eq_refl)).
    + exact I.
    + exact I.
  - apply (proj2 (explorer_failure_outcomes libm_exact sample_text rate_limited eq_refl)
             "M"%char "ax rate limit reached"%string).
    + reflexivity.
    + eexists. reflexivity.
Defined.



(** X11.  What [get_trending_base] returns, on whole pair objects: at
    most ten pairs, each one a pair of the response, on Base, with a
    volume [float()] accepts; and the members the ranking reads of the
    pairs returned are what the ranking gives on those members alone, so
    that the other members of a pair have no part in the choice or the
    order. *)
Theorem trending_listing :
  forall data : result Api.dex_data,
    (List.length (Api.get_trending_base data) <= 10)%nat
    /\ map Api.core (Api.get_trending_base data) = Bot.get_trending_base (cores_of data)
    /\ forall m, In m (Api.get_trending_base data) ->
         on_base (Api.core m) = true
         /\ (exists v, volume_key (Api.core m) = Ok v)
         /\ exists d, data = Ok d /\ In m (get_default (Api.pairs d) []).
Proof.
  intros data. destruct (trending_members data) as [Hlen Hin].
  split; [exact Hlen|]. split; [apply trending_cores|exact Hin].
Qed.

(** X12.  The text of [format_trending].  With nothing listed it is the
    "couldn't fetch" text.  With pairs listed, all with a price and a
    price change [float()] accepts, it is the header followed by one
    entry for each listed pair, in the listed order, numbered from 1. *)
Theorem format_trending_text :
  forall data : result Api.dex_data,
    (Api.get_trending_base data = [] ->
     Api.format_trending data = Ok Api.COULD_NOT_FETCH)
    /\ (Api.get_trending_base data <> [] ->
        Forall priced (Api.get_trending_base data) ->
        exists texts,
          Api.format_trending data
          = Ok (Api.TRENDING_HEADER ++ String.concat "" texts)%string
          /\ List.length texts = List.length (Api.get_trending_base data)
          /\ forall (n : nat) (m : Api.market),
               nth_error (Api.get_trending_base data) n = Some m ->
               exists t, nth_error texts n = Some t
                         /\ Api.trending_entry (1 + Z.of_nat n) m = Ok t).
Proof.
  intros data. rewrite format_trending_run.
  destruct (trending_members data) as [_ Hmem].
  destruct (Api.get_trending_base data) as [|m0 l] eqn:El.
  - split; [reflexivity|]. intros H. now contradiction H.
  - split; [discriminate|]. intros _ Hpriced.
    rewrite <- El in *. clear El m0 l.
    set (listed := Api.get_trending_base data) in *.
    destruct (mapM_total (fun p => Api.trending_entry (fst p) (snd p)) (numbered 1 listed))
      as [texts Htexts].
    { apply Forall_forall. intros [i m] Hin. simpl.
      assert (Hm : In m listed).
      { rewrite <- (numbered_snd 1 listed). apply in_map_iff. exists (i, m). now split. }
      apply trending_entry_ok.
      - rewrite Forall_forall in Hpriced. now apply Hpriced.
      - now apply Hmem. }
    exists texts. rewrite Htexts. unfold rbind.
    pose proof (mapM_Forall2 _ _ _ Htexts) as Hall.
    split; [reflexivity|]. split.
    + rewrite <- (Forall2_length Hall). rewrite <- (numbered_snd 1 listed) at 2.
      now rewrite length_map.
    + intros n m Hn. apply (numbered_nth 1) in Hn.
      change (1 + Z.of_nat n) with (fst (1 + Z.of_nat n, m)).
      change m with (snd (1 + Z.of_nat n, m)) at 2.
      revert Hn. generalize (1 + Z.of_nat n, m). clear Htexts. revert n.
      induction Hall as [|p t ps ts Hpt _ IH]; intros n q Hn.
      * destruct n; discriminate.
      * destruct n as [|n]; simpl in Hn.
        -- inversion Hn; subst q. exists t. split; [reflexivity|exact Hpt].
        -- now apply IH.
Qed.

Lemma format_trending_text_witness :
  exists texts,
    Api.format_trending priced_body
    = Ok (Api.TRENDING_HEADER ++ String.concat "" texts)%string
    /\ List.length texts = 2%nat.
Proof.
  destruct (format_trending_text priced_body) as [_ H].
  assert (E : Api.get_trending_base priced_body
              = [sample_market "base" (JNum (PInt 100)) "A" (JStr "2");
                 sample_market "base" (JNum (PInt 5)) "E" (JStr "0.5")])
    by (vm_compute; reflexivity).
  rewrite E in H.
  destruct H as (texts & H1 & H2 & _).
  - discriminate.
  - repeat constructor; eexists; vm_compute; reflexivity.
  - exists texts. split; assumption.
Defined.

(** X13.  [format_trending] reads the price and the price change of the
    listed pairs without a guard: when one of them is refused by
    [float()] the exception leaves [trending_command] after the first
    reply, and the user gets the "fetching" text and nothing else. *)
Theorem trending_command_unpriced :
  forall (data : result Api.dex_data) (up : upstream) (m : Api.market),
    In m (Api.get_trending_base data) ->
    (exists e, Api.price_of m = Raise e) \/ (exists e, Api.change_of m = Raise e) ->
    exists e, Api.trending_command data up = ([Api.FETCHING], Raise e).
Proof.
  intros data up m Hin Hbad.
  rewrite trending_command_run, format_trending_run.
  destruct (Api.get_trending_base data) as [|m0 l] eqn:El; [contradiction|].
  rewrite <- El in *. clear El m0 l.
  destruct (In_nth_error _ _ Hin) as [n Hn].
  apply (numbered_nth 1) in Hn. apply nth_error_In in Hn.
  destruct (trending_entry_raise (1 + Z.of_nat n) m Hbad) as [e He].
  destruct (mapM_raise (fun p => Api.trending_entry (fst p) (snd p)) _ _ e Hn He)
    as [e' ->].
  now exists e'.
Qed.

Lemma trending_command_unpriced_witness :
  exists e, Api.trending_command unpriced_body balance_only = ([Api.FETCHING], Raise e).
Proof.
  apply (trending_command_unpriced unpriced_body balance_only
           (sample_market "base" (JNum (PInt 5)) "E" (JStr "n/a"))).
  - vm_compute. now left.
  - left. exists ValueError. reflexivity.
Defined.

(** X14.  Whatever the message, every balance request and every
    transfer request [handle_message] sends carries a well-formed address
    in lower case, and every transfer request asks for 30 records. *)
Theorem explorer_calls_well_formed :
  forall (libm_pow10 : Z -> float) (message_text : string) (up : upstream),
    Forall explorer_call_ok (fst (handle_message libm_pow10 message_text up)).
Proof. intros. apply explorer_calls_ok. Qed.

(** X15.  The short form of a well-formed address is 13 characters long:
    its first six characters, three dots, its last four.  Two addresses
    have the same short form exactly when they agree on these ten
    characters, so that the short form in a report stands for many
    addresses. *)
Theorem short_form_collisions :
  forall a b : string,
    well_formed_address a = true -> well_formed_address b = true ->
    String.length (shorten_address a) = 13%nat
    /\ (shorten_address a = shorten_address b
        <-> substring 0 6 a = substring 0 6 b /\ substring 38 4 a = substring 38 4 b).
Proof.
  intros a b Ha Hb. split.
  - now apply shorten_well_formed.
  - now apply shorten_same.
Qed.

Lemma short_form_collisions_witness :
  sample_wallet <> sample_twin
  /\ shorten_address sample_wallet = shorten_address sample_twin.
Proof.
  split; [discriminate|].
  apply (proj2 (short_form_collisions sample_wallet sample_twin eq_refl eq_refl)).
  split; reflexivity.
Defined.

(** X16.  What the pattern of [handle_message] accepts: the well-formed
    addresses and, because [$] also matches before a line feed that ends
    the text, a well-formed address followed by one line feed. *)
Theorem pattern_accepts :
  forall s : string,
    is_wallet_address s = true
    <-> well_formed_address s = true
        \/ exists a, s = (a ++ nl)%string /\ well_formed_address a = true.
Proof. intros. apply is_wallet_address_spec. Qed.

(** X17.  A wallet with a balance and no transfer record never gets a
    report: for a balance that is a float other than zero and a price
    [float()] accepts, the header is built, [sorted_tokens] is read
    unbound, and the user is left with the acknowledgement. *)
Theorem balance_without_transfers_raises :
  forall (libm_pow10 : Z -> float) (message_text : string) (up : upstream),
    well_formed_address (strip message_text) = true ->
    up_token_transactions up (lower (strip message_text)) 30 = [] ->
    py_eq_zero (up_eth_balance up (lower (strip message_text))) = false ->
    amount_ok (up_eth_balance up (lower (strip message_text))) ->
    fits_float (up_eth_price up) ->
    handle_message libm_pow10 message_text up
    = (ANALYZING :: first_calls (lower (strip message_text)), Raise UnboundLocalError).
Proof.
  intros libm_pow10 message_text up Hwf Htx Hbal Hok Hp.
  rewrite handle_message_run, is_wallet_stripped, Hwf.
  rewrite format_wallet_analysis_run. cbv zeta. rewrite Htx, Hbal.
  destruct (header_numbers _ _ Hok Hp) as (usd & bt & ut & -> & -> & ->).
  reflexivity.
Qed.

Lemma balance_without_transfers_raises_witness :
  handle_message libm_exact padded_text balance_only
  = (ANALYZING :: first_calls (lower (strip padded_text)), Raise UnboundLocalError).
Proof.
  apply (balance_without_transfers_raises libm_exact padded_text balance_only).
  - reflexivity.
  - reflexivity.
  - reflexivity.
  - right. now eexists.
  - eexists. reflexivity.
Defined.

End Extras.
